(** * Property catalog front end: retry policy, error normaliser, API client
      and filter-sync controller.

    A shallow embedding of
      - src/lib/utils/errorHandler.ts   (module [ErrorHandler])
      - src/lib/utils/retry.ts          (module [Retry])
      - src/lib/api/propertyService.ts  (module [PropertyService])
      - src/hooks/useProperties.ts      (module [UseProperties])
    followed by the theorems about them.

    Conventions.  A JavaScript value of type [unknown] is a [jsval]; a
    computation that may throw (or a promise that may reject) yields a
    [completion]; code that touches the outside world threads that world
    explicitly.  Strings are byte strings (UTF-8). *)

From Stdlib Require Import ZArith QArith Qround Bool List String Ascii Lia.
From Stdlib Require Import DecimalString DecimalZ DecimalPos.
Import ListNotations.

Set Warnings "-register-all".
Local Open Scope Z_scope.
Local Open Scope string_scope.

(* ================================================================== *)
(** ** JavaScript values *)
(* ================================================================== *)

Module JS.

(** Numbers: the finite ones are rationals (every finite double is one;
    rounding of arithmetic results is not modelled), plus the two
    infinities and NaN. *)
Inductive jsnum : Type :=
| NFin (q : Q)
| NPosInf
| NNegInf
| NNaN.

Definition num_of_Z (z : Z) : jsnum := NFin (inject_Z z).

(** [a <= b] on numbers. *)
Definition num_le (a b : jsnum) : bool :=
  match a, b with
  | NNaN, _ => false
  | _, NNaN => false
  | NFin x, NFin y => Qle_bool x y
  | NNegInf, _ => true
  | _, NPosInf => true
  | NFin _, NNegInf => false
  | NPosInf, _ => false
  end.

(** [a < b] on numbers. *)
Definition num_lt (a b : jsnum) : bool :=
  match a, b with
  | NNaN, _ => false
  | _, NNaN => false
  | NFin x, NFin y => negb (Qle_bool y x)
  | NPosInf, _ => false
  | _, NNegInf => false
  | NNegInf, _ => true
  | NFin _, NPosInf => true
  end.

(** [a === b] on numbers: NaN differs from everything. *)
Definition num_eq (a b : jsnum) : bool :=
  match a, b with
  | NFin x, NFin y => Qeq_bool x y
  | NPosInf, NPosInf => true
  | NNegInf, NNegInf => true
  | _, _ => false
  end.

(** SameValueZero, the comparison of [Array.prototype.includes]:
    as [===] except that NaN equals NaN. *)
Definition num_same_value_zero (a b : jsnum) : bool :=
  match a, b with
  | NNaN, NNaN => true
  | _, _ => num_eq a b
  end.

Definition Qsign (q : Q) : comparison := (0 ?= q)%Q.

(** [a * b] on numbers (exact on the finite ones). *)
Definition num_mul (a b : jsnum) : jsnum :=
  let inf_of (pos : bool) := if pos then NPosInf else NNegInf in
  let inf_times (pos : bool) (q : Q) :=
    match Qsign q with
    | Eq => NNaN
    | Lt => inf_of pos
    | Gt => inf_of (negb pos)
    end in
  match a, b with
  | NNaN, _ | _, NNaN => NNaN
  | NFin x, NFin y => NFin (x * y)
  | NFin x, NPosInf | NPosInf, NFin x => inf_times true x
  | NFin x, NNegInf | NNegInf, NFin x => inf_times false x
  | NPosInf, NPosInf | NNegInf, NNegInf => NPosInf
  | NPosInf, NNegInf | NNegInf, NPosInf => NNegInf
  end.

(** What [instanceof] can tell about an object: [KTypeError] stands for
    instances of TypeError, [KError] for instances of Error that are not
    TypeErrors (Error itself, SyntaxError, ...), [KPlain] for the rest. *)
Inductive objkind : Type := KPlain | KError | KTypeError.

(** Values: primitives, arrays, and objects given by their kind and their
    own data properties (first binding of a key wins).  Functions, symbols
    and accessor properties are not modelled. *)
Inductive jsval : Type :=
| JUndefined
| JNull
| JBool (b : bool)
| JNum (n : jsnum)
| JStr (s : string)
| JArr (elts : list jsval)
| JObj (k : objkind) (props : list (string * jsval)).

(** The outcome of evaluating an expression, or of awaiting a promise. *)
Inductive completion (A : Type) : Type :=
| Returns (a : A)
| Throws (e : jsval).
Arguments Returns {A} a.
Arguments Throws {A} e.

Definition obj (props : list (string * jsval)) : jsval := JObj KPlain props.

(** An instance of TypeError as the engine raises it. *)
Definition type_error (msg : string) : jsval :=
  JObj KTypeError [("message", JStr msg)].

Fixpoint lookup {A : Type} (key : string) (props : list (string * A)) : option A :=
  match props with
  | [] => None
  | (k, v) :: rest => if String.eqb k key then Some v else lookup key rest
  end.

Definition is_error_kind (k : objkind) : bool :=
  match k with
  | KPlain => false
  | KError | KTypeError => true
  end.

(** [typeof v === "object"] *)
Definition typeof_object (v : jsval) : bool :=
  match v with
  | JNull | JArr _ | JObj _ _ => true
  | _ => false
  end.

(** [key in v] for a [v] that is an object.  Beside the own properties,
    instances of Error inherit [message] from Error.prototype.  Only used
    with the keys message, statusCode and data. *)
Definition has_property (key : string) (v : jsval) : bool :=
  match v with
  | JObj k props =>
      match lookup key props with
      | Some _ => true
      | None => is_error_kind k && String.eqb key "message"
      end
  | _ => false
  end.

(** The [in] operator: a TypeError when the right operand is no object. *)
Definition in_operator (key : string) (v : jsval) : completion bool :=
  match v with
  | JArr _ | JObj _ _ => Returns (has_property key v)
  | _ => Throws (type_error "Cannot use 'in' operator")
  end.

(** [v.key]: a TypeError on null and undefined; the own property of an
    object, else what Error.prototype provides, else undefined.  Only used
    with the keys message, statusCode, errors and data, which no other
    built-in prototype defines. *)
Definition get (v : jsval) (key : string) : completion jsval :=
  match v with
  | JUndefined | JNull => Throws (type_error "Cannot read properties")
  | JObj k props =>
      match lookup key props with
      | Some x => Returns x
      | None =>
          if is_error_kind k && String.eqb key "message"
          then Returns (JStr "")
          else Returns JUndefined
      end
  | _ => Returns JUndefined
  end.

Definition instanceof_TypeError (v : jsval) : bool :=
  match v with
  | JObj KTypeError _ => true
  | _ => false
  end.

Definition instanceof_Error (v : jsval) : bool :=
  match v with
  | JObj k _ => is_error_kind k
  | _ => false
  end.

Definition Array_isArray (v : jsval) : bool :=
  match v with
  | JArr _ => true
  | _ => false
  end.

(** ToBoolean *)
Definition truthy (v : jsval) : bool :=
  match v with
  | JUndefined | JNull => false
  | JBool b => b
  | JNum (NFin q) => negb (Qeq_bool q 0)
  | JNum NNaN => false
  | JNum _ => true
  | JStr s => negb (String.eqb s "")
  | JArr _ | JObj _ _ => true
  end.

(** [a || b] *)
Definition or_else (a b : jsval) : jsval := if truthy a then a else b.

(** [v === n] for a number literal [n]. *)
Definition strict_eq_num (v : jsval) (n : jsnum) : bool :=
  match v with
  | JNum m => num_eq m n
  | _ => false
  end.

(** [s.includes(sub)] on strings. *)
Fixpoint str_includes (sub s : string) : bool :=
  if prefix sub s then true
  else match s with
       | EmptyString => false
       | String _ rest => str_includes sub rest
       end.

(** [v.includes(sub)] for an arbitrary [v]: the String method on a string;
    on null and undefined the property access throws; an array searches
    its elements; the other values of the model have no callable
    [includes] (functions are not modelled), so the call throws. *)
Definition call_includes (v : jsval) (sub : string) : completion bool :=
  match v with
  | JStr s => Returns (str_includes sub s)
  | JArr elts =>
      Returns (existsb (fun x => match x with
                                 | JStr s => String.eqb s sub
                                 | _ => false
                                 end) elts)
  | JUndefined | JNull => Throws (type_error "Cannot read properties")
  | _ => Throws (type_error "includes is not a function")
  end.

(** Occurrences of a character in a string. *)
Fixpoint occurrences (c : ascii) (s : string) : nat :=
  match s with
  | EmptyString => O
  | String c' rest => ((if Ascii.eqb c' c then 1 else 0) + occurrences c rest)%nat
  end.

Definition is_string (v : jsval) : bool :=
  match v with JStr _ => true | _ => false end.

Definition is_number (v : jsval) : bool :=
  match v with JNum _ => true | _ => false end.

End JS.

(* ================================================================== *)
(** ** src/lib/utils/errorHandler.ts *)
(* ================================================================== *)

Module ErrorHandler.
Import JS.

(** Type guard for ApiError: an object, not null, with a [message] and a
    [statusCode] property.  The types of the two properties are not
    inspected. *)
Definition isApiError (error : jsval) : bool :=
  typeof_object error
  && negb (match error with JNull => true | _ => false end)
  && has_property "message" error
  && has_property "statusCode" error.

Definition network_error : jsval :=
  obj [("message", JStr "Network error. Please check your connection.");
       ("statusCode", JNum (num_of_Z 0))].

Definition unexpected_error : jsval :=
  obj [("message", JStr "An unexpected error occurred");
       ("statusCode", JNum (num_of_Z 500))].

(** [error.message], read from an object ([get] cannot throw there). *)
Definition message_of (error : jsval) : jsval :=
  match get error "message" with
  | Returns m => m
  | Throws _ => JUndefined
  end.

(** Parse and normalize errors from different sources. *)
Definition parseError (error : jsval) : completion jsval :=
  (* API Error (already structured) *)
  if isApiError error then Returns error
  else
    (* Fetch/Network errors: the test of the conjunction *)
    let fetch_test : completion bool :=
      if instanceof_TypeError error
      then call_includes (message_of error) "fetch"
      else Returns false in
    match fetch_test with
    | Throws e => Throws e
    | Returns true => Returns network_error
    | Returns false =>
        (* Standard Error object *)
        if instanceof_Error error
        then Returns (obj [("message", message_of error);
                           ("statusCode", JNum (num_of_Z 500))])
        (* Unknown error *)
        else Returns unexpected_error
    end.

(** What the interface [ApiError] of lib/api/types.ts requires of a value:
    [message: string] and [statusCode: number]. *)
Definition typed_as_ApiError (v : jsval) : bool :=
  match get v "message", get v "statusCode" with
  | Returns (JStr _), Returns (JNum _) => true
  | _, _ => false
  end.

(** [logError] writes to the console in development and has no other
    effect; [handleError] is [parseError] followed by it. *)
Definition handleError (error : jsval) (context : list (string * jsval))
  : completion jsval :=
  parseError error.

(** A value of type [ApiError], as its interface declares it.  The
    entries of [errors] are listed as [Object.entries] enumerates them. *)
Record ApiError : Type := {
  message : string;
  statusCode : jsnum;
  errors : option (list (string * list string))
}.

(** The [string[]] behind an array of strings. *)
Fixpoint as_strings (elts : list jsval) : option (list string) :=
  match elts with
  | [] => Some []
  | JStr s :: rest =>
      match as_strings rest with
      | Some l => Some (s :: l)
      | None => None
      end
  | _ :: rest => None
  end.

(** The [Record<string, string[]>] behind the own properties of an
    object. *)
Fixpoint as_errors (props : list (string * jsval))
  : option (list (string * list string)) :=
  match props with
  | [] => Some []
  | (field, JArr elts) :: rest =>
      match as_strings elts, as_errors rest with
      | Some messages, Some l => Some ((field, messages) :: l)
      | _, _ => None
      end
  | _ :: rest => None
  end.

(** The typed view of a value that has a string [message] and a numeric
    [statusCode]; [errors] is kept when it has its declared type. *)
Definition as_ApiError (v : jsval) : option ApiError :=
  match get v "message", get v "statusCode" with
  | Returns (JStr m), Returns (JNum n) =>
      Some {| message := m;
              statusCode := n;
              errors := match get v "errors" with
                        | Returns (JObj KPlain props) => as_errors props
                        | _ => None
                        end |}
  | _, _ => None
  end.

Definition statusMessages : list (Z * string) :=
  [(0, "Unable to connect to server. Please check your internet connection.");
   (400, "Invalid request. Please check your input.");
   (401, "You are not authorized. Please log in.");
   (403, "You do not have permission to perform this action.");
   (404, "The requested resource was not found.");
   (409, "This action conflicts with existing data.");
   (422, "Validation failed. Please check your input.");
   (429, "Too many requests. Please try again later.");
   (500, "Server error. Please try again later.");
   (503, "Service temporarily unavailable. Please try again later.")].

(** [table[n]] on an object whose keys are numerals: the number is
    turned into its numeral, so it finds the entry of the integer that
    it equals, if there is one. *)
Fixpoint index_by_number (table : list (Z * string)) (n : jsnum) : option string :=
  match table with
  | [] => None
  | (k, v) :: rest =>
      if num_eq n (num_of_Z k) then Some v else index_by_number rest n
  end.

(** Get user-friendly error message:
    [statusMessages[error.statusCode] || error.message]. *)
Definition getUserFriendlyMessage (error : ApiError) : string :=
  match index_by_number statusMessages (statusCode error) with
  | Some text => if String.eqb text "" then message error else text
  | None => message error
  end.

Inductive NotificationType : Type := error_type | warning_type.

(** [ErrorNotification]; its [message] field is [text] here. *)
Record ErrorNotification : Type := {
  title : string;
  text : string;
  type : NotificationType;
  duration : option jsnum
}.

(** Create an error notification object (for toast/notification system). *)
Definition createErrorNotification (error : ApiError) : ErrorNotification :=
  let isServerError := num_le (num_of_Z 500) (statusCode error) in
  {| title := if isServerError then "Server Error" else "Error";
     text := getUserFriendlyMessage error;
     type := if isServerError then error_type else warning_type;
     duration := Some (num_of_Z 5000) |}.

(** [l.join(sep)] on an array of strings. *)
Fixpoint join (sep : string) (l : list string) : string :=
  match l with
  | [] => ""
  | [s] => s
  | s :: rest => s ++ sep ++ join sep rest
  end.

Definition newline_char : ascii := ascii_of_nat 10.

Definition newline : string := String newline_char EmptyString.

(** Validation error formatter. *)
Definition formatValidationErrors (errors : option (list (string * list string)))
  : string :=
  match errors with
  | None => ""
  | Some entries =>
      join newline
        (map (fun entry => fst entry ++ ": " ++ join ", " (snd entry)) entries)
  end.

End ErrorHandler.

(* ================================================================== *)
(** ** src/lib/utils/retry.ts *)
(* ================================================================== *)

Module Retry.
Import JS.

(** What an execution of [withRetry] does, in order. *)
Inductive event (T : Type) : Type :=
| EvCall (r : completion T)                 (* one invocation of fn and how it settled *)
| EvOnRetry (attempt : Z) (error : jsval)   (* opts.onRetry(attempt, apiError) *)
| EvSleep (ms : jsnum).                     (* await sleep(currentDelay) *)
Arguments EvCall {T} r.
Arguments EvOnRetry {T} attempt error.
Arguments EvSleep {T} ms.

(** The promise returned by an async function: settled, or still pending
    when the observation stops. *)
Inductive run (T : Type) : Type :=
| Settled (c : completion T)
| Pending.
Arguments Settled {T} c.
Arguments Pending {T}.

(** Determine if an error is retryable:
    [retryableStatusCodes.includes(error.statusCode)]. *)
Definition isRetryable (error : jsval) (retryableStatusCodes : list jsnum)
  : completion bool :=
  match get error "statusCode" with
  | Throws e => Throws e
  | Returns (JNum n) =>
      Returns (existsb (num_same_value_zero n) retryableStatusCodes)
  | Returns _ => Returns false
  end.

Section WithWorld.

(** The state of everything outside [withRetry]: the operation and the
    retry hook read and change it, and it moves on while [sleep] waits. *)
Variable World : Type.
Variable T : Type.

Definition operation : Type := World -> completion T * World.
Definition retry_hook : Type := Z -> jsval -> World -> completion unit * World.

(** [sleep(ms)]: what the rest of the world does during the wait. *)
Variable sleep : jsnum -> World -> World.

(** [RetryOptions]: every field optional; a field that is given holds
    a value of its declared type. *)
Record RetryOptions : Type := {
  maxAttempts : option jsnum;
  delayMs : option jsnum;
  backoffMultiplier : option jsnum;
  retryableStatusCodes : option (list jsnum);
  onRetry : option retry_hook
}.

(** [Required<RetryOptions>] *)
Record RequiredRetryOptions : Type := {
  r_maxAttempts : jsnum;
  r_delayMs : jsnum;
  r_backoffMultiplier : jsnum;
  r_retryableStatusCodes : list jsnum;
  r_onRetry : retry_hook
}.

Definition DEFAULT_RETRY_OPTIONS : RequiredRetryOptions := {|
  r_maxAttempts := num_of_Z 3;
  r_delayMs := num_of_Z 1000;
  r_backoffMultiplier := num_of_Z 2;
  r_retryableStatusCodes := map num_of_Z [408; 429; 500; 502; 503; 504];
  r_onRetry := fun _ _ w => (Returns tt, w)
|}.

Definition no_options : RetryOptions := {|
  maxAttempts := None; delayMs := None; backoffMultiplier := None;
  retryableStatusCodes := None; onRetry := None
|}.

Definition or_default {A : Type} (given : option A) (default : A) : A :=
  match given with
  | Some a => a
  | None => default
  end.

(** [{ ...DEFAULT_RETRY_OPTIONS, ...options }] *)
Definition merge_options (options : RetryOptions) : RequiredRetryOptions := {|
  r_maxAttempts := or_default (maxAttempts options) (r_maxAttempts DEFAULT_RETRY_OPTIONS);
  r_delayMs := or_default (delayMs options) (r_delayMs DEFAULT_RETRY_OPTIONS);
  r_backoffMultiplier :=
    or_default (backoffMultiplier options) (r_backoffMultiplier DEFAULT_RETRY_OPTIONS);
  r_retryableStatusCodes :=
    or_default (retryableStatusCodes options) (r_retryableStatusCodes DEFAULT_RETRY_OPTIONS);
  r_onRetry := or_default (onRetry options) (r_onRetry DEFAULT_RETRY_OPTIONS)
|}.

Definition result : Type := run T * list (event T) * World.

(** The [for] loop of [withRetry], entered at its condition.  [fuel]
    bounds the number of iterations that are observed.  The counter
    [attempt] is an integer, exact as long as it stays below 2^53. *)
Fixpoint retry_loop (fn : operation) (opts : RequiredRetryOptions) (fuel : nat)
    (attempt : Z) (lastError : jsval) (currentDelay : jsnum) (w : World)
  : result :=
  if negb (num_le (num_of_Z attempt) (r_maxAttempts opts))
  then (* loop left: throw lastError *)
    (Settled (Throws lastError), [], w)
  else
    match fuel with
    | O => (Pending, [], w)
    | S fuel' =>
        match fn w with
        | (Returns v, w1) => (Settled (Returns v), [EvCall (Returns v)], w1)
        | (Throws error, w1) =>
            (* Don't retry if it's the last attempt *)
            if num_eq (num_of_Z attempt) (r_maxAttempts opts)
            then (Settled (Throws error), [EvCall (Throws error)], w1)
            else
              (* Don't retry if error is not retryable *)
              match isRetryable error (r_retryableStatusCodes opts) with
              | Throws e => (Settled (Throws e), [EvCall (Throws error)], w1)
              | Returns false =>
                  (Settled (Throws error), [EvCall (Throws error)], w1)
              | Returns true =>
                  (* Call retry callback *)
                  match r_onRetry opts attempt error w1 with
                  | (Throws e, w2) =>
                      (Settled (Throws e),
                       [EvCall (Throws error); EvOnRetry attempt error], w2)
                  | (Returns _, w2) =>
                      (* Wait before next attempt, exponential backoff *)
                      let w3 := sleep currentDelay w2 in
                      let '(r, tr, w4) :=
                        retry_loop fn opts fuel' (attempt + 1) error
                          (num_mul currentDelay (r_backoffMultiplier opts)) w3 in
                      (r,
                       EvCall (Throws error) :: EvOnRetry attempt error
                         :: EvSleep currentDelay :: tr,
                       w4)
                  end
              end
        end
    end.

(** Retry a function with exponential backoff. *)
Definition withRetry (fuel : nat) (fn : operation) (options : RetryOptions)
    (w : World) : result :=
  let opts := merge_options options in
  retry_loop fn opts fuel 1 JNull (r_delayMs opts) w.

(** Number of invocations of the operation in a trace. *)
Definition invocations (tr : list (event T)) : nat :=
  List.length (filter (fun ev => match ev with EvCall _ => true | _ => false end) tr).

(** Create a retryable version of an async function:
    [(...args) => withRetry(() => fn(...args), options)]. *)
Definition makeRetryable {Args : Type} (fuel : nat) (fn : Args -> operation)
    (options : RetryOptions) (args : Args) (w : World) : result :=
  withRetry fuel (fun w0 => fn args w0) options w.

(** The waits of a trace, in order. *)
Fixpoint sleeps (tr : list (event T)) : list jsnum :=
  match tr with
  | [] => []
  | EvSleep ms :: rest => ms :: sleeps rest
  | _ :: rest => sleeps rest
  end.

(** The attempt numbers handed to the retry hook, in order. *)
Fixpoint retries (tr : list (event T)) : list Z :=
  match tr with
  | [] => []
  | EvOnRetry attempt _ :: rest => attempt :: retries rest
  | _ :: rest => retries rest
  end.


End WithWorld.

Arguments EvCall {T} r.
Arguments maxAttempts {World}.
Arguments delayMs {World}.
Arguments backoffMultiplier {World}.
Arguments retryableStatusCodes {World}.
Arguments onRetry {World}.
Arguments Build_RetryOptions {World}.
Arguments r_maxAttempts {World}.
Arguments r_delayMs {World}.
Arguments r_backoffMultiplier {World}.
Arguments r_retryableStatusCodes {World}.
Arguments r_onRetry {World}.
Arguments no_options {World}.
Arguments DEFAULT_RETRY_OPTIONS {World}.
Arguments merge_options {World}.
Arguments retry_loop {World T}.
Arguments withRetry {World T}.
Arguments invocations {T}.
Arguments makeRetryable {World T} sleep {Args}.
Arguments sleeps {T}.
Arguments retries {T}.

End Retry.

(* ================================================================== *)
(** ** src/types, src/lib/api/config.ts *)
(* ================================================================== *)

Module Types.

(** A field that may be absent (undefined), null, or hold a value. *)
Inductive nullable (A : Type) : Type :=
| Undefined
| Null
| Value (a : A).
Arguments Undefined {A}.
Arguments Null {A}.
Arguments Value {A} a.

(** Numeric fields hold integers here: amounts in the safe-integer range,
    for which [Number.prototype.toString] is the plain decimal numeral. *)
Record Property : Type := {
  id : string;
  name : string;
  description : string;
  addressProperty : string;
  type : string;
  priceProperty : Z;
  imageUrl : option string;
  active : bool;
  createdAt : string;
  idOwner : option string
}.

Record Category : Type := {
  cat_id : string;
  cat_name : string;
  color : string
}.

(** [PropertyFilter]; also the parameter type of [getProperties]. *)
Record PropertyFilter : Type := {
  f_name : option string;          (* name?: string *)
  f_address : option string;       (* address?: string *)
  f_priceMin : nullable Z;         (* priceMin?: number | null *)
  f_priceMax : nullable Z;         (* priceMax?: number | null *)
  f_type : nullable string;        (* type?: string | null *)
  f_active : nullable bool         (* active?: boolean | null *)
}.

(** The filter [{}]. *)
Definition empty_filter : PropertyFilter := {|
  f_name := None; f_address := None; f_priceMin := Undefined;
  f_priceMax := Undefined; f_type := Undefined; f_active := Undefined
|}.

End Types.

Module Config.

Definition API_CONFIG_headers : list (string * string) :=
  [("Content-Type", "application/json")].

Definition API_ENDPOINTS_properties : string := "/properties".
Definition API_ENDPOINTS_categories : string := "/categories".
Definition API_ENDPOINTS_upload : string := "/upload/image".

(** [API_CONFIG.baseUrl] when the environment does not override it. *)
Definition default_baseUrl : string := "http://localhost:5000/api".

End Config.

(* ================================================================== *)
(** ** URLSearchParams and number formatting *)
(* ================================================================== *)

Module Url.

Definition hex_digit (n : N) : ascii :=
  match n with
  | 0%N => "0" | 1%N => "1" | 2%N => "2" | 3%N => "3" | 4%N => "4"
  | 5%N => "5" | 6%N => "6" | 7%N => "7" | 8%N => "8" | 9%N => "9"
  | 10%N => "A" | 11%N => "B" | 12%N => "C" | 13%N => "D" | 14%N => "E"
  | _ => "F"
  end%char.

Definition in_range (lo hi c : ascii) : bool :=
  (N_of_ascii lo <=? N_of_ascii c)%N && (N_of_ascii c <=? N_of_ascii hi)%N.

(** Bytes that the application/x-www-form-urlencoded serializer leaves
    as they are: ASCII alphanumerics and [*], [-], [.], [_]. *)
Definition unreserved (c : ascii) : bool :=
  in_range "a" "z" c || in_range "A" "Z" c || in_range "0" "9" c
  || Ascii.eqb c "*" || Ascii.eqb c "-" || Ascii.eqb c "." || Ascii.eqb c "_".

Definition encode_byte (c : ascii) : string :=
  if unreserved c then String c EmptyString
  else if Ascii.eqb c " " then "+"
  else String "%" (String (hex_digit (N_of_ascii c / 16))
                     (String (hex_digit (N_of_ascii c mod 16)) EmptyString)).

Fixpoint urlencode (s : string) : string :=
  match s with
  | EmptyString => EmptyString
  | String c rest => encode_byte c ++ urlencode rest
  end.

(** [URLSearchParams]: the list of appended pairs, in order. *)
Definition URLSearchParams : Type := list (string * string).

Definition append (params : URLSearchParams) (key value : string) : URLSearchParams :=
  (params ++ [(key, value)])%list.

Definition pair_toString (p : string * string) : string :=
  urlencode (fst p) ++ "=" ++ urlencode (snd p).

(** [params.toString()] *)
Fixpoint toString (params : URLSearchParams) : string :=
  match params with
  | [] => ""
  | [p] => pair_toString p
  | p :: rest => pair_toString p ++ "&" ++ toString rest
  end.

(** [n.toString()] for an integer [n]. *)
Definition Number_toString (n : Z) : string :=
  NilZero.string_of_int (Z.to_int n).

(** [b.toString()] for a boolean. *)
Definition Boolean_toString (b : bool) : string :=
  if b then "true" else "false".

End Url.

(* ================================================================== *)
(** ** src/lib/api/propertyService.ts *)
(* ================================================================== *)

Module PropertyService.
Import JS Types.

(** [PropertyInput] and [Partial<PropertyInput>] are only ever handed to
    [JSON.stringify]; they are kept as the value that is serialized. *)
Definition PropertyInput : Type := jsval.

(** A [File] is an opaque handle. *)
Definition File : Type := string.

Inductive BodyInit : Type :=
| JsonText (v : jsval)        (* JSON.stringify(v) *)
| FormData (file : File).     (* a FormData with the single field "file" *)

Record RequestInit : Type := {
  method : option string;
  headers : list (string * string);
  body : option BodyInit
}.

(** What the client reads of a [Response].  [json] is the outcome of
    [response.json()]; [status] and [statusText] are whatever the
    transport (or a test double) put there. *)
Record Response : Type := {
  ok : bool;
  status : jsval;
  statusText : jsval;
  json : completion jsval
}.

(** [throw c]: the value of [c] is thrown, unless computing it threw. *)
Definition throw {A : Type} (c : completion jsval) : completion A :=
  match c with
  | Returns v => Throws v
  | Throws e => Throws e
  end.

(** [{ ...base, ...extra }] on header maps. *)
Definition merge_headers (base extra : list (string * string)) : list (string * string) :=
  (filter (fun kv => match lookup (fst kv) extra with
                     | Some _ => false
                     | None => true
                     end) base ++ extra)%list.

(** [filters?.name], [filters?.address]: undefined when [filters] is. *)
Definition optional {A : Type} (filters : option PropertyFilter)
    (field : PropertyFilter -> option A) : option A :=
  match filters with
  | Some f => field f
  | None => None
  end.

(** [filters?.priceMin] and the like. *)
Definition optional_nullable {A : Type} (filters : option PropertyFilter)
    (field : PropertyFilter -> nullable A) : nullable A :=
  match filters with
  | Some f => field f
  | None => Undefined
  end.

(** [if (s) params.append(key, s)] for a string-or-undefined [s]. *)
Definition append_if_truthy (key : string) (s : option string)
    (params : Url.URLSearchParams) : Url.URLSearchParams :=
  match s with
  | Some v => if negb (String.eqb v "") then Url.append params key v else params
  | None => params
  end.

(** The same test for a field that may also be null. *)
Definition append_if_truthy_nullable (key : string) (s : nullable string)
    (params : Url.URLSearchParams) : Url.URLSearchParams :=
  match s with
  | Value v => if negb (String.eqb v "") then Url.append params key v else params
  | Undefined | Null => params
  end.

(** [if (x !== null && x !== undefined) params.append(key, x.toString())] *)
Definition append_if_present {A : Type} (key : string) (x : nullable A)
    (toString : A -> string) (params : Url.URLSearchParams) : Url.URLSearchParams :=
  match x with
  | Value v => Url.append params key (toString v)
  | Undefined | Null => params
  end.

(** Build query string from filters: the statements of [getProperties]
    from [new URLSearchParams()] to the last [append]. *)
Definition build_params (filters : option PropertyFilter) : Url.URLSearchParams :=
  let params : Url.URLSearchParams := [] in
  let params := append_if_truthy "name" (optional filters f_name) params in
  let params := append_if_truthy "address" (optional filters f_address) params in
  let params := append_if_present "priceMin" (optional_nullable filters f_priceMin)
                  Url.Number_toString params in
  let params := append_if_present "priceMax" (optional_nullable filters f_priceMax)
                  Url.Number_toString params in
  let params := append_if_truthy_nullable "type" (optional_nullable filters f_type) params in
  let params := append_if_present "active" (optional_nullable filters f_active)
                  Url.Boolean_toString params in
  params.

(** The endpoint that [getProperties] requests. *)
Definition properties_endpoint (filters : option PropertyFilter) : string :=
  let queryString := Url.toString (build_params filters) in
  if negb (String.eqb queryString "")
  then Config.API_ENDPOINTS_properties ++ "?" ++ queryString
  else Config.API_ENDPOINTS_properties.

Section WithNetwork.

(** Everything behind [fetch]: the network and the server. *)
Variable Server : Type.

(** One [fetch(url, init)]: a response, or a rejection. *)
Variable transport : string -> RequestInit -> Server -> completion Response * Server.

(** What happens behind [fetch] while the client waits between retries. *)
Variable elapse : jsnum -> Server -> Server.

(** [API_CONFIG.baseUrl] *)
Variable baseUrl : string.

(** The world of the client: the server and the log of the requests
    issued so far. *)
Record Net : Type := {
  server : Server;
  requests : list (string * RequestInit)
}.

Definition fetch (url : string) (init : RequestInit) (w : Net)
  : completion Response * Net :=
  let '(r, s) := transport url init (server w) in
  (r, {| server := s; requests := (requests w ++ [(url, init)])%list |}).

Definition sleep (ms : jsnum) (w : Net) : Net :=
  {| server := elapse ms (server w); requests := requests w |}.

(** The world after one [fetch(url, init)] that left the server in [s]. *)
Definition fetched (w : Net) (s : Server) (url : string) (init : RequestInit) : Net :=
  {| server := s; requests := (requests w ++ [(url, init)])%list |}.

(** [response.json().catch(() => ({}))] *)
Definition json_or_empty (response : Response) : jsval :=
  match json response with
  | Returns d => d
  | Throws _ => obj []
  end.

(** The body of the [try] of [request], after [fetch] has settled. *)
Definition read_response (response : Response) : completion jsval :=
  if negb (ok response) then
    let errorData := json_or_empty response in
    match get errorData "message", get errorData "errors" with
    | Returns message, Returns errors =>
        Throws (obj [("message",
                      or_else (or_else message (statusText response))
                              (JStr "Request failed"));
                     ("statusCode", status response);
                     ("errors", errors)])
    | Throws e, _ => Throws e
    | _, Throws e => Throws e
    end
  (* Handle 204 No Content *)
  else if strict_eq_num (status response) (num_of_Z 204) then Returns (obj [])
  else json response.

Definition method_or_GET (options : option RequestInit) : jsval :=
  match options with
  | Some o =>
      match method o with
      | Some m => or_else (JStr m) (JStr "GET")
      | None => JStr "GET"
      end
  | None => JStr "GET"
  end.

(** [{ ...options, headers: { ...API_CONFIG.headers, ...options?.headers } }] *)
Definition with_default_headers (options : option RequestInit) : RequestInit := {|
  method := match options with Some o => method o | None => None end;
  headers := merge_headers Config.API_CONFIG_headers
               (match options with Some o => headers o | None => [] end);
  body := match options with Some o => body o | None => None end
|}.

(** Make a fetch request with centralized error handling. *)
Definition request (endpoint : string) (options : option RequestInit) (w : Net)
  : completion jsval * Net :=
  let url := baseUrl ++ endpoint in
  let '(fetched, w1) := fetch url (with_default_headers options) w in
  let attempt :=
    match fetched with
    | Returns response => read_response response
    | Throws e => Throws e
    end in
  match attempt with
  | Returns data => (Returns data, w1)
  | Throws error =>
      (* Use centralized error handler *)
      (throw (ErrorHandler.handleError error
                [("endpoint", JStr endpoint); ("method", method_or_GET options)]),
       w1)
  end.

(** The options that [retryableRequest] passes: three attempts, one
    second of initial delay, and a hook that writes to the console. *)
Definition retry_options : Retry.RetryOptions Net := {|
  Retry.maxAttempts := Some (num_of_Z 3);
  Retry.delayMs := Some (num_of_Z 1000);
  Retry.backoffMultiplier := None;
  Retry.retryableStatusCodes := None;
  Retry.onRetry := Some (fun _ _ w => (Returns tt, w))
|}.

(** Make a retryable request (for GET requests).  Three iterations of
    the loop are observed, which is all there can be. *)
Definition retryableRequest (endpoint : string) (options : option RequestInit)
    (w : Net) : Retry.run jsval * Net :=
  let '(r, _, w1) :=
    Retry.withRetry sleep 3 (request endpoint options) retry_options w in
  (r, w1).

(** What follows [await] on a retryable request. *)
Definition and_then (r : Retry.run jsval * Net) (k : jsval -> completion jsval)
  : Retry.run jsval * Net :=
  match r with
  | (Retry.Settled (Returns response), w) => (Retry.Settled (k response), w)
  | other => other
  end.

(** Handle both direct array response and wrapped response. *)
Definition unwrap_array (response : jsval) : completion jsval :=
  if Array_isArray response then Returns response else get response "data".

(** [if ("data" in response) return response.data; return response;] *)
Definition unwrap_data (response : jsval) : completion jsval :=
  match in_operator "data" response with
  | Returns true => get response "data"
  | Returns false => Returns response
  | Throws e => Throws e
  end.

(** Get all properties with optional filters. *)
Definition getProperties (filters : option PropertyFilter) (w : Net)
  : Retry.run jsval * Net :=
  let endpoint := properties_endpoint filters in
  and_then (retryableRequest endpoint None w) unwrap_array.

(** Get a single property by ID. *)
Definition getPropertyById (id : string) (w : Net) : Retry.run jsval * Net :=
  and_then
    (retryableRequest (Config.API_ENDPOINTS_properties ++ "/" ++ id) None w)
    unwrap_data.

(** What follows [await] on a plain request. *)
Definition and_then_once (r : completion jsval * Net) (k : jsval -> completion jsval)
  : completion jsval * Net :=
  match r with
  | (Returns response, w) => (k response, w)
  | other => other
  end.

(** Create a new property. *)
Definition createProperty (property : PropertyInput) (w : Net)
  : completion jsval * Net :=
  and_then_once
    (request Config.API_ENDPOINTS_properties
       (Some {| method := Some "POST"; headers := [];
                body := Some (JsonText property) |}) w)
    unwrap_data.

(** Update an existing property. *)
Definition updateProperty (id : string) (property : PropertyInput) (w : Net)
  : completion jsval * Net :=
  and_then_once
    (request (Config.API_ENDPOINTS_properties ++ "/" ++ id)
       (Some {| method := Some "PUT"; headers := [];
                body := Some (JsonText property) |}) w)
    unwrap_data.

(** Delete a property. *)
Definition deleteProperty (id : string) (w : Net) : completion jsval * Net :=
  and_then_once
    (request (Config.API_ENDPOINTS_properties ++ "/" ++ id)
       (Some {| method := Some "DELETE"; headers := []; body := None |}) w)
    (fun _ => Returns JUndefined).

(** The body of the [try] of [uploadImage], after [fetch] has settled. *)
Definition read_upload_response (response : Response) : completion jsval :=
  if negb (ok response) then
    let errorData := json_or_empty response in
    match get errorData "message" with
    | Returns message =>
        Throws (obj [("message",
                      or_else (or_else message (statusText response))
                              (JStr "Upload failed"));
                     ("statusCode", status response)])
    | Throws e => Throws e
    end
  else json response.

(** Upload an image. *)
Definition uploadImage (file : File) (w : Net) : completion jsval * Net :=
  let url := baseUrl ++ Config.API_ENDPOINTS_upload in
  let '(fetched, w1) :=
    fetch url {| method := Some "POST"; headers := [];
                 body := Some (FormData file) |} w in
  let attempt :=
    match fetched with
    | Returns response => read_upload_response response
    | Throws e => Throws e
    end in
  match attempt with
  | Returns data => (Returns data, w1)
  | Throws error =>
      (throw (ErrorHandler.handleError error
                [("endpoint", JStr Config.API_ENDPOINTS_upload);
                 ("method", JStr "POST")]),
       w1)
  end.

(** Get all categories. *)
Definition getCategories (w : Net) : Retry.run jsval * Net :=
  and_then (retryableRequest Config.API_ENDPOINTS_categories None w) unwrap_array.

End WithNetwork.

Arguments server {Server}.
Arguments requests {Server}.
Arguments Build_Net {Server}.
Arguments fetched {Server}.

End PropertyService.

(* ================================================================== *)
(** ** src/hooks/useProperties.ts *)
(* ================================================================== *)

Module UseProperties.
Import JS Types.

(** A caller-supplied callback: what matters of a call is whether it
    returns or throws. *)
Definition callback (A : Type) : Type := A -> completion unit.

Record UsePropertiesOptions : Type := {
  debounceMs : option nat;             (* milliseconds *)
  onError : option (callback jsval);
  onSuccess : option (callback string)
}.

(** What the hook does to its collaborators, in order: calls of
    [propertyApi] and of the caller's callbacks. *)
Inductive Effect : Type :=
| ApiGetProperties (filters : PropertyFilter)
| ApiGetCategories
| ApiCreateProperty (input : PropertyService.PropertyInput)
| ApiUpdateProperty (id : string) (input : PropertyService.PropertyInput)
| ApiDeleteProperty (id : string)
| CallOnError (error : jsval)
| CallOnSuccess (message : string).

(** A pending timeout whose callback is [() => loadData()]: [loadData]
    is the closure of the render that scheduled it, so it reads the
    [filter] and the [categories] of that render. *)
Record Timeout : Type := {
  handle : nat;
  remaining : nat;                     (* milliseconds until it fires *)
  seen_filter : PropertyFilter;
  seen_categories : list Category
}.

(** The state cells of the hook, the timer ref, the pending timeouts of
    the event loop, and the effects so far. *)
Record State : Type := {
  properties : list Property;
  categories : list Category;
  filter : PropertyFilter;
  isLoading : bool;
  isSubmitting : bool;
  debounceTimerRef : option nat;
  timeouts : list Timeout;
  next_handle : nat;
  effects : list Effect
}.

Definition setProperties (v : list Property) (st : State) : State :=
  {| properties := v; categories := categories st; filter := filter st;
     isLoading := isLoading st; isSubmitting := isSubmitting st;
     debounceTimerRef := debounceTimerRef st; timeouts := timeouts st;
     next_handle := next_handle st; effects := effects st |}.

Definition setCategories (v : list Category) (st : State) : State :=
  {| properties := properties st; categories := v; filter := filter st;
     isLoading := isLoading st; isSubmitting := isSubmitting st;
     debounceTimerRef := debounceTimerRef st; timeouts := timeouts st;
     next_handle := next_handle st; effects := effects st |}.

Definition set_filter (v : PropertyFilter) (st : State) : State :=
  {| properties := properties st; categories := categories st; filter := v;
     isLoading := isLoading st; isSubmitting := isSubmitting st;
     debounceTimerRef := debounceTimerRef st; timeouts := timeouts st;
     next_handle := next_handle st; effects := effects st |}.

Definition setIsLoading (v : bool) (st : State) : State :=
  {| properties := properties st; categories := categories st; filter := filter st;
     isLoading := v; isSubmitting := isSubmitting st;
     debounceTimerRef := debounceTimerRef st; timeouts := timeouts st;
     next_handle := next_handle st; effects := effects st |}.

Definition setIsSubmitting (v : bool) (st : State) : State :=
  {| properties := properties st; categories := categories st; filter := filter st;
     isLoading := isLoading st; isSubmitting := v;
     debounceTimerRef := debounceTimerRef st; timeouts := timeouts st;
     next_handle := next_handle st; effects := effects st |}.

Definition set_timeouts (v : list Timeout) (st : State) : State :=
  {| properties := properties st; categories := categories st; filter := filter st;
     isLoading := isLoading st; isSubmitting := isSubmitting st;
     debounceTimerRef := debounceTimerRef st; timeouts := v;
     next_handle := next_handle st; effects := effects st |}.

Definition perform (e : Effect) (st : State) : State :=
  {| properties := properties st; categories := categories st; filter := filter st;
     isLoading := isLoading st; isSubmitting := isSubmitting st;
     debounceTimerRef := debounceTimerRef st; timeouts := timeouts st;
     next_handle := next_handle st; effects := (effects st ++ [e])%list |}.

(** [clearTimeout(h)]: a no-op when [h] is not pending any more. *)
Definition clearTimeout (h : nat) (st : State) : State :=
  set_timeouts (List.filter (fun t => negb (Nat.eqb (handle t) h)) (timeouts st)) st.

(** [debounceTimerRef.current = setTimeout(() => loadData(), ms)], in a
    render that sees [f] and [cs]: a fresh handle. *)
Definition setTimeout_ref (ms : nat) (f : PropertyFilter) (cs : list Category)
    (st : State) : State :=
  let h := next_handle st in
  {| properties := properties st; categories := categories st; filter := filter st;
     isLoading := isLoading st; isSubmitting := isSubmitting st;
     debounceTimerRef := Some h;
     timeouts := (timeouts st ++ [{| handle := h; remaining := ms;
                                     seen_filter := f; seen_categories := cs |}])%list;
     next_handle := S h; effects := effects st |}.

(** [if (debounceTimerRef.current) clearTimeout(debounceTimerRef.current)];
    a timer handle is truthy. *)
Definition clear_pending (st : State) : State :=
  match debounceTimerRef st with
  | Some h => clearTimeout h st
  | None => st
  end.

(** [s || undefined] for a string-or-undefined [s]. *)
Definition or_undefined (s : option string) : option string :=
  match s with
  | Some v => if String.eqb v "" then None else Some v
  | None => None
  end.

(** [s || undefined] for a string field that may also be null. *)
Definition or_undefined_nullable (s : nullable string) : nullable string :=
  match s with
  | Value v => if String.eqb v "" then Undefined else Value v
  | Undefined | Null => Undefined
  end.

(** [x ?? undefined] *)
Definition nullish_undefined {A : Type} (x : nullable A) : nullable A :=
  match x with
  | Value v => Value v
  | Undefined | Null => Undefined
  end.

(** The argument that [loadData] passes to [propertyApi.getProperties]. *)
Definition load_filters (f : PropertyFilter) : PropertyFilter := {|
  f_name := or_undefined (f_name f);
  f_address := or_undefined (f_address f);
  f_priceMin := nullish_undefined (f_priceMin f);
  f_priceMax := nullish_undefined (f_priceMax f);
  f_type := or_undefined_nullable (f_type f);
  f_active := nullish_undefined (f_active f)
|}.

(** How [Promise.all] of a load settles: with the properties and, when
    they were requested, the categories, or with the first rejection. *)
Inductive LoadOutcome : Type :=
| LoadFulfilled (propertiesData : list Property) (fetchedCategories : list Category)
| LoadRejected (err : jsval).

Section WithOptions.

Variable options : UsePropertiesOptions.

(** [const { debounceMs = 500, ... } = options] *)
Definition debounce : nat :=
  match debounceMs options with
  | Some ms => ms
  | None => 500%nat
  end.

(** [onError?.(apiError)] *)
Definition call_onError (err : jsval) (st : State) : State * completion unit :=
  match onError options with
  | Some cb => (perform (CallOnError err) st, cb err)
  | None => (st, Returns tt)
  end.

(** [onSuccess?.(message)] *)
Definition call_onSuccess (message : string) (st : State) : State * completion unit :=
  match onSuccess options with
  | Some cb => (perform (CallOnSuccess message) st, cb message)
  | None => (st, Returns tt)
  end.

(** [loadData] up to its [await], in a render that sees the filter [f]
    and the categories [cs]. *)
Definition loadData_start (f : PropertyFilter) (cs : list Category) (st : State)
  : State :=
  let st := setIsLoading true st in
  let st := perform (ApiGetProperties (load_filters f)) st in
  if (0 <? List.length cs)%nat then st else perform ApiGetCategories st.

(** [loadData] from its [await] on; [cs] as above. *)
Definition loadData_settle (cs : list Category) (outcome : LoadOutcome) (st : State)
  : State * completion unit :=
  match outcome with
  | LoadFulfilled propertiesData fetched =>
      let categoriesData := if (0 <? List.length cs)%nat then cs else fetched in
      let st := setProperties propertiesData st in
      let st := if (List.length cs =? 0)%nat
                then setCategories categoriesData st else st in
      (setIsLoading false st, Returns tt)
  | LoadRejected err =>
      let '(st, called) := call_onError err st in
      (setIsLoading false st, called)
  end.

(** The [catch] block of the three mutations:
    [onError?.(apiError); throw apiError;] *)
Definition report_and_rethrow {A : Type} (err : jsval) (st : State)
  : State * completion A :=
  let '(st, called) := call_onError err st in
  match called with
  | Returns _ => (st, Throws err)
  | Throws e => (st, Throws e)
  end.

(** What follows a successful API call inside the [try]: the state
    update, [onSuccess], the [return]; a throw lands in the [catch]. *)
Definition succeed (update : list Property -> list Property) (message : string)
    (value : option Property) (st : State) : State * completion (option Property) :=
  let st := setProperties (update (properties st)) st in
  let '(st, called) := call_onSuccess message st in
  match called with
  | Returns _ => (st, Returns value)
  | Throws e => report_and_rethrow e st
  end.

(** Create property: up to the [await]. *)
Definition createProperty_start (input : PropertyService.PropertyInput) (st : State)
  : State :=
  perform (ApiCreateProperty input) (setIsSubmitting true st).

(** Create property: from the [await] on. *)
Definition createProperty_settle (api : completion Property) (st : State)
  : State * completion (option Property) :=
  let '(st, r) :=
    match api with
    | Returns newProperty =>
        succeed (fun prev => newProperty :: prev) "Property created successfully"
          (Some newProperty) st
    | Throws err => report_and_rethrow err st
    end in
  (setIsSubmitting false st, r).

(** Update property. *)
Definition updateProperty_start (id : string) (input : PropertyService.PropertyInput)
    (st : State) : State :=
  perform (ApiUpdateProperty id input) (setIsSubmitting true st).

Definition updateProperty_settle (id : string) (api : completion Property) (st : State)
  : State * completion (option Property) :=
  let '(st, r) :=
    match api with
    | Returns updated =>
        succeed (map (fun p => if String.eqb (Types.id p) id then updated else p))
          "Property updated successfully" (Some updated) st
    | Throws err => report_and_rethrow err st
    end in
  (setIsSubmitting false st, r).

(** Delete property. *)
Definition deleteProperty_start (id : string) (st : State) : State :=
  perform (ApiDeleteProperty id) st.

Definition deleteProperty_settle (id : string) (api : completion unit) (st : State)
  : State * completion (option Property) :=
  match api with
  | Returns _ =>
      succeed (List.filter (fun p => negb (String.eqb (Types.id p) id)))
        "Property deleted successfully" None st
  | Throws err => report_and_rethrow err st
  end.

(** Get property by ID. *)
Definition getPropertyById (id : string) (st : State) : option Property :=
  find (fun p => String.eqb (Types.id p) id) (properties st).

(** Refresh data: [loadData] of the current render. *)
Definition refresh (st : State) : State :=
  loadData_start (filter st) (categories st) st.

(** The effect on [filter]: cleanup of its previous run, then its body,
    in a render that sees [filter st] and [categories st]. *)
Definition filter_effect (st : State) : State :=
  let st := clear_pending st in               (* cleanup of the previous run *)
  let st := clear_pending st in               (* the guard of the body *)
  setTimeout_ref debounce (filter st) (categories st) st.

(** [setFilter(next)] with a new filter object: the state changes, the
    component renders again, and the effect on [filter] runs. *)
Definition setFilter (next : PropertyFilter) (st : State) : State :=
  filter_effect (set_filter next st).

Definition is_due (dt : nat) (t : Timeout) : bool := (remaining t <=? dt)%nat.

Definition age (dt : nat) (t : Timeout) : Timeout :=
  {| handle := handle t; remaining := (remaining t - dt)%nat;
     seen_filter := seen_filter t; seen_categories := seen_categories t |}.

(** The callback of a timeout: [loadData()]. *)
Definition fire (st : State) (t : Timeout) : State :=
  loadData_start (seen_filter t) (seen_categories t) st.

(** [dt] milliseconds pass: the timeouts that are due fire, in the
    order in which they were scheduled. *)
Definition advance (dt : nat) (st : State) : State :=
  let due := List.filter (is_due dt) (timeouts st) in
  let later := map (age dt) (List.filter (fun t => negb (is_due dt t)) (timeouts st)) in
  fold_left fire due (set_timeouts later st).

(** The first render and its two effects: the initial load, and the
    first run of the effect on [filter]. *)
Definition mount (initialFilter : PropertyFilter) : State :=
  let st := {| properties := []; categories := []; filter := initialFilter;
               isLoading := true; isSubmitting := false;
               debounceTimerRef := None; timeouts := []; next_handle := 1;
               effects := [] |} in
  let st := loadData_start (filter st) (categories st) st in
  filter_effect st.

(** What can happen to a mounted hook. *)
Inductive Action : Type :=
| SetFilter (next : PropertyFilter)
| Advance (dt : nat)
| Refresh
| LoadSettles (seen : list Category) (outcome : LoadOutcome)
| CreateStarts (input : PropertyService.PropertyInput)
| CreateSettles (api : completion Property)
| UpdateStarts (id : string) (input : PropertyService.PropertyInput)
| UpdateSettles (id : string) (api : completion Property)
| DeleteStarts (id : string)
| DeleteSettles (id : string) (api : completion unit).

Definition step (st : State) (a : Action) : State :=
  match a with
  | SetFilter next => setFilter next st
  | Advance dt => advance dt st
  | Refresh => refresh st
  | LoadSettles seen outcome => fst (loadData_settle seen outcome st)
  | CreateStarts input => createProperty_start input st
  | CreateSettles api => fst (createProperty_settle api st)
  | UpdateStarts id input => updateProperty_start id input st
  | UpdateSettles id api => fst (updateProperty_settle id api st)
  | DeleteStarts id => deleteProperty_start id st
  | DeleteSettles id api => fst (deleteProperty_settle id api st)
  end.

Definition steps (st : State) (actions : list Action) : State :=
  fold_left step actions st.

(** The calls of [propertyApi.getProperties] among some effects. *)
Fixpoint reloads (es : list Effect) : list PropertyFilter :=
  match es with
  | [] => []
  | ApiGetProperties f :: rest => f :: reloads rest
  | _ :: rest => reloads rest
  end.

(** A burst of filter changes: every change but the last is followed
    by a pause [gap]; after the last one [dt] milliseconds pass. *)
Definition burst (changes : list (PropertyFilter * nat)) (last : PropertyFilter)
    (dt : nat) : list Action :=
  (flat_map (fun change => [SetFilter (fst change); Advance (snd change)]) changes
   ++ [SetFilter last; Advance dt])%list.

End WithOptions.

(** The timeout that the ref points to is the only one that can be
    pending. *)
Definition one_timer (st : State) : Prop :=
  forall t, In t (timeouts st) -> debounceTimerRef st = Some (handle t).

(** At most one timeout is pending; it is the one of the ref, it will
    load with the current filter, and it fires within the quiet period. *)
Definition pending_reload_is_current (period : nat) (st : State) : Prop :=
  (List.length (timeouts st) <= 1)%nat
  /\ forall t, In t (timeouts st) ->
               debounceTimerRef st = Some (handle t)
               /\ seen_filter t = filter st
               /\ (remaining t <= period)%nat.

End UseProperties.

(* ================================================================== *)
(** ** src/hooks/useToast.ts *)
(* ================================================================== *)

Module UseToast.
Import JS.

(** ["success" | "error" | "warning" | "info"] *)
Inductive ToastType : Type := Success | Error | Warning | Info.

(** Durations are whole milliseconds. *)
Record Toast : Type := {
  id : string;
  type : ToastType;
  title : string;
  message : string;
  duration : Z
}.

(** The toasts of the hook, the counter of the module, and the pending
    timeouts [() => removeToast(id)] with the milliseconds they have
    left. *)
Record State : Type := {
  toasts : list Toast;
  toastCounter : Z;
  timers : list (nat * string)
}.

(** [`toast-${counter}`] *)
Definition toast_id (counter : Z) : string :=
  "toast-" ++ Url.Number_toString counter.

Definition removeToast (removed : string) (st : State) : State :=
  {| toasts := filter (fun toast => negb (String.eqb (id toast) removed)) (toasts st);
     toastCounter := toastCounter st;
     timers := timers st |}.

Definition addToast (type : ToastType) (title message : string) (duration : option Z)
    (st : State) : string * State :=
  let duration := match duration with Some d => d | None => 5000 end in
  let counter := (toastCounter st + 1)%Z in
  let id := toast_id counter in
  let toast := {| id := id; type := type; title := title; message := message;
                  duration := duration |} in
  (id,
   {| toasts := (toasts st ++ [toast])%list;
      toastCounter := counter;
      timers := if (0 <? duration)%Z
                then (timers st ++ [(Z.to_nat duration, id)])%list
                else timers st |}).

Definition success (title message : string) (duration : option Z) (st : State)
  : string * State :=
  addToast Success title message duration st.

Definition error (title message : string) (duration : option Z) (st : State)
  : string * State :=
  addToast Error title message duration st.

Definition warning (title message : string) (duration : option Z) (st : State)
  : string * State :=
  addToast Warning title message duration st.

Definition info (title message : string) (duration : option Z) (st : State)
  : string * State :=
  addToast Info title message duration st.

(** The milliseconds that a whole number stands for. *)
Definition milliseconds (n : jsnum) : Z :=
  match n with
  | NFin q => Qfloor q
  | _ => 0
  end.

Definition errorFromApi (apiError : ErrorHandler.ApiError) (customMessage : option string)
    (st : State) : string * State :=
  let notification := ErrorHandler.createErrorNotification apiError in
  addToast
    (match ErrorHandler.type notification with
     | ErrorHandler.error_type => Error
     | ErrorHandler.warning_type => Warning
     end)
    (ErrorHandler.title notification)
    (match customMessage with
     | Some custom => if String.eqb custom "" then ErrorHandler.text notification
                      else custom
     | None => ErrorHandler.text notification
     end)
    (option_map milliseconds (ErrorHandler.duration notification))
    st.

(** [dt] milliseconds pass: the timeouts that are due remove their
    toasts. *)
Definition advance (dt : nat) (st : State) : State :=
  let due := filter (fun timer => (fst timer <=? dt)%nat) (timers st) in
  let later := map (fun timer => ((fst timer - dt)%nat, snd timer))
                 (filter (fun timer => negb (fst timer <=? dt)%nat) (timers st)) in
  fold_left (fun st timer => removeToast (snd timer) st) due
    {| toasts := toasts st; toastCounter := toastCounter st; timers := later |}.

(** What can happen to the hook. *)
Inductive Action : Type :=
| Add (type : ToastType) (title message : string) (duration : option Z)
| Remove (removed : string)
| ErrorFromApi (apiError : ErrorHandler.ApiError) (customMessage : option string)
| Advance (dt : nat).

Definition step (st : State) (a : Action) : State :=
  match a with
  | Add type title message duration => snd (addToast type title message duration st)
  | Remove removed => removeToast removed st
  | ErrorFromApi apiError customMessage => snd (errorFromApi apiError customMessage st)
  | Advance dt => advance dt st
  end.

Definition run (st : State) (actions : list Action) : State :=
  fold_left step actions st.

(** A hook that has just been mounted, the counter of the module being
    at [counter]. *)
Definition mounted (counter : Z) : State :=
  {| toasts := []; toastCounter := counter; timers := [] |}.

(** The milliseconds that pass during some actions. *)
Fixpoint elapsed (actions : list Action) : nat :=
  match actions with
  | [] => O
  | Advance dt :: rest => (dt + elapsed rest)%nat
  | _ :: rest => elapsed rest
  end.

(** Ids and timers come from counters that are not ahead of the
    counter of the module. *)
Definition ids_issued (st : State) : Prop :=
  (forall toast, In toast (toasts st) ->
                 exists k, id toast = toast_id k /\ (k <= toastCounter st)%Z)
  /\ (forall timer, In timer (timers st) ->
                    exists k, snd timer = toast_id k /\ (k <= toastCounter st)%Z).

End UseToast.

(* ================================================================== *)
(** ** Sample inputs *)
(* ================================================================== *)

Module Samples.
Import JS.

(** A world that counts the invocations of the operation. *)
Definition counting_sleep (ms : jsnum) (calls : nat) : nat := calls.

Definition api_error (message : string) (statusCode : Z) : jsval :=
  obj [("message", JStr message); ("statusCode", JNum (num_of_Z statusCode))].

(** An operation that always rejects with the given error. *)
Definition always_fails (error : jsval) : Retry.operation nat unit :=
  fun calls => (Throws error, S calls).

(** An operation that rejects with the given error the first time it
    is invoked and fulfils afterwards. *)
Definition fails_once (error : jsval) : Retry.operation nat unit :=
  fun calls =>
    match calls with
    | O => (Throws error, S calls)
    | S _ => (Returns tt, S calls)
    end.

(** Options whose retry hook throws. *)
Definition throwing_hook (thrown : jsval) : Retry.RetryOptions nat := {|
  Retry.maxAttempts := None;
  Retry.delayMs := None;
  Retry.backoffMultiplier := None;
  Retry.retryableStatusCodes := None;
  Retry.onRetry := Some (fun _ _ calls => (Throws thrown, calls))
|}.

Definition only_maxAttempts (m : Z) : Retry.RetryOptions nat := {|
  Retry.maxAttempts := Some (num_of_Z m);
  Retry.delayMs := None;
  Retry.backoffMultiplier := None;
  Retry.retryableStatusCodes := None;
  Retry.onRetry := None
|}.

(** [{ message: 42, statusCode: "teapot" }] *)
Definition mistyped_error : jsval :=
  obj [("message", JNum (num_of_Z 42)); ("statusCode", JStr "teapot")].

(** [new TypeError("Failed to fetch")] *)
Definition failed_to_fetch : jsval :=
  JObj KTypeError [("message", JStr "Failed to fetch")].

(** [Object.assign(new TypeError("x"), { message: 42 })] *)
Definition numbered_type_error : jsval :=
  JObj KTypeError [("message", JNum (num_of_Z 42))].

(** [{ name: ["Required", "Too short"], price: ["Must be positive"] }] *)
Definition validation_errors : list (string * list string) :=
  [("name", ["Required"; "Too short"]); ("price", ["Must be positive"])].

(** [{ priceMin: 100000, priceMax: 500000, type: "House" }] *)
Definition house_filter : Types.PropertyFilter := {|
  Types.f_name := None;
  Types.f_address := None;
  Types.f_priceMin := Types.Value 100000;
  Types.f_priceMax := Types.Value 500000;
  Types.f_type := Types.Value "House";
  Types.f_active := Types.Undefined
|}.


(** [{ name: s }] *)
Definition name_filter (s : string) : Types.PropertyFilter := {|
  Types.f_name := Some s;
  Types.f_address := None;
  Types.f_priceMin := Types.Undefined;
  Types.f_priceMax := Types.Undefined;
  Types.f_type := Types.Undefined;
  Types.f_active := Types.Undefined
|}.

(** A server that answers every request with status 500. *)
Definition failing_transport (url : string) (init : PropertyService.RequestInit)
    (s : unit) : completion PropertyService.Response * unit :=
  (Returns {| PropertyService.ok := false;
              PropertyService.status := JNum (num_of_Z 500);
              PropertyService.statusText := JStr "Internal Server Error";
              PropertyService.json := Returns (obj [("message", JStr "Server error")]) |},
   s).

Definition idle (ms : jsnum) (s : unit) : unit := s.

(** A transport that gives the same answer to every request. *)
Definition answering (response : PropertyService.Response) (url : string)
    (init : PropertyService.RequestInit) (s : unit)
  : completion PropertyService.Response * unit :=
  (Returns response, s).

(** A transport without a network: every [fetch] rejects. *)
Definition offline (url : string) (init : PropertyService.RequestInit) (s : unit)
  : completion PropertyService.Response * unit :=
  (Throws failed_to_fetch, s).

(** A success with the given JSON body. *)
Definition ok_json (body : jsval) : PropertyService.Response := {|
  PropertyService.ok := true;
  PropertyService.status := JNum (num_of_Z 200);
  PropertyService.statusText := JStr "OK";
  PropertyService.json := Returns body
|}.

(** A success without a body: parsing it throws a SyntaxError. *)
Definition empty_body (status : Z) : PropertyService.Response := {|
  PropertyService.ok := true;
  PropertyService.status := JNum (num_of_Z status);
  PropertyService.statusText := JStr "";
  PropertyService.json := Throws (JObj KError [("message", JStr "Unexpected end of JSON input")])
|}.

(** A failure with the given status and JSON body. *)
Definition failure (status : Z) (statusText : string) (body : jsval)
  : PropertyService.Response := {|
  PropertyService.ok := false;
  PropertyService.status := JNum (num_of_Z status);
  PropertyService.statusText := JStr statusText;
  PropertyService.json := Returns body
|}.

Definition fresh_net : PropertyService.Net unit :=
  {| PropertyService.server := tt; PropertyService.requests := [] |}.

(** Options of the hook with callbacks that return. *)
Definition reporting_options : UseProperties.UsePropertiesOptions := {|
  UseProperties.debounceMs := Some 500%nat;
  UseProperties.onError := Some (fun _ => Returns tt);
  UseProperties.onSuccess := Some (fun _ => Returns tt)
|}.

(** Options of the hook with nothing supplied. *)
Definition default_options : UseProperties.UsePropertiesOptions := {|
  UseProperties.debounceMs := None;
  UseProperties.onError := None;
  UseProperties.onSuccess := None
|}.

Definition sample_property (id name : string) : Types.Property := {|
  Types.id := id;
  Types.name := name;
  Types.description := "Test description";
  Types.addressProperty := "123 Test St";
  Types.type := "House";
  Types.priceProperty := 250000;
  Types.imageUrl := None;
  Types.active := true;
  Types.createdAt := "2024-01-01T00:00:00Z";
  Types.idOwner := None
|}.

(** Options of the hook whose success callback throws. *)
Definition throwing_success (thrown : jsval) : UseProperties.UsePropertiesOptions := {|
  UseProperties.debounceMs := None;
  UseProperties.onError := Some (fun _ => Returns tt);
  UseProperties.onSuccess := Some (fun _ => Throws thrown)
|}.

(** A mounted hook whose first load has brought two properties. *)
Definition loaded_state : UseProperties.State :=
  UseProperties.steps reporting_options
    (UseProperties.mount reporting_options Types.empty_filter)
    [UseProperties.LoadSettles []
       (UseProperties.LoadFulfilled
          [sample_property "1" "Test Property 1"; sample_property "2" "Test Property 2"]
          [{| Types.cat_id := "1"; Types.cat_name := "House"; Types.color := "#3B82F6" |}])].

End Samples.

(* ================================================================== *)
(** * Properties *)
(* ================================================================== *)

(** ** Numbers *)

Module NumFacts.
Import JS.

Lemma num_le_lt_false (a b : jsnum) : num_lt b a = true -> num_le a b = false.
Proof.
  destruct a as [x| | |], b as [y| | |]; simpl; try reflexivity; try discriminate.
  intros H. apply negb_true_iff in H. exact H.
Qed.

Lemma num_eq_le (a b : jsnum) : num_eq a b = true -> num_le a b = true.
Proof.
  destruct a as [x| | |], b as [y| | |]; simpl; try reflexivity; try discriminate.
  intros H. apply Qeq_bool_iff in H. apply Qle_bool_iff. rewrite H. apply Qle_refl.
Qed.

Lemma num_same_value_zero_compat (a b c : jsnum) :
  num_eq a b = true -> num_same_value_zero a c = num_same_value_zero b c.
Proof.
  destruct a as [x| | |], b as [y| | |]; simpl; try discriminate; try reflexivity.
  intros H. apply Qeq_bool_iff in H.
  destruct c as [z| | |]; simpl; try reflexivity.
  destruct (Qeq_bool x z) eqn:Exz, (Qeq_bool y z) eqn:Eyz; try reflexivity.
  - apply Qeq_bool_iff in Exz. apply Qeq_bool_neq in Eyz.
    exfalso. apply Eyz. rewrite <- H. exact Exz.
  - apply Qeq_bool_iff in Eyz. apply Qeq_bool_neq in Exz.
    exfalso. apply Exz. rewrite H. exact Eyz.
Qed.

Lemma num_le_of_Z (a b : Z) : num_le (num_of_Z a) (num_of_Z b) = (a <=? b)%Z.
Proof.
  unfold num_of_Z, num_le. destruct (a <=? b)%Z eqn:E.
  - apply Qle_bool_iff. rewrite <- Zle_Qle. apply Z.leb_le. exact E.
  - apply not_true_iff_false. intros H. apply Qle_bool_iff in H.
    rewrite <- Zle_Qle in H. apply Z.leb_gt in E. lia.
Qed.

End NumFacts.

(** ** Retry policy *)

Module RetryFacts.
Import JS Retry NumFacts.

Section WithWorld.

Variables World T : Type.
Variable sleep : jsnum -> World -> World.

Implicit Types (fn : operation World T) (opts : RequiredRetryOptions World).
Implicit Types (options : RetryOptions World) (w : World).

(** The loop is left as soon as its condition fails. *)
Lemma retry_loop_exit fn opts fuel attempt lastError delay w :
  num_le (num_of_Z attempt) (r_maxAttempts opts) = false ->
  retry_loop sleep fn opts fuel attempt lastError delay w
  = (Settled (Throws lastError), [], w).
Proof.
  intros Hcond. destruct fuel; cbn [retry_loop]; rewrite Hcond; reflexivity.
Qed.

(** One iteration that ends the loop: the operation fulfils. *)
Lemma retry_loop_success fn opts fuel attempt lastError delay w v w1 :
  num_le (num_of_Z attempt) (r_maxAttempts opts) = true ->
  fn w = (Returns v, w1) ->
  retry_loop sleep fn opts (S fuel) attempt lastError delay w
  = (Settled (Returns v), [EvCall (Returns v)], w1).
Proof.
  intros Hcond Hfn. cbn [retry_loop]. rewrite Hcond, Hfn. reflexivity.
Qed.

(** One iteration that ends the loop: the last attempt fails. *)
Lemma retry_loop_last fn opts fuel attempt lastError delay w error w1 :
  num_eq (num_of_Z attempt) (r_maxAttempts opts) = true ->
  fn w = (Throws error, w1) ->
  retry_loop sleep fn opts (S fuel) attempt lastError delay w
  = (Settled (Throws error), [EvCall (Throws error)], w1).
Proof.
  intros Hlast Hfn. cbn [retry_loop].
  rewrite (num_eq_le _ _ Hlast), Hfn, Hlast. reflexivity.
Qed.

(** One iteration that ends the loop: the failure is not retryable. *)
Lemma retry_loop_permanent fn opts fuel attempt lastError delay w error w1 :
  num_le (num_of_Z attempt) (r_maxAttempts opts) = true ->
  fn w = (Throws error, w1) ->
  isRetryable error (r_retryableStatusCodes opts) = Returns false ->
  retry_loop sleep fn opts (S fuel) attempt lastError delay w
  = (Settled (Throws error), [EvCall (Throws error)], w1).
Proof.
  intros Hcond Hfn Hperm. cbn [retry_loop]. rewrite Hcond, Hfn, Hperm.
  destruct (num_eq _ _); reflexivity.
Qed.

(** One iteration that goes round: a retryable failure before the last
    attempt, and a hook that returns. *)
Lemma retry_loop_again fn opts fuel attempt lastError delay w error w1 u w2 :
  num_le (num_of_Z attempt) (r_maxAttempts opts) = true ->
  num_eq (num_of_Z attempt) (r_maxAttempts opts) = false ->
  fn w = (Throws error, w1) ->
  isRetryable error (r_retryableStatusCodes opts) = Returns true ->
  r_onRetry opts attempt error w1 = (Returns u, w2) ->
  retry_loop sleep fn opts (S fuel) attempt lastError delay w
  = let '(r, tr, w4) :=
      retry_loop sleep fn opts fuel (attempt + 1) error
        (num_mul delay (r_backoffMultiplier opts)) (sleep delay w2) in
    (r, EvCall (Throws error) :: EvOnRetry attempt error :: EvSleep delay :: tr, w4).
Proof.
  intros Hcond Hlast Hfn Hretry Hhook. cbn [retry_loop].
  rewrite Hcond, Hfn, Hlast, Hretry, Hhook. reflexivity.
Qed.




(** An error whose status code equals a listed code is retryable. *)
Lemma isRetryable_listed error (n : jsnum) (code : Z) codes :
  get error "statusCode" = Returns (JNum n) ->
  num_eq n (num_of_Z code) = true ->
  In (num_of_Z code) codes ->
  isRetryable error codes = Returns true.
Proof.
  intros Hget Heq Hin. unfold isRetryable. rewrite Hget. f_equal.
  apply existsb_exists. exists (num_of_Z code). split; [exact Hin|].
  rewrite (num_same_value_zero_compat _ _ _ Heq).
  unfold num_same_value_zero, num_eq, num_of_Z. apply Qeq_bool_iff. reflexivity.
Qed.

(** An error whose [statusCode] is no number, or a number that differs
    from every listed code, is not. *)
Lemma isRetryable_unlisted error (statusCode : jsval) codes :
  get error "statusCode" = Returns statusCode ->
  (forall n, statusCode = JNum n ->
             Forall (fun code => num_same_value_zero n code = false) codes) ->
  isRetryable error codes = Returns false.
Proof.
  intros Hget Hunlisted. unfold isRetryable. rewrite Hget.
  destruct statusCode as [| | |n| | |]; try reflexivity.
  f_equal. specialize (Hunlisted n eq_refl).
  induction Hunlisted as [|code codes Hcode _ IH]; [reflexivity|].
  cbn [existsb]. rewrite Hcode, IH. reflexivity.
Qed.

(** Three attempts on an operation that always fails with a retryable
    error: three invocations, two retries between them, and the third
    error is the one raised. *)
Lemma retry_loop_three_failures fn opts fuel lastError delay w (code : Z) :
  r_maxAttempts opts = num_of_Z 3 ->
  In (num_of_Z code) (r_retryableStatusCodes opts) ->
  (forall attempt error w0, exists u, fst (r_onRetry opts attempt error w0) = Returns u) ->
  (forall w0, exists error w1 n,
      fn w0 = (Throws error, w1)
      /\ get error "statusCode" = Returns (JNum n)
      /\ num_eq n (num_of_Z code) = true) ->
  exists e1 e2 e3 w',
    retry_loop sleep fn opts (S (S (S fuel))) 1 lastError delay w
    = (Settled (Throws e3),
       [EvCall (Throws e1); EvOnRetry 1 e1; EvSleep delay;
        EvCall (Throws e2); EvOnRetry 2 e2;
        EvSleep (num_mul delay (r_backoffMultiplier opts));
        EvCall (Throws e3)],
       w').
Proof.
  intros Hmax Hcode Hhook Hfail.
  assert (Hle : forall a, (a <= 3)%Z ->
                          num_le (num_of_Z a) (r_maxAttempts opts) = true).
  { intros a Ha. rewrite Hmax, num_le_of_Z. apply Z.leb_le. exact Ha. }
  assert (Hne : forall a, (a < 3)%Z ->
                          num_eq (num_of_Z a) (r_maxAttempts opts) = false).
  { intros a Ha. rewrite Hmax. unfold num_eq, num_of_Z.
    apply not_true_iff_false. intros H. apply Qeq_bool_iff in H.
    apply (proj1 (inject_Z_injective a 3)) in H. lia. }
  destruct (Hfail w) as (e1 & w1 & n1 & Hfn1 & Hget1 & Hn1).
  destruct (Hhook 1 e1 w1) as [u1 Hu1].
  destruct (r_onRetry opts 1 e1 w1) as [c1 w1'] eqn:Hh1. simpl in Hu1. subst c1.
  destruct (Hfail (sleep delay w1')) as (e2 & w2 & n2 & Hfn2 & Hget2 & Hn2).
  destruct (Hhook 2 e2 w2) as [u2 Hu2].
  destruct (r_onRetry opts 2 e2 w2) as [c2 w2'] eqn:Hh2. simpl in Hu2. subst c2.
  destruct (Hfail (sleep (num_mul delay (r_backoffMultiplier opts)) w2'))
    as (e3 & w3 & n3 & Hfn3 & Hget3 & Hn3).
  exists e1, e2, e3, w3.
  rewrite (retry_loop_again fn opts _ 1 lastError delay w e1 w1 u1 w1');
    [ | apply Hle; lia | apply Hne; lia | exact Hfn1
      | exact (isRetryable_listed _ _ _ _ Hget1 Hn1 Hcode) | exact Hh1 ].
  change (1 + 1)%Z with 2%Z.
  rewrite (retry_loop_again fn opts _ 2 e1 _ _ e2 w2 u2 w2');
    [ | apply Hle; lia | apply Hne; lia | exact Hfn2
      | exact (isRetryable_listed _ _ _ _ Hget2 Hn2 Hcode) | exact Hh2 ].
  change (2 + 1)%Z with 3%Z.
  rewrite (retry_loop_last fn opts _ 3 e2 _ _ e3 w3);
    [ reflexivity | | exact Hfn3 ].
  rewrite Hmax. unfold num_eq, num_of_Z. apply Qeq_bool_iff. reflexivity.
Qed.


(** C7.  When a first invocation takes place ([1 <= maxAttempts]) and
    fails with an error whose [statusCode] is none of the retryable codes
    (a number that differs from each of them, or no number at all),
    [withRetry] raises that very error after this single invocation: the
    hook is not called and nothing is slept. *)
Theorem withRetry_permanent_failure fuel fn options w error w1 (statusCode : jsval) :
  num_le (num_of_Z 1) (r_maxAttempts (merge_options options)) = true ->
  fn w = (Throws error, w1) ->
  get error "statusCode" = Returns statusCode ->
  (forall n, statusCode = JNum n ->
             Forall (fun code => num_same_value_zero n code = false)
               (r_retryableStatusCodes (merge_options options))) ->
  withRetry sleep (S fuel) fn options w
  = (Settled (Throws error), [EvCall (Throws error)], w1).
Proof.
  intros Hfirst Hfn Hget Hunlisted. unfold withRetry.
  apply retry_loop_permanent; [exact Hfirst | exact Hfn |].
  exact (isRetryable_unlisted _ _ _ Hget Hunlisted).
Qed.

(** C10.  With [maxAttempts] below 1 the operation is never invoked: the
    promise rejects at once with [null], the initial [lastError], which
    is not of the ApiError shape. *)
Theorem withRetry_without_attempts fuel fn options w (m : jsnum) :
  maxAttempts options = Some m ->
  num_lt m (num_of_Z 1) = true ->
  withRetry sleep fuel fn options w = (Settled (Throws JNull), [], w)
  /\ ErrorHandler.isApiError JNull = false.
Proof.
  intros Hgiven Hbelow. split; [|reflexivity].
  unfold withRetry. apply retry_loop_exit.
  unfold merge_options, or_default. cbn [r_maxAttempts]. rewrite Hgiven.
  apply num_le_lt_false. exact Hbelow.
Qed.

End WithWorld.


Lemma withRetry_permanent_failure_witness :
  withRetry Samples.counting_sleep 1
    (Samples.always_fails (Samples.api_error "Bad Request" 400))
    no_options 0%nat
  = (Settled (Throws (Samples.api_error "Bad Request" 400)),
     [EvCall (Throws (Samples.api_error "Bad Request" 400))],
     1%nat).
Proof.
  apply (withRetry_permanent_failure nat unit Samples.counting_sleep 0%nat
           (Samples.always_fails (Samples.api_error "Bad Request" 400))
           no_options 0%nat (Samples.api_error "Bad Request" 400) 1%nat
           (JNum (num_of_Z 400)));
    [reflexivity | reflexivity | reflexivity |].
  intros n Hn. injection Hn as <-. repeat constructor.
Defined.

Lemma withRetry_without_attempts_witness :
  withRetry Samples.counting_sleep 5
    (Samples.always_fails (Samples.api_error "Internal Server Error" 500))
    (Samples.only_maxAttempts 0) 0%nat
  = (Settled (Throws JNull), [], 0%nat)
  /\ ErrorHandler.isApiError JNull = false.
Proof.
  apply (withRetry_without_attempts nat unit Samples.counting_sleep 5%nat
           (Samples.always_fails (Samples.api_error "Internal Server Error" 500))
           (Samples.only_maxAttempts 0) 0%nat (num_of_Z 0));
    reflexivity.
Defined.

(** The sample runs, evaluated. *)
Example three_attempts_run :
  withRetry Samples.counting_sleep 3
    (Samples.always_fails (Samples.api_error "Internal Server Error" 500))
    (Samples.only_maxAttempts 3) 0%nat
  = (Settled (Throws (Samples.api_error "Internal Server Error" 500)),
     [EvCall (Throws (Samples.api_error "Internal Server Error" 500));
      EvOnRetry 1 (Samples.api_error "Internal Server Error" 500);
      EvSleep (num_of_Z 1000);
      EvCall (Throws (Samples.api_error "Internal Server Error" 500));
      EvOnRetry 2 (Samples.api_error "Internal Server Error" 500);
      EvSleep (NFin (inject_Z 1000 * inject_Z 2));
      EvCall (Throws (Samples.api_error "Internal Server Error" 500))],
     3%nat).
Proof. reflexivity. Qed.

End RetryFacts.

(** ** Retry policy: more of its behaviour *)

Module RetryMore.
Import JS Retry NumFacts.

Lemma num_le_trans_Z (a b : Z) (m : jsnum) :
  (a <= b)%Z -> num_le (num_of_Z b) m = true -> num_le (num_of_Z a) m = true.
Proof.
  intros Hab. destruct m as [q| | |]; cbn; try discriminate; try reflexivity.
  intros Hb. apply Qle_bool_iff in Hb. apply Qle_bool_iff.
  apply Qle_trans with (inject_Z b); [|exact Hb].
  rewrite <- Zle_Qle. exact Hab.
Qed.

Lemma num_eq_lt_false (a b : Z) (m : jsnum) :
  (a < b)%Z -> num_le (num_of_Z b) m = true -> num_eq (num_of_Z a) m = false.
Proof.
  intros Hab. destruct m as [q| | |]; cbn; try discriminate; try reflexivity.
  intros Hb. apply Qle_bool_iff in Hb.
  apply not_true_iff_false. intros Heq. apply Qeq_bool_iff in Heq.
  rewrite <- Heq in Hb. rewrite <- Zle_Qle in Hb. lia.
Qed.

Section WithWorld.

Variables World T : Type.
Variable sleep : jsnum -> World -> World.

Implicit Types (fn : operation World T) (opts : RequiredRetryOptions World).
Implicit Types (options : RetryOptions World) (w : World).



(** The hook sees the attempt numbers in order; a run that fulfils ends
    with the invocation that returned, the only one that did, and has
    waited once and called the hook once before each later invocation. *)
Lemma retry_loop_fulfils fn opts fuel :
  forall attempt lastError delay w v tr w',
    retry_loop sleep fn opts fuel attempt lastError delay w
    = (Settled (Returns v), tr, w') ->
    exists failed,
      tr = (failed ++ [EvCall (Returns v)])%list
      /\ Forall (fun ev => forall x, ev <> EvCall (Returns x)) failed
      /\ invocations tr = S (List.length (sleeps tr))
      /\ List.length (retries tr) = List.length (sleeps tr).
Proof.
  induction fuel as [|fuel IH]; intros attempt lastError delay w v tr w' Hrun;
    cbn [retry_loop] in Hrun.
  - destruct (num_le _ _); discriminate.
  - destruct (num_le _ _); cbn [negb] in Hrun; [|discriminate].
    destruct (fn w) as [[v0|error] w1].
    { inversion Hrun; subst. exists []. repeat split. constructor. }
    destruct (num_eq _ _); [discriminate|].
    destruct (isRetryable _ _) as [[|]|e]; try discriminate.
    destruct (r_onRetry opts attempt error w1) as [[u|e] w2]; [|discriminate].
    destruct (retry_loop sleep fn opts fuel (attempt + 1) error _ _)
      as [[r0 tr0] w0] eqn:Hrec.
    inversion Hrun; subst.
    destruct (IH _ _ _ _ _ _ _ Hrec) as (failed & Htr & Hfailed & Hcount & Hhook).
    exists (EvCall (Throws error) :: EvOnRetry attempt error :: EvSleep delay :: failed).
    split; [rewrite Htr; reflexivity|]. split.
    + repeat (constructor; [intros x; discriminate|]). exact Hfailed.
    + split.
      * change (invocations (EvCall (Throws error) :: EvOnRetry attempt error
                               :: EvSleep delay :: tr0))
          with (S (invocations tr0)).
        cbn [sleeps List.length]. rewrite Hcount. reflexivity.
      * cbn [sleeps retries List.length]. rewrite Hhook. reflexivity.
Qed.

(** X1.  An operation that fails once with a retryable status code and
    then succeeds, with at least two attempts allowed and a hook that
    returns: [withRetry] fulfils with the value of the second invocation,
    after exactly two invocations, one call of the hook and one wait of
    the initial delay. *)
Theorem withRetry_second_attempt_succeeds fuel fn options w
    error w1 (n : jsnum) (code : Z) (u : unit) w2 (v : T) w3 :
  num_le (num_of_Z 2) (r_maxAttempts (merge_options options)) = true ->
  fn w = (Throws error, w1) ->
  get error "statusCode" = Returns (JNum n) ->
  num_eq n (num_of_Z code) = true ->
  In (num_of_Z code) (r_retryableStatusCodes (merge_options options)) ->
  r_onRetry (merge_options options) 1 error w1 = (Returns u, w2) ->
  fn (sleep (r_delayMs (merge_options options)) w2) = (Returns v, w3) ->
  withRetry sleep (2 + fuel) fn options w
  = (Settled (Returns v),
     [EvCall (Throws error); EvOnRetry 1 error;
      EvSleep (r_delayMs (merge_options options)); EvCall (Returns v)],
     w3).
Proof.
  intros Htwo Hfirst Hget Hcode Hlisted Hhook Hsecond. unfold withRetry.
  cbn [Nat.add].
  rewrite (RetryFacts.retry_loop_again World T sleep fn _ _ 1 JNull _ w error w1 u w2);
    [ | exact (num_le_trans_Z 1 2 _ ltac:(lia) Htwo)
      | exact (num_eq_lt_false 1 2 _ ltac:(lia) Htwo)
      | exact Hfirst
      | exact (RetryFacts.isRetryable_listed _ _ _ _ Hget Hcode Hlisted)
      | exact Hhook ].
  change (1 + 1)%Z with 2%Z.
  rewrite (RetryFacts.retry_loop_success World T sleep fn _ _ 2 error _ _ v w3 Htwo Hsecond).
  reflexivity.
Qed.



(** X4.  When [withRetry] fulfils, it does so with the value that the
    last invocation returned; no earlier invocation returned, and before
    each invocation after the first the hook was called once and one
    wait took place. *)
Theorem withRetry_fulfils_with_last fuel fn options w (v : T) tr w' :
  withRetry sleep fuel fn options w = (Settled (Returns v), tr, w') ->
  exists failed,
    tr = (failed ++ [EvCall (Returns v)])%list
    /\ Forall (fun ev => forall x, ev <> EvCall (Returns x)) failed
    /\ invocations tr = S (List.length (sleeps tr))
    /\ List.length (retries tr) = List.length (sleeps tr).
Proof.
  unfold withRetry. apply retry_loop_fulfils.
Qed.

(** X5.  A retry hook that throws ends the retrying: after a retryable
    failure of the first attempt, [withRetry] rejects with what the hook
    threw, without waiting and without a second invocation. *)
Theorem withRetry_hook_throws fuel fn options w
    error w1 (n : jsnum) (code : Z) (thrown : jsval) w2 :
  num_le (num_of_Z 1) (r_maxAttempts (merge_options options)) = true ->
  num_eq (num_of_Z 1) (r_maxAttempts (merge_options options)) = false ->
  fn w = (Throws error, w1) ->
  get error "statusCode" = Returns (JNum n) ->
  num_eq n (num_of_Z code) = true ->
  In (num_of_Z code) (r_retryableStatusCodes (merge_options options)) ->
  r_onRetry (merge_options options) 1 error w1 = (Throws thrown, w2) ->
  withRetry sleep (S fuel) fn options w
  = (Settled (Throws thrown), [EvCall (Throws error); EvOnRetry 1 error], w2).
Proof.
  intros Hfirst Hnotlast Hfn Hget Hcode Hlisted Hhook.
  unfold withRetry. cbn [retry_loop].
  rewrite Hfirst, Hfn, Hnotlast.
  rewrite (RetryFacts.isRetryable_listed _ _ _ _ Hget Hcode Hlisted), Hhook.
  reflexivity.
Qed.

(** X6.  An operation that throws [null] or [undefined]: on the last
    attempt [withRetry] rejects with that value; on an earlier attempt
    reading its status code fails, and [withRetry] rejects with the
    TypeError of that failure instead, after this one invocation. *)
Theorem withRetry_nullish_error fuel fn options w (thrown : jsval) w1 :
  thrown = JNull \/ thrown = JUndefined ->
  num_le (num_of_Z 1) (r_maxAttempts (merge_options options)) = true ->
  fn w = (Throws thrown, w1) ->
  (num_eq (num_of_Z 1) (r_maxAttempts (merge_options options)) = true ->
   withRetry sleep (S fuel) fn options w
   = (Settled (Throws thrown), [EvCall (Throws thrown)], w1))
  /\ (num_eq (num_of_Z 1) (r_maxAttempts (merge_options options)) = false ->
      exists raised,
        withRetry sleep (S fuel) fn options w
        = (Settled (Throws raised), [EvCall (Throws thrown)], w1)
        /\ instanceof_TypeError raised = true
        /\ ErrorHandler.isApiError raised = false).
Proof.
  intros Hnullish Hfirst Hfn. unfold withRetry. cbn [retry_loop].
  rewrite Hfirst, Hfn. cbn [negb]. split; intros Hlast; rewrite Hlast.
  - reflexivity.
  - destruct Hnullish as [-> | ->]; eexists; repeat split.
Qed.

(** X7.  With [maxAttempts] equal to 1 a function made retryable behaves
    as the function itself: one invocation with the given arguments,
    whose outcome is the outcome of the call, no hook and no wait. *)
Theorem makeRetryable_single_attempt {Args : Type} fuel
    (fn : Args -> operation World T) options (args : Args) w :
  num_eq (num_of_Z 1) (r_maxAttempts (merge_options options)) = true ->
  makeRetryable sleep (S fuel) fn options args w
  = (Settled (fst (fn args w)), [EvCall (fst (fn args w))], snd (fn args w)).
Proof.
  intros Hone. unfold makeRetryable, withRetry. cbn [retry_loop].
  rewrite (num_eq_le _ _ Hone), Hone. cbn [negb].
  destruct (fn args w) as [[v|error] w1]; reflexivity.
Qed.

End WithWorld.

Lemma withRetry_second_attempt_succeeds_witness :
  withRetry Samples.counting_sleep 2
    (Samples.fails_once (Samples.api_error "Service Unavailable" 503))
    no_options 0%nat
  = (Settled (Returns tt),
     [EvCall (Throws (Samples.api_error "Service Unavailable" 503));
      EvOnRetry 1 (Samples.api_error "Service Unavailable" 503);
      EvSleep (num_of_Z 1000); EvCall (Returns tt)],
     2%nat).
Proof.
  apply (withRetry_second_attempt_succeeds nat unit Samples.counting_sleep 0%nat
           (Samples.fails_once (Samples.api_error "Service Unavailable" 503))
           no_options 0%nat (Samples.api_error "Service Unavailable" 503) 1%nat
           (num_of_Z 503) 503 tt 1%nat tt 2%nat);
    try reflexivity.
  cbn. tauto.
Defined.


Lemma withRetry_fulfils_with_last_witness :
  exists failed,
    [EvCall (Throws (Samples.api_error "Service Unavailable" 503));
     EvOnRetry 1 (Samples.api_error "Service Unavailable" 503);
     EvSleep (num_of_Z 1000); EvCall (Returns tt)]
    = (failed ++ [EvCall (Returns tt)])%list
    /\ Forall (fun ev : event unit => forall x, ev <> EvCall (Returns x)) failed
    /\ invocations
         [EvCall (Throws (Samples.api_error "Service Unavailable" 503));
          EvOnRetry 1 (Samples.api_error "Service Unavailable" 503);
          EvSleep (num_of_Z 1000); EvCall (Returns tt)]
       = S (List.length
              (sleeps
                 [EvCall (Throws (Samples.api_error "Service Unavailable" 503));
                  EvOnRetry 1 (Samples.api_error "Service Unavailable" 503);
                  EvSleep (num_of_Z 1000); EvCall (@Returns unit tt)]))
    /\ List.length
         (retries
            [EvCall (Throws (Samples.api_error "Service Unavailable" 503));
             EvOnRetry 1 (Samples.api_error "Service Unavailable" 503);
             EvSleep (num_of_Z 1000); EvCall (@Returns unit tt)])
       = List.length
           (sleeps
              [EvCall (Throws (Samples.api_error "Service Unavailable" 503));
               EvOnRetry 1 (Samples.api_error "Service Unavailable" 503);
               EvSleep (num_of_Z 1000); EvCall (@Returns unit tt)]).
Proof.
  apply (withRetry_fulfils_with_last nat unit Samples.counting_sleep 2%nat
           (Samples.fails_once (Samples.api_error "Service Unavailable" 503))
           no_options 0%nat tt _ 2%nat).
  reflexivity.
Defined.

Lemma withRetry_hook_throws_witness :
  withRetry Samples.counting_sleep 1
    (Samples.always_fails (Samples.api_error "Internal Server Error" 500))
    (Samples.throwing_hook (JStr "stop")) 0%nat
  = (Settled (Throws (JStr "stop")),
     [EvCall (Throws (Samples.api_error "Internal Server Error" 500));
      EvOnRetry 1 (Samples.api_error "Internal Server Error" 500)],
     1%nat).
Proof.
  apply (withRetry_hook_throws nat unit Samples.counting_sleep 0%nat
           (Samples.always_fails (Samples.api_error "Internal Server Error" 500))
           (Samples.throwing_hook (JStr "stop")) 0%nat
           (Samples.api_error "Internal Server Error" 500) 1%nat
           (num_of_Z 500) 500 (JStr "stop") 1%nat);
    try reflexivity.
  cbn. tauto.
Defined.

Lemma withRetry_nullish_error_witness :
  (withRetry Samples.counting_sleep 1 (Samples.always_fails JNull)
     (Samples.only_maxAttempts 1) 0%nat
   = (Settled (Throws JNull), [EvCall (Throws JNull)], 1%nat))
  /\ (exists raised,
        withRetry Samples.counting_sleep 1 (Samples.always_fails JNull)
          no_options 0%nat
        = (Settled (Throws raised), [EvCall (Throws JNull)], 1%nat)
        /\ instanceof_TypeError raised = true
        /\ ErrorHandler.isApiError raised = false).
Proof.
  split.
  - apply (proj1 (withRetry_nullish_error nat unit Samples.counting_sleep 0%nat
                    (Samples.always_fails JNull) (Samples.only_maxAttempts 1)
                    0%nat JNull 1%nat (or_introl eq_refl) eq_refl eq_refl)).
    reflexivity.
  - apply (proj2 (withRetry_nullish_error nat unit Samples.counting_sleep 0%nat
                    (Samples.always_fails JNull) no_options
                    0%nat JNull 1%nat (or_introl eq_refl) eq_refl eq_refl)).
    reflexivity.
Defined.

Lemma makeRetryable_single_attempt_witness :
  makeRetryable Samples.counting_sleep 1
    (fun error : jsval => Samples.always_fails error)
    (Samples.only_maxAttempts 1) (Samples.api_error "Internal Server Error" 500) 0%nat
  = (Settled (Throws (Samples.api_error "Internal Server Error" 500)),
     [EvCall (Throws (Samples.api_error "Internal Server Error" 500))],
     1%nat).
Proof.
  apply (makeRetryable_single_attempt nat unit Samples.counting_sleep 0%nat
           (fun error : jsval => Samples.always_fails error)
           (Samples.only_maxAttempts 1)
           (Samples.api_error "Internal Server Error" 500) 0%nat).
  reflexivity.
Defined.

End RetryMore.

(** ** Error normaliser *)

Module ErrorHandlerFacts.
Import JS ErrorHandler.

Lemma network_error_typed : typed_as_ApiError network_error = true.
Proof. reflexivity. Qed.

Lemma unexpected_error_typed : typed_as_ApiError unexpected_error = true.
Proof. reflexivity. Qed.

(** Rule 1: a value of the ApiError shape is returned as it is. *)
Lemma parseError_structured raw :
  isApiError raw = true -> parseError raw = Returns raw.
Proof.
  intros Hshape. unfold parseError. rewrite Hshape. reflexivity.
Qed.

(** Rules 3 and 4, for a value that is no TypeError. *)
Lemma parseError_other raw :
  isApiError raw = false ->
  instanceof_TypeError raw = false ->
  parseError raw
  = if instanceof_Error raw
    then Returns (obj [("message", message_of raw);
                       ("statusCode", JNum (num_of_Z 500))])
    else Returns unexpected_error.
Proof.
  intros Hshape Hkind. unfold parseError. rewrite Hshape, Hkind. reflexivity.
Qed.

(** A TypeError is an Error. *)
Lemma TypeError_is_Error raw :
  instanceof_TypeError raw = true -> instanceof_Error raw = true.
Proof.
  destruct raw as [| | | | | |k props]; try discriminate.
  destruct k; try discriminate. reflexivity.
Qed.

(** C2 as stated fails: an object that has the two properties with other
    types passes the guard and comes back as it is. *)
Lemma parseError_mistyped_counterexample :
  parseError Samples.mistyped_error = Returns Samples.mistyped_error
  /\ typed_as_ApiError Samples.mistyped_error = false
  /\ ~ (exists v, parseError Samples.mistyped_error = Returns v
                  /\ typed_as_ApiError v = true).
Proof.
  split; [reflexivity|]. split; [reflexivity|].
  intros (v & Hv & Htyped). vm_compute in Hv. inversion Hv; subst v.
  vm_compute in Htyped. discriminate.
Qed.

(** A TypeError whose message was overwritten with a number makes the
    second rule throw. *)
Example parseError_can_throw :
  parseError Samples.numbered_type_error
  = Throws (type_error "includes is not a function").
Proof. reflexivity. Qed.

(** C2, amended.  [parseError] returns a value of the ApiError shape
    unchanged, whatever the types of its two properties.  On every other
    value it does not throw and returns a value whose [message] is a
    string and whose [statusCode] is a number, provided that the value,
    when it is an instance of Error, carries a string as its message. *)
Theorem parseError_normalizes raw :
  (isApiError raw = true -> parseError raw = Returns raw)
  /\ (isApiError raw = false ->
      (instanceof_Error raw = true -> is_string (message_of raw) = true) ->
      exists v, parseError raw = Returns v /\ typed_as_ApiError v = true).
Proof.
  split; [apply parseError_structured|].
  intros Hshape Hmessage. unfold parseError. rewrite Hshape.
  destruct (instanceof_TypeError raw) eqn:Htype.
  - pose proof (TypeError_is_Error raw Htype) as Herr. rewrite Herr.
    specialize (Hmessage Herr).
    destruct (message_of raw) as [| | | |s| |] eqn:Hm; try discriminate.
    cbn [call_includes]. destruct (str_includes "fetch" s).
    + exists network_error. split; reflexivity.
    + eexists. split; [reflexivity|]. reflexivity.
  - destruct (instanceof_Error raw) eqn:Herr.
    + specialize (Hmessage eq_refl).
      destruct (message_of raw) as [| | | |s| |] eqn:Hm; try discriminate.
      eexists. split; [reflexivity|]. reflexivity.
    + exists unexpected_error. split; reflexivity.
Qed.

Lemma parseError_normalizes_witness :
  exists v, parseError Samples.failed_to_fetch = Returns v
            /\ typed_as_ApiError v = true.
Proof.
  apply (proj2 (parseError_normalizes Samples.failed_to_fetch));
    [reflexivity | intros _; reflexivity].
Defined.



End ErrorHandlerFacts.

(** ** Error normaliser: presentation *)

Module ErrorHandlerMore.
Import JS ErrorHandler.

Lemma occurrences_app (c : ascii) (a b : string) :
  occurrences c (a ++ b) = (occurrences c a + occurrences c b)%nat.
Proof.
  induction a as [|c' a IH]; [reflexivity|].
  cbn. rewrite IH. lia.
Qed.

Lemma occurrences_join (c : ascii) (sep : string) (l : list string) :
  Forall (fun s => occurrences c s = 0%nat) l ->
  occurrences c (join sep l) = (occurrences c sep * pred (List.length l))%nat.
Proof.
  induction 1 as [|s l Hs _ IH]; [cbn; lia|].
  destruct l as [|s' l'].
  - cbn. rewrite Hs. lia.
  - change (join sep (s :: s' :: l')) with (s ++ sep ++ join sep (s' :: l')).
    rewrite !occurrences_app, Hs, IH. cbn [List.length pred]. lia.
Qed.

(** The second rule of [parseError], as the API client meets it. *)
Lemma parseError_fetch_rejection raw (reason : string) :
  instanceof_TypeError raw = true ->
  has_property "statusCode" raw = false ->
  get raw "message" = Returns (JStr reason) ->
  str_includes "fetch" reason = true ->
  parseError raw = Returns network_error.
Proof.
  intros Htype Hstatus Hget Hfetch. unfold parseError, isApiError.
  rewrite Hstatus, andb_false_r, Htype. unfold message_of. rewrite Hget.
  cbn [call_includes]. rewrite Hfetch. reflexivity.
Qed.

(** X8.  What is shown for a failure that was not of the ApiError shape
    when it was normalised: a network failure gives a warning titled
    "Error" that reports the lost connection; everything else gives an
    error titled "Server Error" with the fixed server-error text.  The
    message of the original exception is never shown. *)
Theorem notification_of_unstructured_failure (raw v : jsval) (e : ApiError) :
  isApiError raw = false ->
  parseError raw = Returns v ->
  as_ApiError v = Some e ->
  (v = network_error
   /\ createErrorNotification e
      = {| title := "Error";
           text := "Unable to connect to server. Please check your internet connection.";
           type := warning_type;
           duration := Some (num_of_Z 5000) |})
  \/ (v <> network_error
      /\ createErrorNotification e
         = {| title := "Server Error";
              text := "Server error. Please try again later.";
              type := error_type;
              duration := Some (num_of_Z 5000) |}).
Proof.
  intros Hshape Hparse Htyped. unfold parseError in Hparse. rewrite Hshape in Hparse.
  destruct (if instanceof_TypeError raw
            then call_includes (message_of raw) "fetch"
            else Returns false) as [[|]|thrown]; [| |discriminate].
  - inversion Hparse; subst v. cbn in Htyped. inversion Htyped; subst e.
    left. split; reflexivity.
  - right. destruct (instanceof_Error raw).
    + inversion Hparse; subst v. split; [discriminate|].
      cbn in Htyped.
      destruct (message_of raw) as [| | | |m| |]; try discriminate.
      inversion Htyped; subst e. reflexivity.
    + inversion Hparse; subst v. split; [discriminate|].
      cbn in Htyped. inversion Htyped; subst e. reflexivity.
Qed.

(** X9.  The formatted validation errors are empty exactly when there is
    no field to report, and they have one line per field: when no field
    name and no message contains a line break, the line breaks of the
    result are one fewer than the fields. *)
Theorem formatValidationErrors_lines :
  formatValidationErrors None = ""
  /\ (forall entries,
      formatValidationErrors (Some entries) = "" <-> entries = [])
  /\ (forall entries,
      Forall (fun entry =>
                occurrences newline_char (fst entry) = 0%nat
                /\ Forall (fun m => occurrences newline_char m = 0%nat) (snd entry))
        entries ->
      occurrences newline_char (formatValidationErrors (Some entries))
      = pred (List.length entries)).
Proof.
  split; [reflexivity|]. split.
  - intros entries. split; [|intros ->; reflexivity].
    destruct entries as [|[field messages] rest]; [reflexivity|].
    intros Hempty. exfalso.
    apply (f_equal (occurrences ":")) in Hempty.
    cbn [formatValidationErrors map fst snd] in Hempty.
    destruct (map _ rest) as [|line lines] in Hempty.
    + cbn [join] in Hempty. rewrite !occurrences_app in Hempty. cbn in Hempty. lia.
    + change (join newline ((field ++ ": " ++ join ", " messages) :: line :: lines))
        with ((field ++ ": " ++ join ", " messages) ++ newline ++ join newline (line :: lines))
        in Hempty.
      rewrite !occurrences_app in Hempty. cbn in Hempty. lia.
  - intros entries Hclean. unfold formatValidationErrors.
    rewrite occurrences_join.
    + rewrite length_map. cbn. lia.
    + apply Forall_map. apply Forall_impl with (2 := Hclean).
      intros [field messages] (Hfield & Hmessages). cbn [fst snd] in *.
      rewrite !occurrences_app, Hfield, (occurrences_join _ _ _ Hmessages).
      reflexivity.
Qed.

Lemma notification_of_unstructured_failure_witness :
  (network_error = network_error
   /\ createErrorNotification
        {| message := "Network error. Please check your connection.";
           statusCode := num_of_Z 0; errors := None |}
      = {| title := "Error";
           text := "Unable to connect to server. Please check your internet connection.";
           type := warning_type;
           duration := Some (num_of_Z 5000) |})
  \/ (network_error <> network_error
      /\ createErrorNotification
           {| message := "Network error. Please check your connection.";
              statusCode := num_of_Z 0; errors := None |}
         = {| title := "Server Error";
              text := "Server error. Please try again later.";
              type := error_type;
              duration := Some (num_of_Z 5000) |}).
Proof.
  apply (notification_of_unstructured_failure Samples.failed_to_fetch network_error
           {| message := "Network error. Please check your connection.";
              statusCode := num_of_Z 0; errors := None |});
    reflexivity.
Defined.

Lemma formatValidationErrors_lines_witness :
  occurrences newline_char (formatValidationErrors (Some Samples.validation_errors))
  = pred (List.length Samples.validation_errors).
Proof.
  apply (proj2 (proj2 formatValidationErrors_lines) Samples.validation_errors).
  repeat constructor.
Defined.

Example formatValidationErrors_sample :
  formatValidationErrors (Some Samples.validation_errors)
  = "name: Required, Too short" ++ newline ++ "price: Must be positive".
Proof. reflexivity. Qed.

(** A thrown [Error("boom")] is shown as a server error. *)
Example notification_of_plain_error :
  option_map createErrorNotification
    (match parseError (JObj KError [("message", JStr "boom")]) with
     | Returns v => as_ApiError v
     | Throws _ => None
     end)
  = Some {| title := "Server Error";
            text := "Server error. Please try again later.";
            type := error_type;
            duration := Some (num_of_Z 5000) |}.
Proof. reflexivity. Qed.

End ErrorHandlerMore.

(** ** Query strings *)

Module UrlFacts.
Import Url.



(** [Number_toString n] is the decimal numeral of [n]: reading it back
    gives [n]. *)
Lemma Number_toString_decimal (n : Z) :
  option_map Z.of_int (NilZero.int_of_string (Number_toString n)) = Some n.
Proof.
  unfold Number_toString. rewrite NilZero.isi.
  - cbn [option_map]. f_equal. apply DecimalZ.of_to.
  - destruct n as [|p|p]; cbn; try discriminate.
    intros H. injection H as H. exact (DecimalPos.Unsigned.to_uint_nonnil p H).
  - destruct n as [|p|p]; cbn; try discriminate.
    intros H. injection H as H. exact (DecimalPos.Unsigned.to_uint_nonnil p H).
Qed.

Lemma urlencode_Boolean_toString (b : bool) :
  urlencode (Boolean_toString b) = Boolean_toString b.
Proof. destruct b; reflexivity. Qed.

End UrlFacts.

(** ** Query strings: separators *)

Module UrlMore.
Import JS Url.

(** No byte is encoded into one of the characters that structure a URL
    query. *)
Lemma encode_byte_separators (c : ascii) :
  occurrences "&" (encode_byte c) = 0%nat
  /\ occurrences "=" (encode_byte c) = 0%nat
  /\ occurrences "?" (encode_byte c) = 0%nat
  /\ occurrences "#" (encode_byte c) = 0%nat.
Proof.
  destruct c as [[] [] [] [] [] [] [] []]; vm_compute; repeat split.
Qed.

Lemma urlencode_separators (s : string) :
  occurrences "&" (urlencode s) = 0%nat
  /\ occurrences "=" (urlencode s) = 0%nat
  /\ occurrences "?" (urlencode s) = 0%nat
  /\ occurrences "#" (urlencode s) = 0%nat.
Proof.
  induction s as [|c s (IHa & IHe & IHq & IHh)]; [repeat split|].
  destruct (encode_byte_separators c) as (Ha & He & Hq & Hh).
  cbn [urlencode]. rewrite !ErrorHandlerMore.occurrences_app.
  rewrite Ha, He, Hq, Hh, IHa, IHe, IHq, IHh. repeat split.
Qed.

Lemma pair_toString_separators (p : string * string) :
  occurrences "&" (pair_toString p) = 0%nat
  /\ occurrences "=" (pair_toString p) = 1%nat
  /\ occurrences "?" (pair_toString p) = 0%nat
  /\ occurrences "#" (pair_toString p) = 0%nat.
Proof.
  unfold pair_toString.
  destruct (urlencode_separators (fst p)) as (Ha & He & Hq & Hh).
  destruct (urlencode_separators (snd p)) as (Ha' & He' & Hq' & Hh').
  rewrite !ErrorHandlerMore.occurrences_app.
  rewrite Ha, He, Hq, Hh, Ha', He', Hq', Hh'. repeat split.
Qed.

(** The serialized parameters have one [=] per parameter and one [&]
    between two parameters, whatever the keys and values contain. *)
Lemma toString_separators (params : URLSearchParams) :
  occurrences "&" (toString params) = pred (List.length params)
  /\ occurrences "=" (toString params) = List.length params
  /\ occurrences "?" (toString params) = 0%nat
  /\ occurrences "#" (toString params) = 0%nat.
Proof.
  induction params as [|p params (IHa & IHe & IHq & IHh)]; [repeat split|].
  destruct (pair_toString_separators p) as (Ha & He & Hq & Hh).
  destruct params as [|p' params'].
  - cbn [toString List.length pred]. rewrite Ha, He, Hq, Hh. repeat split.
  - change (toString (p :: p' :: params'))
      with (pair_toString p ++ "&" ++ toString (p' :: params')).
    rewrite !ErrorHandlerMore.occurrences_app.
    rewrite Ha, He, Hq, Hh, IHa, IHe, IHq, IHh. cbn. repeat split; lia.
Qed.

(** X10.  Filter values cannot add, split or cut query parameters: the
    endpoint that [getProperties] requests has exactly one [=] per
    parameter sent and one [&] between two of them, a [?] exactly when a
    parameter is sent, and no [#], whatever the strings of the filter
    contain. *)
Theorem properties_endpoint_separators (filters : option Types.PropertyFilter) :
  let sent := List.length (PropertyService.build_params filters) in
  occurrences "=" (PropertyService.properties_endpoint filters) = sent
  /\ occurrences "&" (PropertyService.properties_endpoint filters) = pred sent
  /\ occurrences "?" (PropertyService.properties_endpoint filters)
     = (if Nat.eqb sent 0 then 0 else 1)%nat
  /\ occurrences "#" (PropertyService.properties_endpoint filters) = 0%nat.
Proof.
  intros sent. subst sent. unfold PropertyService.properties_endpoint.
  destruct (toString_separators (PropertyService.build_params filters))
    as (Ha & He & Hq & Hh).
  destruct (String.eqb_spec (toString (PropertyService.build_params filters)) "")
    as [Hempty|Hnonempty]; cbn [negb].
  - rewrite Hempty in He. cbn in He. rewrite <- He. repeat split.
  - rewrite !ErrorHandlerMore.occurrences_app, Ha, He, Hq, Hh.
    destruct (PropertyService.build_params filters) as [|p params];
      [exfalso; apply Hnonempty; reflexivity|].
    cbn. repeat split; lia.
Qed.

(** A name that looks like two parameters is sent as one. *)
Example injected_name_is_one_parameter :
  PropertyService.properties_endpoint (Some (Samples.name_filter "a&active=false"))
  = "/properties?name=a%26active%3Dfalse".
Proof. reflexivity. Qed.

End UrlMore.

(** ** API client *)

Module PropertyServiceFacts.
Import JS Types PropertyService.

(** *** Which parameters [getProperties] sends *)








(** *** Requests issued *)

Section WithNetwork.

Variable Server : Type.
Variable transport : string -> RequestInit -> Server -> completion Response * Server.
Variable elapse : jsnum -> Server -> Server.
Variable baseUrl : string.

Implicit Types (w : Net Server) (options : option RequestInit).

Lemma fetch_requests url init w :
  requests (snd (fetch Server transport url init w))
  = (requests w ++ [(url, init)])%list.
Proof.
  unfold fetch. destruct (transport url init (server w)) as [r s]. reflexivity.
Qed.

(** [request] calls [fetch] once, whatever comes back. *)
Lemma request_requests endpoint options w :
  requests (snd (request Server transport baseUrl endpoint options w))
  = (requests w ++ [((baseUrl ++ endpoint)%string, with_default_headers options)])%list.
Proof.
  unfold request.
  pose proof (fetch_requests (baseUrl ++ endpoint) (with_default_headers options) w) as Hlog.
  destruct (fetch Server transport (baseUrl ++ endpoint) (with_default_headers options) w)
    as [fetched w1].
  cbn [snd] in Hlog.
  destruct fetched as [response|e]; [destruct (read_response response)|];
    cbn [snd]; exact Hlog.
Qed.

Lemma and_then_once_world (r : completion jsval * Net Server) k :
  snd (and_then_once Server r k) = snd r.
Proof. destruct r as [[v|e] w]; reflexivity. Qed.

Lemma and_then_world (r : Retry.run jsval * Net Server) k :
  snd (and_then Server r k) = snd r.
Proof. destruct r as [[[v|e]|] w]; reflexivity. Qed.

Lemma uploadImage_requests file w :
  requests (snd (uploadImage Server transport baseUrl file w))
  = (requests w
     ++ [((baseUrl ++ "/upload/image")%string,
          {| method := Some "POST"; headers := []; body := Some (FormData file) |})])%list.
Proof.
  unfold uploadImage.
  pose proof (fetch_requests (baseUrl ++ Config.API_ENDPOINTS_upload)
                {| method := Some "POST"; headers := []; body := Some (FormData file) |} w)
    as Hlog.
  destruct (fetch Server transport (baseUrl ++ Config.API_ENDPOINTS_upload) _ w)
    as [fetched w1].
  cbn [snd] in Hlog.
  destruct fetched as [response|e]; [destruct (read_upload_response response)|];
    cbn [snd]; exact Hlog.
Qed.

(** The retry loop around [request] issues one request per invocation,
    all of them alike. *)
Lemma retry_loop_requests endpoint options opts fuel :
  (forall attempt error w, snd (Retry.r_onRetry opts attempt error w) = w) ->
  forall attempt lastError delay w r tr w',
    Retry.retry_loop (sleep Server elapse)
      (request Server transport baseUrl endpoint options)
      opts fuel attempt lastError delay w = (r, tr, w') ->
    requests w'
    = (requests w
       ++ repeat ((baseUrl ++ endpoint)%string, with_default_headers options)
            (Retry.invocations tr))%list.
Proof.
  intros Hhook.
  induction fuel as [|fuel IH]; intros attempt lastError delay w r tr w' Hrun;
    cbn [Retry.retry_loop] in Hrun.
  - destruct (num_le _ _); inversion Hrun; subst; cbn; symmetry; apply app_nil_r.
  - destruct (num_le _ _); cbn [negb] in Hrun.
    2: { inversion Hrun; subst; cbn; symmetry; apply app_nil_r. }
    pose proof (request_requests endpoint options w) as Hlog.
    destruct (request Server transport baseUrl endpoint options w) as [[v|error] w1];
      cbn [snd] in Hlog.
    { inversion Hrun; subst. exact Hlog. }
    destruct (num_eq _ _).
    { inversion Hrun; subst. exact Hlog. }
    destruct (Retry.isRetryable _ _) as [[|]|e].
    2, 3: inversion Hrun; subst; exact Hlog.
    pose proof (Hhook attempt error w1) as Hsame.
    destruct (Retry.r_onRetry opts attempt error w1) as [[u|e] w2]; cbn [snd] in Hsame.
    2: { inversion Hrun; subst. exact Hlog. }
    subst w2.
    destruct (Retry.retry_loop _ _ opts fuel (attempt + 1) error _ _)
      as [[r0 tr0] w0] eqn:Hrec.
    inversion Hrun; subst.
    rewrite (IH _ _ _ _ _ _ _ Hrec). cbn [sleep requests]. rewrite Hlog.
    rewrite <- app_assoc. reflexivity.
Qed.


Lemma get_throws_type_error v key e :
  get v key = Throws e -> e = type_error "Cannot read properties".
Proof.
  destruct v as [| | | | | |k props]; cbn; try discriminate; try congruence.
  destruct (lookup key props); [discriminate|].
  destruct (is_error_kind k && String.eqb key "message"); discriminate.
Qed.

(** A response with [ok] false and status 500 makes [request] reject
    with an error of status code 500, whatever its body is. *)
Lemma request_server_error endpoint options w response s :
  transport (baseUrl ++ endpoint) (with_default_headers options) (server w)
  = (Returns response, s) ->
  ok response = false ->
  status response = JNum (num_of_Z 500) ->
  exists error w1,
    request Server transport baseUrl endpoint options w = (Throws error, w1)
    /\ get error "statusCode" = Returns (JNum (num_of_Z 500)).
Proof.
  intros Htransport Hok Hstatus.
  unfold request, fetch. rewrite Htransport.
  unfold read_response. rewrite Hok, Hstatus. cbn [negb].
  destruct (get (json_or_empty response) "message") as [message|e] eqn:Hmessage.
  - destruct (get (json_or_empty response) "errors") as [errors|e] eqn:Herrors.
    + eexists. eexists. split; reflexivity.
    + apply get_throws_type_error in Herrors. subst e.
      eexists. eexists. split; reflexivity.
  - apply get_throws_type_error in Hmessage. subst e.
    eexists. eexists. split; reflexivity.
Qed.

(** Against a server that answers every request with status 500, a
    retryable request is issued three times. *)
Lemma retryableRequest_exhausts endpoint options w :
  (forall url init s, exists response s',
      transport url init s = (Returns response, s')
      /\ ok response = false
      /\ status response = JNum (num_of_Z 500)) ->
  requests (snd (retryableRequest Server transport elapse baseUrl endpoint options w))
  = (requests w
     ++ repeat ((baseUrl ++ endpoint)%string, with_default_headers options) 3)%list.
Proof.
  intros Hserver. unfold retryableRequest, Retry.withRetry.
  destruct (RetryFacts.retry_loop_three_failures (Net Server) jsval (sleep Server elapse)
              (request Server transport baseUrl endpoint options)
              (Retry.merge_options (retry_options Server)) 0 JNull
              (Retry.r_delayMs (Retry.merge_options (retry_options Server))) w 500)
    as (e1 & e2 & e3 & w' & Hrun).
  - reflexivity.
  - cbn. tauto.
  - intros attempt error w0. exists tt. reflexivity.
  - intros w0.
    destruct (Hserver (baseUrl ++ endpoint) (with_default_headers options) (server w0))
      as (response & s' & Htransport & Hok & Hstatus).
    destruct (request_server_error endpoint options w0 response s' Htransport Hok Hstatus)
      as (error & w1 & Hrequest & Hget).
    exists error, w1, (num_of_Z 500). repeat split; assumption.
  - rewrite Hrun. cbn [snd].
    refine (retry_loop_requests endpoint options _ 3 _ _ _ _ _ _ _ _ Hrun).
    intros attempt error w0. reflexivity.
Qed.

(** C4.  Each of the four mutating operations issues exactly one
    request, whatever the network answers.  The three read operations
    go through the retry policy: against a server that answers every
    request with status 500 each of them issues three requests. *)
Theorem retry_scope :
  (forall w property,
      requests (snd (createProperty Server transport baseUrl property w))
      = (requests w
         ++ [((baseUrl ++ "/properties")%string,
              {| method := Some "POST";
                 headers := [("Content-Type", "application/json")];
                 body := Some (JsonText property) |})])%list)
  /\ (forall w id property,
      requests (snd (updateProperty Server transport baseUrl id property w))
      = (requests w
         ++ [((baseUrl ++ "/properties" ++ "/" ++ id)%string,
              {| method := Some "PUT";
                 headers := [("Content-Type", "application/json")];
                 body := Some (JsonText property) |})])%list)
  /\ (forall w id,
      requests (snd (deleteProperty Server transport baseUrl id w))
      = (requests w
         ++ [((baseUrl ++ "/properties" ++ "/" ++ id)%string,
              {| method := Some "DELETE";
                 headers := [("Content-Type", "application/json")];
                 body := None |})])%list)
  /\ (forall w file,
      requests (snd (uploadImage Server transport baseUrl file w))
      = (requests w
         ++ [((baseUrl ++ "/upload/image")%string,
              {| method := Some "POST"; headers := [];
                 body := Some (FormData file) |})])%list)
  /\ ((forall url init s, exists response s',
          transport url init s = (Returns response, s')
          /\ ok response = false
          /\ status response = JNum (num_of_Z 500)) ->
      forall w,
        (forall filters,
            requests (snd (getProperties Server transport elapse baseUrl filters w))
            = (requests w
               ++ repeat ((baseUrl ++ properties_endpoint filters)%string,
                          with_default_headers None) 3)%list)
        /\ (forall id,
            requests (snd (getPropertyById Server transport elapse baseUrl id w))
            = (requests w
               ++ repeat ((baseUrl ++ "/properties" ++ "/" ++ id)%string,
                          with_default_headers None) 3)%list)
        /\ requests (snd (getCategories Server transport elapse baseUrl w))
           = (requests w
              ++ repeat ((baseUrl ++ "/categories")%string,
                         with_default_headers None) 3)%list).
Proof.
  split; [|split; [|split; [|split; [|]]]].
  - intros w property. unfold createProperty.
    rewrite and_then_once_world. apply request_requests.
  - intros w id property. unfold updateProperty.
    rewrite and_then_once_world. apply request_requests.
  - intros w id. unfold deleteProperty.
    rewrite and_then_once_world. apply request_requests.
  - intros w file. apply uploadImage_requests.
  - intros Hserver w. split; [|split].
    + intros filters. unfold getProperties. rewrite and_then_world.
      apply retryableRequest_exhausts. exact Hserver.
    + intros id. unfold getPropertyById. rewrite and_then_world.
      apply retryableRequest_exhausts. exact Hserver.
    + unfold getCategories. rewrite and_then_world.
      apply retryableRequest_exhausts. exact Hserver.
Qed.


End WithNetwork.


Lemma retry_scope_witness :
  requests (snd (getCategories unit Samples.failing_transport Samples.idle
                   Config.default_baseUrl {| server := tt; requests := [] |}))
  = repeat ("http://localhost:5000/api/categories", with_default_headers None) 3.
Proof.
  destruct (proj2 (proj2 (proj2 (proj2
              (retry_scope unit Samples.failing_transport Samples.idle
                 Config.default_baseUrl))))) with (w := {| server := tt; requests := [] |})
    as (_ & _ & Hcategories).
  - intros url init s. eexists. exists s. repeat split.
  - exact Hcategories.
Defined.

(** The sample server, evaluated: three requests for a read, one for a
    write. *)
Example read_is_retried :
  List.length (requests (snd (getProperties unit Samples.failing_transport Samples.idle
                           Config.default_baseUrl (Some Samples.house_filter)
                           {| server := tt; requests := [] |}))) = 3%nat.
Proof. reflexivity. Qed.

Example write_is_not_retried :
  List.length (requests (snd (deleteProperty unit Samples.failing_transport
                           Config.default_baseUrl "1"
                           {| server := tt; requests := [] |}))) = 1%nat.
Proof. reflexivity. Qed.

End PropertyServiceFacts.

(** ** API client: responses *)

Module PropertyServiceMore.
Import JS Types PropertyService.

Section WithNetwork.

Variable Server : Type.
Variable transport : string -> RequestInit -> Server -> completion Response * Server.
Variable elapse : jsnum -> Server -> Server.
Variable baseUrl : string.

Implicit Types (w : Net Server) (options : option RequestInit).

(** What [request] does with an answer of the transport. *)
Lemma request_answered endpoint options w response s :
  transport (baseUrl ++ endpoint) (with_default_headers options) (server w)
  = (Returns response, s) ->
  request Server transport baseUrl endpoint options w
  = (match read_response response with
     | Returns data => Returns data
     | Throws error =>
         throw (ErrorHandler.handleError error
                  [("endpoint", JStr endpoint); ("method", method_or_GET options)])
     end,
     fetched w s (baseUrl ++ endpoint) (with_default_headers options)).
Proof.
  intros Htransport. unfold request, fetch. rewrite Htransport.
  destruct (read_response response); reflexivity.
Qed.

(** What [request] does when the transport rejects. *)
Lemma request_unanswered endpoint options w raw s :
  transport (baseUrl ++ endpoint) (with_default_headers options) (server w)
  = (Throws raw, s) ->
  request Server transport baseUrl endpoint options w
  = (throw (ErrorHandler.handleError raw
              [("endpoint", JStr endpoint); ("method", method_or_GET options)]),
     fetched w s (baseUrl ++ endpoint) (with_default_headers options)).
Proof.
  intros Htransport. unfold request, fetch. rewrite Htransport. reflexivity.
Qed.

(** A retryable request whose first attempt fulfils. *)
Lemma retryableRequest_first_success endpoint options w data w1 :
  request Server transport baseUrl endpoint options w = (Returns data, w1) ->
  retryableRequest Server transport elapse baseUrl endpoint options w
  = (Retry.Settled (Returns data), w1).
Proof.
  intros Hrequest. unfold retryableRequest, Retry.withRetry.
  rewrite (RetryFacts.retry_loop_success _ _ _ _
             (Retry.merge_options (retry_options Server)) 2 1 JNull _ w data w1
             eq_refl Hrequest).
  reflexivity.
Qed.

(** A retryable request whose first attempt fails with a status code
    that is no number or not one of the default retryable codes. *)
Lemma retryableRequest_permanent endpoint options w error w1 (statusCode : jsval) :
  request Server transport baseUrl endpoint options w = (Throws error, w1) ->
  get error "statusCode" = Returns statusCode ->
  (forall n, statusCode = JNum n ->
             Forall (fun code => num_same_value_zero n code = false)
               (map num_of_Z [408; 429; 500; 502; 503; 504])) ->
  retryableRequest Server transport elapse baseUrl endpoint options w
  = (Retry.Settled (Throws error), w1).
Proof.
  intros Hrequest Hget Hunlisted. unfold retryableRequest, Retry.withRetry.
  rewrite (RetryFacts.retry_loop_permanent _ _ _ _
             (Retry.merge_options (retry_options Server)) 2 1 JNull _ w error w1
             eq_refl Hrequest).
  - reflexivity.
  - exact (RetryFacts.isRetryable_unlisted _ _ _ Hget Hunlisted).
Qed.

(** X11.  Response unwrapping: when the first answer is a success whose
    body is an array, or an object whose [data] is an array,
    [getProperties] and [getCategories] fulfil with that array after a
    single request; the caller cannot tell the two shapes apart. *)
Theorem list_reads_unwrap w response s (body : jsval) (items : list jsval) :
  ok response = true ->
  strict_eq_num (status response) (num_of_Z 204) = false ->
  json response = Returns body ->
  body = JArr items
  \/ (Array_isArray body = false /\ get body "data" = Returns (JArr items)) ->
  (forall filters,
      transport (baseUrl ++ properties_endpoint filters) (with_default_headers None)
        (server w) = (Returns response, s) ->
      getProperties Server transport elapse baseUrl filters w
      = (Retry.Settled (Returns (JArr items)),
         fetched w s (baseUrl ++ properties_endpoint filters) (with_default_headers None)))
  /\ (transport (baseUrl ++ "/categories") (with_default_headers None) (server w)
      = (Returns response, s) ->
      getCategories Server transport elapse baseUrl w
      = (Retry.Settled (Returns (JArr items)),
         fetched w s (baseUrl ++ "/categories") (with_default_headers None))).
Proof.
  intros Hok Hstatus Hjson Hbody.
  assert (Hread : read_response response = Returns body).
  { unfold read_response. rewrite Hok, Hstatus. exact Hjson. }
  assert (Hunwrap : unwrap_array body = Returns (JArr items)).
  { unfold unwrap_array. destruct Hbody as [->|(Hnot & Hdata)]; [reflexivity|].
    rewrite Hnot. exact Hdata. }
  split.
  - intros filters Htransport. unfold getProperties.
    pose proof (request_answered _ None w response s Htransport) as Hrequest.
    rewrite Hread in Hrequest.
    rewrite (retryableRequest_first_success _ _ _ _ _ Hrequest).
    cbn [and_then]. rewrite Hunwrap. reflexivity.
  - intros Htransport. unfold getCategories.
    pose proof (request_answered Config.API_ENDPOINTS_categories None w response s
                  Htransport) as Hrequest.
    rewrite Hread in Hrequest.
    rewrite (retryableRequest_first_success _ _ _ _ _ Hrequest).
    cbn [and_then]. rewrite Hunwrap. reflexivity.
Qed.

(** X12.  A success with status 204 is not read: [deleteProperty]
    fulfils with undefined whatever the body is, also when it is not
    JSON.  A success with another status whose body cannot be parsed
    makes [deleteProperty] reject, with the message of the parse error
    and status code 500, although the server reported success. *)
Theorem deleteProperty_reads_body id w response s :
  transport (baseUrl ++ "/properties" ++ "/" ++ id)
    {| method := Some "DELETE";
       headers := [("Content-Type", "application/json")];
       body := None |} (server w)
  = (Returns response, s) ->
  ok response = true ->
  let w1 := fetched w s (baseUrl ++ "/properties" ++ "/" ++ id)
              {| method := Some "DELETE";
                 headers := [("Content-Type", "application/json")];
                 body := None |} in
  (strict_eq_num (status response) (num_of_Z 204) = true ->
   deleteProperty Server transport baseUrl id w = (Returns JUndefined, w1))
  /\ (forall props (reason : string),
      strict_eq_num (status response) (num_of_Z 204) = false ->
      json response = Throws (JObj KError props) ->
      lookup "statusCode" props = None ->
      get (JObj KError props) "message" = Returns (JStr reason) ->
      deleteProperty Server transport baseUrl id w
      = (Throws (obj [("message", JStr reason); ("statusCode", JNum (num_of_Z 500))]),
         w1)).
Proof.
  intros Htransport Hok w1. subst w1. unfold deleteProperty.
  pose proof (request_answered (Config.API_ENDPOINTS_properties ++ "/" ++ id)
                (Some {| method := Some "DELETE"; headers := []; body := None |})
                w response s Htransport) as Hrequest.
  unfold read_response in Hrequest. rewrite Hok in Hrequest. cbn [negb] in Hrequest.
  split.
  - intros Hstatus. rewrite Hstatus in Hrequest. rewrite Hrequest. reflexivity.
  - intros props reason Hstatus Hjson Hnone Hmessage.
    rewrite Hstatus, Hjson in Hrequest. rewrite Hrequest.
    unfold ErrorHandler.handleError, ErrorHandler.parseError, ErrorHandler.isApiError.
    cbn [typeof_object has_property negb andb instanceof_TypeError instanceof_Error
         is_error_kind and_then_once throw].
    rewrite Hnone. rewrite !andb_false_r.
    unfold ErrorHandler.message_of. rewrite Hmessage. reflexivity.
Qed.

(** X13.  A network failure is not retried: when [fetch] rejects with a
    TypeError that has no [statusCode] and whose message contains
    "fetch", each of the three reads rejects with the network error of
    status code 0 after its single request. *)
Theorem network_failure_not_retried w raw (reason : string) s :
  instanceof_TypeError raw = true ->
  has_property "statusCode" raw = false ->
  get raw "message" = Returns (JStr reason) ->
  str_includes "fetch" reason = true ->
  (forall url init, transport url init (server w) = (Throws raw, s)) ->
  (forall filters,
      getProperties Server transport elapse baseUrl filters w
      = (Retry.Settled (Throws ErrorHandler.network_error),
         fetched w s (baseUrl ++ properties_endpoint filters) (with_default_headers None)))
  /\ (forall id,
      getPropertyById Server transport elapse baseUrl id w
      = (Retry.Settled (Throws ErrorHandler.network_error),
         fetched w s (baseUrl ++ "/properties" ++ "/" ++ id) (with_default_headers None)))
  /\ getCategories Server transport elapse baseUrl w
     = (Retry.Settled (Throws ErrorHandler.network_error),
        fetched w s (baseUrl ++ "/categories") (with_default_headers None)).
Proof.
  intros Htype Hstatus Hmessage Hfetch Hoffline.
  assert (Hrequest : forall endpoint,
    request Server transport baseUrl endpoint None w
    = (Throws ErrorHandler.network_error,
       fetched w s (baseUrl ++ endpoint) (with_default_headers None))).
  { intros endpoint.
    rewrite (request_unanswered endpoint None w raw s (Hoffline _ _)).
    unfold ErrorHandler.handleError.
    rewrite (ErrorHandlerMore.parseError_fetch_rejection raw reason
               Htype Hstatus Hmessage Hfetch).
    reflexivity. }
  assert (Hread : forall endpoint,
    retryableRequest Server transport elapse baseUrl endpoint None w
    = (Retry.Settled (Throws ErrorHandler.network_error),
       fetched w s (baseUrl ++ endpoint) (with_default_headers None))).
  { intros endpoint.
    apply (retryableRequest_permanent endpoint None w _ _ (JNum (num_of_Z 0))
             (Hrequest endpoint)); [reflexivity|].
    intros n Hn. injection Hn as <-. repeat constructor. }
  split; [|split].
  - intros filters. unfold getProperties. rewrite Hread. reflexivity.
  - intros id. unfold getPropertyById. rewrite Hread. reflexivity.
  - unfold getCategories. rewrite Hread. reflexivity.
Qed.

(** A failure answer whose body is not null: what [request] raises. *)
Lemma request_failure_kept endpoint options w response s
    (statusCode message errors : jsval) :
  transport (baseUrl ++ endpoint) (with_default_headers options) (server w)
  = (Returns response, s) ->
  ok response = false ->
  status response = statusCode ->
  get (json_or_empty response) "message" = Returns message ->
  get (json_or_empty response) "errors" = Returns errors ->
  request Server transport baseUrl endpoint options w
  = (Throws (obj [("message",
                   or_else (or_else message (statusText response))
                     (JStr "Request failed"));
                  ("statusCode", statusCode);
                  ("errors", errors)]),
     fetched w s (baseUrl ++ endpoint) (with_default_headers options)).
Proof.
  intros Htransport Hok Hstatus Hmessage Herrors.
  rewrite (request_answered endpoint options w response s Htransport).
  unfold read_response. rewrite Hok, Hmessage, Herrors, Hstatus. reflexivity.
Qed.

(** X14.  A failure status outside the retryable codes is not retried
    and keeps what the server said: when the answer to [getPropertyById]
    has [ok] false, such a status, and a body that is not null,
    the read rejects after its single request with that status as
    [statusCode], with the [errors] of the body, and with the first
    truthy one of: the [message] of the body, the status text,
    "Request failed".  A body that cannot be parsed counts as [{}]. *)
Theorem getPropertyById_permanent_failure id w response s
    (n : jsnum) (message errors : jsval) :
  transport (baseUrl ++ "/properties" ++ "/" ++ id) (with_default_headers None) (server w)
  = (Returns response, s) ->
  ok response = false ->
  status response = JNum n ->
  Forall (fun code => num_same_value_zero n code = false)
    (map num_of_Z [408; 429; 500; 502; 503; 504]) ->
  get (json_or_empty response) "message" = Returns message ->
  get (json_or_empty response) "errors" = Returns errors ->
  getPropertyById Server transport elapse baseUrl id w
  = (Retry.Settled
       (Throws (obj [("message",
                      or_else (or_else message (statusText response))
                        (JStr "Request failed"));
                     ("statusCode", JNum n);
                     ("errors", errors)])),
     fetched w s (baseUrl ++ "/properties" ++ "/" ++ id) (with_default_headers None)).
Proof.
  intros Htransport Hok Hstatus Hunlisted Hmessage Herrors. unfold getPropertyById.
  rewrite (retryableRequest_permanent
             (Config.API_ENDPOINTS_properties ++ "/" ++ id) None w _ _ (JNum n)
             (request_failure_kept (Config.API_ENDPOINTS_properties ++ "/" ++ id)
                None w response s _ _ _ Htransport Hok Hstatus Hmessage Herrors)).
  - reflexivity.
  - reflexivity.
  - intros n' Hn'. injection Hn' as <-. exact Hunlisted.
Qed.

(** A failure whose body is the JSON value [null]: reading its message
    throws, and what [request] raises is that TypeError normalised, with
    status code 500, whatever the status of the response was. *)
Lemma request_null_error_body endpoint options w response s :
  transport (baseUrl ++ endpoint) (with_default_headers options) (server w)
  = (Returns response, s) ->
  ok response = false ->
  json response = Returns JNull ->
  request Server transport baseUrl endpoint options w
  = (Throws (obj [("message", JStr "Cannot read properties");
                  ("statusCode", JNum (num_of_Z 500))]),
     fetched w s (baseUrl ++ endpoint) (with_default_headers options)).
Proof.
  intros Htransport Hok Hjson.
  rewrite (request_answered endpoint options w response s Htransport).
  unfold read_response, json_or_empty. rewrite Hok, Hjson. reflexivity.
Qed.

(** X15.  A failure whose body is the JSON value [null] loses its
    status: whatever status the server sent (a 404, say), the rejection
    carries status code 500, and since 500 is retryable a read against a
    server that keeps answering so issues three requests. *)
Theorem null_error_body_is_retried :
  (forall endpoint options w response s,
      transport (baseUrl ++ endpoint) (with_default_headers options) (server w)
      = (Returns response, s) ->
      ok response = false ->
      json response = Returns JNull ->
      exists error,
        request Server transport baseUrl endpoint options w
        = (Throws error, fetched w s (baseUrl ++ endpoint) (with_default_headers options))
        /\ get error "statusCode" = Returns (JNum (num_of_Z 500)))
  /\ ((forall url init s0, exists response s',
          transport url init s0 = (Returns response, s')
          /\ ok response = false
          /\ json response = Returns JNull) ->
      forall id w,
        requests (snd (getPropertyById Server transport elapse baseUrl id w))
        = (requests w
           ++ repeat ((baseUrl ++ "/properties" ++ "/" ++ id)%string,
                      with_default_headers None) 3)%list).
Proof.
  split.
  - intros endpoint options w response s Htransport Hok Hjson.
    eexists. split.
    + exact (request_null_error_body endpoint options w response s Htransport Hok Hjson).
    + reflexivity.
  - intros Hserver id w. unfold getPropertyById.
    rewrite PropertyServiceFacts.and_then_world.
    unfold retryableRequest, Retry.withRetry.
    destruct (RetryFacts.retry_loop_three_failures (Net Server) jsval (sleep Server elapse)
                (request Server transport baseUrl
                   (Config.API_ENDPOINTS_properties ++ "/" ++ id) None)
                (Retry.merge_options (retry_options Server)) 0 JNull
                (Retry.r_delayMs (Retry.merge_options (retry_options Server))) w 500)
      as (e1 & e2 & e3 & w' & Hrun).
    + reflexivity.
    + cbn. tauto.
    + intros attempt error w0. exists tt. reflexivity.
    + intros w0.
      destruct (Hserver (baseUrl ++ (Config.API_ENDPOINTS_properties ++ "/" ++ id))
                  (with_default_headers None) (server w0))
        as (response & s' & Htransport & Hok & Hjson).
      eexists. eexists. exists (num_of_Z 500). split; [|split].
      * exact (request_null_error_body _ None w0 response s' Htransport Hok Hjson).
      * reflexivity.
      * reflexivity.
    + rewrite Hrun. cbn [snd].
      refine (PropertyServiceFacts.retry_loop_requests Server transport elapse baseUrl
                _ None _ 3 _ _ _ _ _ _ _ _ Hrun).
      intros attempt error w0. reflexivity.
Qed.

(** A success whose body is not an object: testing it for [data]
    throws. *)
Lemma unwrap_data_primitive_body (path : string) (init : RequestInit)
    w response s (body : jsval) :
  transport (baseUrl ++ path) (with_default_headers (Some init)) (server w)
  = (Returns response, s) ->
  ok response = true ->
  strict_eq_num (status response) (num_of_Z 204) = false ->
  json response = Returns body ->
  body = JNull \/ (exists b, body = JBool b) \/ (exists n, body = JNum n)
  \/ (exists str, body = JStr str) ->
  exists raised,
    and_then_once Server (request Server transport baseUrl path (Some init) w) unwrap_data
    = (Throws raised, fetched w s (baseUrl ++ path) (with_default_headers (Some init)))
    /\ instanceof_TypeError raised = true
    /\ ErrorHandler.isApiError raised = false.
Proof.
  intros Htransport Hok Hstatus Hjson Hprimitive.
  rewrite (request_answered path (Some init) w response s Htransport).
  unfold read_response. rewrite Hok, Hstatus, Hjson. cbn [negb and_then_once].
  destruct Hprimitive as [-> | [(b & ->) | [(n & ->) | (str & ->)]]];
    eexists; repeat split.
Qed.

(** X16.  Not every rejection is normalised: when a create or an update
    succeeds with a body that is not an object (null, a boolean, a
    number or a string), testing it for [data] throws outside
    [request], and the caller gets that TypeError as it is, which is not
    of the ApiError shape. *)
Theorem mutation_primitive_body w response s (body : jsval) :
  ok response = true ->
  strict_eq_num (status response) (num_of_Z 204) = false ->
  json response = Returns body ->
  body = JNull \/ (exists b, body = JBool b) \/ (exists n, body = JNum n)
  \/ (exists str, body = JStr str) ->
  (forall property,
      transport (baseUrl ++ "/properties")
        {| method := Some "POST";
           headers := [("Content-Type", "application/json")];
           body := Some (JsonText property) |} (server w)
      = (Returns response, s) ->
      exists raised,
        fst (createProperty Server transport baseUrl property w) = Throws raised
        /\ instanceof_TypeError raised = true
        /\ ErrorHandler.isApiError raised = false)
  /\ (forall id property,
      transport (baseUrl ++ "/properties" ++ "/" ++ id)
        {| method := Some "PUT";
           headers := [("Content-Type", "application/json")];
           body := Some (JsonText property) |} (server w)
      = (Returns response, s) ->
      exists raised,
        fst (updateProperty Server transport baseUrl id property w) = Throws raised
        /\ instanceof_TypeError raised = true
        /\ ErrorHandler.isApiError raised = false).
Proof.
  intros Hok Hstatus Hjson Hprimitive. split.
  - intros property Htransport. unfold createProperty.
    destruct (unwrap_data_primitive_body Config.API_ENDPOINTS_properties
                {| method := Some "POST"; headers := [];
                   body := Some (JsonText property) |}
                w response s body Htransport Hok Hstatus Hjson Hprimitive)
      as (raised & Hrun & Htype & Hshape).
    exists raised. rewrite Hrun. repeat split; assumption.
  - intros id property Htransport. unfold updateProperty.
    destruct (unwrap_data_primitive_body (Config.API_ENDPOINTS_properties ++ "/" ++ id)
                {| method := Some "PUT"; headers := [];
                   body := Some (JsonText property) |}
                w response s body Htransport Hok Hstatus Hjson Hprimitive)
      as (raised & Hrun & Htype & Hshape).
    exists raised. rewrite Hrun. repeat split; assumption.
Qed.


End WithNetwork.

Lemma list_reads_unwrap_witness :
  getProperties unit
    (Samples.answering (Samples.ok_json (obj [("data", JArr [JStr "a"; JStr "b"])])))
    Samples.idle Config.default_baseUrl None Samples.fresh_net
  = (Retry.Settled (Returns (JArr [JStr "a"; JStr "b"])),
     fetched Samples.fresh_net tt "http://localhost:5000/api/properties"
       (with_default_headers None)).
Proof.
  apply (proj1 (list_reads_unwrap unit
                  (Samples.answering
                     (Samples.ok_json (obj [("data", JArr [JStr "a"; JStr "b"])])))
                  Samples.idle Config.default_baseUrl Samples.fresh_net
                  (Samples.ok_json (obj [("data", JArr [JStr "a"; JStr "b"])])) tt
                  (obj [("data", JArr [JStr "a"; JStr "b"])]) [JStr "a"; JStr "b"]
                  eq_refl eq_refl eq_refl (or_intror (conj eq_refl eq_refl)))
           None).
  reflexivity.
Defined.

Lemma deleteProperty_reads_body_witness :
  deleteProperty unit (Samples.answering (Samples.empty_body 204))
    Config.default_baseUrl "1" Samples.fresh_net
  = (Returns JUndefined,
     fetched Samples.fresh_net tt "http://localhost:5000/api/properties/1"
       {| method := Some "DELETE";
          headers := [("Content-Type", "application/json")];
          body := None |})
  /\ deleteProperty unit (Samples.answering (Samples.empty_body 200))
       Config.default_baseUrl "1" Samples.fresh_net
     = (Throws (obj [("message", JStr "Unexpected end of JSON input");
                     ("statusCode", JNum (num_of_Z 500))]),
        fetched Samples.fresh_net tt "http://localhost:5000/api/properties/1"
          {| method := Some "DELETE";
             headers := [("Content-Type", "application/json")];
             body := None |}).
Proof.
  split.
  - apply (proj1 (deleteProperty_reads_body unit
                    (Samples.answering (Samples.empty_body 204))
                    Config.default_baseUrl "1" Samples.fresh_net
                    (Samples.empty_body 204) tt eq_refl eq_refl)).
    reflexivity.
  - apply (proj2 (deleteProperty_reads_body unit
                    (Samples.answering (Samples.empty_body 200))
                    Config.default_baseUrl "1" Samples.fresh_net
                    (Samples.empty_body 200) tt eq_refl eq_refl)
             [("message", JStr "Unexpected end of JSON input")]
             "Unexpected end of JSON input");
      reflexivity.
Defined.

Lemma network_failure_not_retried_witness :
  getCategories unit Samples.offline Samples.idle Config.default_baseUrl
    Samples.fresh_net
  = (Retry.Settled (Throws ErrorHandler.network_error),
     fetched Samples.fresh_net tt "http://localhost:5000/api/categories"
       (with_default_headers None)).
Proof.
  apply (network_failure_not_retried unit Samples.offline Samples.idle
           Config.default_baseUrl Samples.fresh_net Samples.failed_to_fetch
           "Failed to fetch" tt);
    try reflexivity.
Defined.

Lemma getPropertyById_permanent_failure_witness :
  getPropertyById unit
    (Samples.answering
       (Samples.failure 404 "Not Found" (obj [("message", JStr "Property not found")])))
    Samples.idle Config.default_baseUrl "1" Samples.fresh_net
  = (Retry.Settled
       (Throws (obj [("message", JStr "Property not found");
                     ("statusCode", JNum (num_of_Z 404));
                     ("errors", JUndefined)])),
     fetched Samples.fresh_net tt "http://localhost:5000/api/properties/1"
       (with_default_headers None)).
Proof.
  apply (getPropertyById_permanent_failure unit
           (Samples.answering
              (Samples.failure 404 "Not Found"
                 (obj [("message", JStr "Property not found")])))
           Samples.idle Config.default_baseUrl "1" Samples.fresh_net
           (Samples.failure 404 "Not Found" (obj [("message", JStr "Property not found")]))
           tt (num_of_Z 404) (JStr "Property not found") JUndefined);
    try reflexivity.
  repeat constructor.
Defined.

Lemma null_error_body_is_retried_witness :
  requests (snd (getPropertyById unit
                   (Samples.answering (Samples.failure 404 "Not Found" JNull))
                   Samples.idle Config.default_baseUrl "1" Samples.fresh_net))
  = repeat ("http://localhost:5000/api/properties/1", with_default_headers None) 3.
Proof.
  apply (proj2 (null_error_body_is_retried unit
                  (Samples.answering (Samples.failure 404 "Not Found" JNull))
                  Samples.idle Config.default_baseUrl)).
  intros url init s0. eexists. exists s0. repeat split.
Defined.

Lemma mutation_primitive_body_witness :
  exists raised,
    fst (createProperty unit (Samples.answering (Samples.ok_json JNull))
           Config.default_baseUrl (obj [("name", JStr "X")]) Samples.fresh_net)
    = Throws raised
    /\ instanceof_TypeError raised = true
    /\ ErrorHandler.isApiError raised = false.
Proof.
  apply (proj1 (mutation_primitive_body unit (Samples.answering (Samples.ok_json JNull))
                  Config.default_baseUrl Samples.fresh_net (Samples.ok_json JNull) tt
                  JNull eq_refl eq_refl eq_refl (or_introl eq_refl))
           (obj [("name", JStr "X")])).
  reflexivity.
Defined.

End PropertyServiceMore.

(** ** Filter-sync controller *)

Module UsePropertiesFacts.
Import JS Types UseProperties.

Lemma reloads_app (a b : list Effect) :
  reloads (a ++ b) = (reloads a ++ reloads b)%list.
Proof.
  induction a as [|e a IH]; [reflexivity|].
  destruct e; cbn; rewrite IH; reflexivity.
Qed.

(** [loadData], up to its [await], raises [isLoading] and calls the API;
    it touches nothing else. *)
Lemma loadData_start_frame f cs st :
  properties (loadData_start f cs st) = properties st
  /\ categories (loadData_start f cs st) = categories st
  /\ filter (loadData_start f cs st) = filter st
  /\ isSubmitting (loadData_start f cs st) = isSubmitting st
  /\ debounceTimerRef (loadData_start f cs st) = debounceTimerRef st
  /\ timeouts (loadData_start f cs st) = timeouts st
  /\ next_handle (loadData_start f cs st) = next_handle st.
Proof.
  unfold loadData_start. destruct (0 <? List.length cs)%nat; repeat split.
Qed.

(** One load, one call of [getProperties], with the filter that the
    render of the load saw. *)
Lemma loadData_start_reloads f cs st :
  reloads (effects (loadData_start f cs st))
  = (reloads (effects st) ++ [load_filters f])%list.
Proof.
  unfold loadData_start. destruct (0 <? List.length cs)%nat; cbn [effects perform setIsLoading].
  - rewrite reloads_app. reflexivity.
  - rewrite !reloads_app. cbn. rewrite app_nil_r. reflexivity.
Qed.

(** *** The debounce timer *)

Lemma filter_out_handle (h : nat) (ts : list Timeout) :
  (forall t, In t ts -> handle t = h) ->
  List.filter (fun t => negb (Nat.eqb (handle t) h)) ts = [].
Proof.
  induction ts as [|t ts IH]; intros Hall; [reflexivity|].
  cbn. rewrite (Hall t (or_introl eq_refl)), Nat.eqb_refl. cbn.
  apply IH. intros t' Hin. apply Hall. right. exact Hin.
Qed.

Lemma clear_pending_empties st :
  one_timer st -> timeouts (clear_pending st) = [].
Proof.
  intros Hone. unfold clear_pending.
  destruct (debounceTimerRef st) as [h|] eqn:Href.
  - cbn. apply filter_out_handle. intros t Hin.
    specialize (Hone t Hin). congruence.
  - destruct (timeouts st) as [|t ts] eqn:Hts; [reflexivity|].
    specialize (Hone t). rewrite Hts in Hone.
    specialize (Hone (or_introl eq_refl)). congruence.
Qed.

Lemma clear_pending_frame st :
  effects (clear_pending st) = effects st
  /\ categories (clear_pending st) = categories st
  /\ filter (clear_pending st) = filter st
  /\ next_handle (clear_pending st) = next_handle st
  /\ debounceTimerRef (clear_pending st) = debounceTimerRef st
  /\ properties (clear_pending st) = properties st.
Proof.
  unfold clear_pending.
  destruct (debounceTimerRef st) eqn:Href; repeat split; cbn; assumption.
Qed.

Lemma clear_pending_one_timer st : one_timer st -> one_timer (clear_pending st).
Proof.
  intros Hone t Hin. rewrite (clear_pending_empties st Hone) in Hin. destruct Hin.
Qed.

Section WithOptions.

Variable options : UsePropertiesOptions.

(** After the effect on [filter] has run, exactly its own timeout is
    pending, for the full quiet period, and nothing was called. *)
Lemma filter_effect_arms st :
  one_timer st ->
  timeouts (filter_effect options st)
  = [{| handle := next_handle st; remaining := debounce options;
        seen_filter := filter st; seen_categories := categories st |}]
  /\ debounceTimerRef (filter_effect options st) = Some (next_handle st)
  /\ effects (filter_effect options st) = effects st.
Proof.
  intros Hone. unfold filter_effect, setTimeout_ref. cbn.
  pose proof (clear_pending_one_timer st Hone) as Hone'.
  rewrite (clear_pending_empties _ Hone').
  destruct (clear_pending_frame (clear_pending st)) as (He & Hc & Hf & Hn & _).
  destruct (clear_pending_frame st) as (He' & Hc' & Hf' & Hn' & _).
  rewrite He, Hc, Hf, Hn, He', Hc', Hf', Hn'. repeat split.
Qed.

Lemma setFilter_arms next st :
  one_timer st ->
  timeouts (setFilter options next st)
  = [{| handle := next_handle st; remaining := debounce options;
        seen_filter := next; seen_categories := categories st |}]
  /\ debounceTimerRef (setFilter options next st) = Some (next_handle st)
  /\ effects (setFilter options next st) = effects st.
Proof.
  intros Hone. unfold setFilter.
  apply (filter_effect_arms (set_filter next st)). exact Hone.
Qed.

(** A change of filter followed by a pause shorter than the quiet
    period calls nothing. *)
Lemma change_then_pause next gap st :
  one_timer st ->
  (gap < debounce options)%nat ->
  one_timer (advance gap (setFilter options next st))
  /\ effects (advance gap (setFilter options next st)) = effects st.
Proof.
  intros Hone Hgap.
  destruct (setFilter_arms next st Hone) as (Htimeouts & Href & Heffects).
  unfold advance. rewrite Htimeouts. cbn [List.filter]. unfold is_due. cbn [remaining].
  assert (Hdue : (debounce options <=? gap)%nat = false) by (apply Nat.leb_gt; exact Hgap).
  rewrite Hdue. cbn. split.
  - intros t Hin. cbn in Hin. destruct Hin as [<-|[]]. cbn. exact Href.
  - exact Heffects.
Qed.

(** A change of filter followed by the quiet period calls
    [getProperties] once, with the filter of that change. *)
Lemma change_then_quiet next dt st :
  one_timer st ->
  (debounce options <= dt)%nat ->
  reloads (effects (advance dt (setFilter options next st)))
  = (reloads (effects st) ++ [load_filters next])%list
  /\ timeouts (advance dt (setFilter options next st)) = [].
Proof.
  intros Hone Hquiet.
  destruct (setFilter_arms next st Hone) as (Htimeouts & Href & Heffects).
  unfold advance. rewrite Htimeouts. cbn [List.filter]. unfold is_due. cbn [remaining].
  assert (Hdue : (debounce options <=? dt)%nat = true) by (apply Nat.leb_le; exact Hquiet).
  rewrite Hdue. cbn [negb map fold_left]. unfold fire.
  cbn [seen_filter seen_categories]. split.
  - rewrite loadData_start_reloads. cbn [effects set_timeouts]. rewrite Heffects.
    reflexivity.
  - destruct (loadData_start_frame next (categories st)
                (set_timeouts [] (setFilter options next st)))
      as (_ & _ & _ & _ & _ & Ht & _).
    rewrite Ht. reflexivity.
Qed.

Lemma steps_app st (a b : list Action) :
  steps options st (a ++ b) = steps options (steps options st a) b.
Proof. unfold steps. apply fold_left_app. Qed.

(** The changes of a burst before the last one call nothing. *)
Lemma burst_prefix_quiet (changes : list (PropertyFilter * nat)) :
  Forall (fun change => (snd change < debounce options)%nat) changes ->
  forall st,
    one_timer st ->
    let st' := steps options st
                 (flat_map (fun change => [SetFilter (fst change); Advance (snd change)])
                    changes) in
    one_timer st' /\ effects st' = effects st.
Proof.
  intros Hgaps. induction Hgaps as [|[f gap] changes Hgap _ IH]; intros st Hone.
  - cbn. split; [exact Hone|reflexivity].
  - cbn [flat_map fst snd app steps fold_left step].
    destruct (change_then_pause f gap st Hone Hgap) as (Hone' & Heffects').
    destruct (IH _ Hone') as (Hone'' & Heffects'').
    split; [exact Hone''|]. unfold steps in Heffects''. rewrite Heffects''.
    exact Heffects'.
Qed.

(** *** The timer invariant *)

Lemma one_timer_frame st st' :
  timeouts st' = timeouts st ->
  debounceTimerRef st' = debounceTimerRef st ->
  one_timer st -> one_timer st'.
Proof.
  intros Ht Hr Hone t Hin. rewrite Hr. apply Hone. rewrite <- Ht. exact Hin.
Qed.

Lemma fold_fire_frame (due : list Timeout) :
  forall st,
    timeouts (fold_left fire due st) = timeouts st
    /\ debounceTimerRef (fold_left fire due st) = debounceTimerRef st.
Proof.
  induction due as [|t due IH]; intros st; [split; reflexivity|].
  cbn [fold_left]. destruct (IH (fire st t)) as (Ht & Hr). rewrite Ht, Hr.
  unfold fire.
  destruct (loadData_start_frame (seen_filter t) (seen_categories t) st)
    as (_ & _ & _ & _ & Hr' & Ht' & _).
  split; assumption.
Qed.

Lemma advance_one_timer dt st : one_timer st -> one_timer (advance dt st).
Proof.
  intros Hone t Hin. unfold advance in *.
  destruct (fold_fire_frame (List.filter (is_due dt) (timeouts st))
              (set_timeouts
                 (map (age dt) (List.filter (fun t => negb (is_due dt t)) (timeouts st)))
                 st)) as (Ht & Hr).
  rewrite Hr. rewrite Ht in Hin. cbn [timeouts set_timeouts debounceTimerRef] in *.
  apply in_map_iff in Hin. destruct Hin as (t0 & <- & Hin0).
  apply filter_In in Hin0. destruct Hin0 as (Hin0 & _).
  cbn [age handle]. apply Hone. exact Hin0.
Qed.

Lemma call_onError_frame err st :
  timeouts (fst (call_onError options err st)) = timeouts st
  /\ debounceTimerRef (fst (call_onError options err st)) = debounceTimerRef st
  /\ properties (fst (call_onError options err st)) = properties st
  /\ categories (fst (call_onError options err st)) = categories st.
Proof.
  unfold call_onError. destruct (onError options); repeat split.
Qed.

Lemma report_and_rethrow_frame {A : Type} err st :
  timeouts (fst (report_and_rethrow options (A := A) err st)) = timeouts st
  /\ debounceTimerRef (fst (report_and_rethrow options (A := A) err st))
     = debounceTimerRef st
  /\ properties (fst (report_and_rethrow options (A := A) err st)) = properties st.
Proof.
  unfold report_and_rethrow, call_onError.
  destruct (onError options) as [cb|]; [destruct (cb err)|]; repeat split.
Qed.

Lemma succeed_frame update message value st :
  timeouts (fst (succeed options update message value st)) = timeouts st
  /\ debounceTimerRef (fst (succeed options update message value st))
     = debounceTimerRef st.
Proof.
  unfold succeed, call_onSuccess, report_and_rethrow, call_onError.
  destruct (onSuccess options) as [cb|]; [destruct (cb message)|];
    try (destruct (onError options) as [cb'|]; [destruct (cb' e)|]);
    repeat split.
Qed.

(** The state after [let '(st, r) := p in (f st, r)]. *)
Lemma fst_then {A : Type} (p : State * A) (f : State -> State) :
  fst (let '(st, r) := p in (f st, r)) = f (fst p).
Proof. destruct p; reflexivity. Qed.

(** Closes [one_timer st'] when [st'] has the timeouts and the ref of a
    state for which it is known. *)
Ltac same_timers Hone :=
  refine (one_timer_frame _ _ _ _ Hone);
  first [ reflexivity
        | apply succeed_frame
        | apply report_and_rethrow_frame
        | apply call_onError_frame
        | apply loadData_start_frame ].

Lemma settled_mutation_one_timer (api : completion Property) update message st :
  one_timer st ->
  one_timer
    (fst (match api with
          | Returns p => succeed options (update p) message (Some p) st
          | Throws err => report_and_rethrow options err st
          end)).
Proof.
  intros Hone. destruct api as [p|err]; same_timers Hone.
Qed.

Lemma step_one_timer st (a : Action) :
  one_timer st -> one_timer (step options st a).
Proof.
  intros Hone.
  destruct a as [next|dt| |seen outcome|input|api|id input|id api|id|id api];
    cbn [step].
  - intros t Hin. destruct (setFilter_arms next st Hone) as (Ht & Hr & _).
    rewrite Ht in Hin. destruct Hin as [<-|[]]. exact Hr.
  - apply advance_one_timer. exact Hone.
  - unfold refresh. same_timers Hone.
  - unfold loadData_settle. destruct outcome as [ps cs|err].
    + destruct (List.length seen =? 0)%nat; same_timers Hone.
    + rewrite fst_then.
      assert (Hone' : one_timer (fst (call_onError options err st)))
        by same_timers Hone.
      same_timers Hone'.
  - unfold createProperty_start. same_timers Hone.
  - unfold createProperty_settle. rewrite fst_then.
    pose proof (settled_mutation_one_timer api (fun p prev => p :: prev)
                  "Property created successfully" st Hone) as Hone'.
    same_timers Hone'.
  - unfold updateProperty_start. same_timers Hone.
  - unfold updateProperty_settle. rewrite fst_then.
    pose proof (settled_mutation_one_timer api
                  (fun p => map (fun q => if String.eqb (Types.id q) id then p else q))
                  "Property updated successfully" st Hone) as Hone'.
    same_timers Hone'.
  - unfold deleteProperty_start. same_timers Hone.
  - unfold deleteProperty_settle. destruct api as [u|err]; same_timers Hone.
Qed.

Lemma mount_one_timer initialFilter : one_timer (mount options initialFilter).
Proof.
  unfold mount. intros t Hin.
  match type of Hin with
  | In t (timeouts (filter_effect options ?s)) =>
      assert (Hone : one_timer s) by (intros t' Hin'; destruct Hin');
      destruct (filter_effect_arms s Hone) as (Ht & Hr & _)
  end.
  rewrite Ht in Hin. destruct Hin as [<-|[]]. exact Hr.
Qed.

(** Whatever happens to a mounted hook, no timeout is pending beside the
    one that the ref points to. *)
Lemma reachable_one_timer initialFilter (actions : list Action) :
  one_timer (steps options (mount options initialFilter) actions).
Proof.
  unfold steps.
  assert (Hgen : forall st, one_timer st -> one_timer (fold_left (step options) actions st)).
  { induction actions as [|a actions IH]; intros st Hone; [exact Hone|].
    cbn [fold_left]. apply IH. apply step_one_timer. exact Hone. }
  apply Hgen. apply mount_one_timer.
Qed.

(** *** Debounce *)

(** What [loadData] passes on is sent as the filter itself would be:
    the fields it blanks are the ones that [getProperties] skips. *)
Lemma load_filters_same_query f :
  PropertyService.build_params (Some (load_filters f))
  = PropertyService.build_params (Some f).
Proof.
  destruct f as [n a pmin pmax ty act].
  unfold PropertyService.build_params, load_filters.
  cbn [PropertyService.optional PropertyService.optional_nullable
       f_name f_address f_priceMin f_priceMax f_type f_active].
  destruct n as [n|]; destruct a as [a|]; destruct pmin, pmax;
    destruct ty as [| |ty]; destruct act; cbn;
    repeat match goal with
      | |- context [String.eqb ?s ""] => destruct (String.eqb s "") eqn:?; cbn
      end;
    try reflexivity; congruence.
Qed.

(** C3.  From a state of the hook in which no timeout is pending beside
    the one of the ref (every state that a mounted hook reaches is such a
    state), a burst of filter changes, each following the previous one
    by less than the quiet period, and then left alone for the quiet
    period, makes exactly one call of [getProperties]; it carries the
    last filter of the burst, as [loadData] passes it.  In particular,
    with the default quiet period, [{name: "A"}] and then, less than
    500 ms later, [{name: "AB"}] make one call, with [{name: "AB"}]. *)
Theorem debounce_collapses_burst :
  (forall st (changes : list (PropertyFilter * nat)) (last : PropertyFilter) (dt : nat),
      one_timer st ->
      Forall (fun change => (snd change < debounce options)%nat) changes ->
      (debounce options <= dt)%nat ->
      reloads (effects (steps options st (burst changes last dt)))
      = (reloads (effects st) ++ [load_filters last])%list)
  /\ (forall st (gap : nat),
      one_timer st ->
      debounceMs options = None ->
      (gap < 500)%nat ->
      reloads (effects (steps options st
                          [SetFilter (Samples.name_filter "A"); Advance gap;
                           SetFilter (Samples.name_filter "AB"); Advance 500]))
      = (reloads (effects st) ++ [Samples.name_filter "AB"])%list).
Proof.
  assert (Hburst :
    forall st changes last dt,
      one_timer st ->
      Forall (fun change => (snd change < debounce options)%nat) changes ->
      (debounce options <= dt)%nat ->
      reloads (effects (steps options st (burst changes last dt)))
      = (reloads (effects st) ++ [load_filters last])%list).
  { intros st changes last dt Hone Hgaps Hquiet.
    unfold burst. rewrite steps_app.
    destruct (burst_prefix_quiet changes Hgaps st Hone) as (Hone' & Heffects).
    cbn [steps fold_left step].
    destruct (change_then_quiet last dt _ Hone' Hquiet) as (Hreloads & _).
    unfold steps in *. rewrite Hreloads, Heffects. reflexivity. }
  split; [exact Hburst|].
  intros st gap Hone Hdefault Hgap.
  assert (Hperiod : debounce options = 500%nat).
  { unfold debounce. rewrite Hdefault. reflexivity. }
  apply (Hburst st [(Samples.name_filter "A", gap)] (Samples.name_filter "AB") 500%nat Hone).
  - constructor; [|constructor]. cbn [snd]. rewrite Hperiod. exact Hgap.
  - rewrite Hperiod. apply Nat.le_refl.
Qed.

(** *** Failures *)




End WithOptions.

Lemma debounce_collapses_burst_witness :
  reloads (effects (steps Samples.reporting_options Samples.loaded_state
                      (burst [(Samples.name_filter "A", 100%nat)]
                         (Samples.name_filter "AB") 500%nat)))
  = (reloads (effects Samples.loaded_state) ++ [Samples.name_filter "AB"])%list
  /\ reloads (effects (steps Samples.default_options
                         (mount Samples.default_options empty_filter)
                         [SetFilter (Samples.name_filter "A"); Advance 499;
                          SetFilter (Samples.name_filter "AB"); Advance 500]))
     = (reloads (effects (mount Samples.default_options empty_filter))
        ++ [Samples.name_filter "AB"])%list.
Proof.
  split.
  - apply (proj1 (debounce_collapses_burst Samples.reporting_options)
             Samples.loaded_state [(Samples.name_filter "A", 100%nat)]
             (Samples.name_filter "AB") 500%nat).
    + intros t [<-|[]]. reflexivity.
    + repeat constructor.
    + apply Nat.le_refl.
  - apply (proj2 (debounce_collapses_burst Samples.default_options)
             (mount Samples.default_options empty_filter) 499%nat).
    + intros t [<-|[]]. reflexivity.
    + reflexivity.
    + apply Nat.lt_succ_diag_r.
Defined.



(** The sample runs, evaluated. *)
Example burst_run :
  reloads (effects (steps Samples.default_options
                      (mount Samples.default_options empty_filter)
                      [SetFilter (Samples.name_filter "A"); Advance 200;
                       SetFilter (Samples.name_filter "AB"); Advance 500]))
  = [empty_filter; Samples.name_filter "AB"].
Proof. reflexivity. Qed.

(** Left alone after mounting, the hook loads a second time when the
    timeout of the first run of the effect fires. *)
Example mount_then_quiet :
  reloads (effects (steps Samples.default_options
                      (mount Samples.default_options empty_filter)
                      [Advance 500]))
  = [empty_filter; empty_filter].
Proof. reflexivity. Qed.

Example failed_load_keeps_lists :
  properties (fst (loadData_settle Samples.reporting_options []
                     (LoadRejected (Samples.api_error "Failed to load" 500))
                     Samples.loaded_state))
  = [Samples.sample_property "1" "Test Property 1";
     Samples.sample_property "2" "Test Property 2"].
Proof. reflexivity. Qed.

End UsePropertiesFacts.

(** ** Filter-sync controller: successes, loads and timers *)

Module UsePropertiesMore.
Import JS Types UseProperties.

Lemma find_filter_other (id other : string) (l : list Property) :
  other <> id ->
  find (fun p => String.eqb (Types.id p) other)
    (List.filter (fun p => negb (String.eqb (Types.id p) id)) l)
  = find (fun p => String.eqb (Types.id p) other) l.
Proof.
  intros Hother. induction l as [|p l IH]; [reflexivity|].
  cbn [List.filter find].
  destruct (String.eqb_spec (Types.id p) id) as [Hid|Hid]; cbn [negb].
  - destruct (String.eqb_spec (Types.id p) other) as [Hp|Hp]; [congruence|exact IH].
  - cbn [find]. destruct (String.eqb (Types.id p) other); [reflexivity|exact IH].
Qed.

Lemma find_filter_same (id : string) (l : list Property) :
  find (fun p => String.eqb (Types.id p) id)
    (List.filter (fun p => negb (String.eqb (Types.id p) id)) l)
  = None.
Proof.
  induction l as [|p l IH]; [reflexivity|].
  cbn [List.filter]. destruct (String.eqb (Types.id p) id) eqn:Hid; cbn [negb].
  - exact IH.
  - cbn [find]. rewrite Hid. exact IH.
Qed.

Lemma filter_absent (id : string) (l : list Property) :
  find (fun p => String.eqb (Types.id p) id) l = None ->
  List.filter (fun p => negb (String.eqb (Types.id p) id)) l = l.
Proof.
  induction l as [|p l IH]; [reflexivity|].
  cbn [find List.filter]. destruct (String.eqb (Types.id p) id); [discriminate|].
  intros Hrest. cbn [negb]. f_equal. exact (IH Hrest).
Qed.

Lemma map_absent (id : string) (updated : Property) (l : list Property) :
  find (fun p => String.eqb (Types.id p) id) l = None ->
  map (fun p => if String.eqb (Types.id p) id then updated else p) l = l.
Proof.
  induction l as [|p l IH]; [reflexivity|].
  cbn [find map]. destruct (String.eqb (Types.id p) id); [discriminate|].
  intros Hrest. f_equal. exact (IH Hrest).
Qed.

Lemma find_map_present (id : string) (updated : Property) (l : list Property) :
  Types.id updated = id ->
  find (fun p => String.eqb (Types.id p) id) l <> None ->
  find (fun p => String.eqb (Types.id p) id)
    (map (fun p => if String.eqb (Types.id p) id then updated else p) l)
  = Some updated.
Proof.
  intros Hupdated. induction l as [|p l IH]; [intros H; contradiction|].
  cbn [find map]. destruct (String.eqb (Types.id p) id) eqn:Hid.
  - intros _. rewrite Hupdated, String.eqb_refl. reflexivity.
  - intros Hrest. rewrite Hid. exact (IH Hrest).
Qed.

Section WithOptions.

Variable options : UsePropertiesOptions.

(** The state and the result of the [try] block after a successful API
    call whose [onSuccess] returns or is absent. *)
Lemma succeed_spec update message value st :
  (forall cb, onSuccess options = Some cb -> cb message = Returns tt) ->
  properties (fst (succeed options update message value st)) = update (properties st)
  /\ effects (fst (succeed options update message value st))
     = (effects st
        ++ match onSuccess options with
           | Some _ => [CallOnSuccess message]
           | None => []
           end)%list
  /\ snd (succeed options update message value st) = Returns value.
Proof.
  intros Hreturns. unfold succeed, call_onSuccess.
  destruct (onSuccess options) as [cb|].
  - rewrite (Hreturns cb eq_refl). repeat split.
  - cbn. rewrite app_nil_r. repeat split.
Qed.

(** The list after the [try] block, whatever the callbacks do. *)
Lemma succeed_properties update message value st :
  properties (fst (succeed options update message value st)) = update (properties st).
Proof.
  unfold succeed, call_onSuccess, report_and_rethrow, call_onError.
  destruct (onSuccess options) as [cb|]; [destruct (cb message)|];
    try (destruct (onError options) as [cb'|]; [destruct (cb' e)|]);
    reflexivity.
Qed.

(** X18.  A successful create puts the returned record in front of the
    list: the list is one longer, the record is at index 0 and is what
    [getPropertyById] finds for its id, and [isSubmitting] is cleared,
    whatever the callbacks do.  When [onSuccess] returns, it has been
    told of the creation and the promise fulfils with the record. *)
Theorem createProperty_prepends (created : Property) (st : State) :
  properties (fst (createProperty_settle options (Returns created) st))
  = created :: properties st
  /\ List.length (properties (fst (createProperty_settle options (Returns created) st)))
     = S (List.length (properties st))
  /\ getPropertyById (Types.id created)
       (fst (createProperty_settle options (Returns created) st))
     = Some created
  /\ isSubmitting (fst (createProperty_settle options (Returns created) st)) = false
  /\ ((forall cb, onSuccess options = Some cb ->
                  cb "Property created successfully" = Returns tt) ->
      snd (createProperty_settle options (Returns created) st) = Returns (Some created)
      /\ effects (fst (createProperty_settle options (Returns created) st))
         = (effects st
            ++ match onSuccess options with
               | Some _ => [CallOnSuccess "Property created successfully"]
               | None => []
               end)%list).
Proof.
  unfold createProperty_settle, getPropertyById.
  pose proof (succeed_properties (fun prev => created :: prev)
                "Property created successfully" (Some created) st) as Hprops.
  pose proof (succeed_spec (fun prev => created :: prev)
                "Property created successfully" (Some created) st) as Hspec.
  destruct (succeed options (fun prev => created :: prev)
              "Property created successfully" (Some created) st) as [st' r].
  cbn [fst snd properties setIsSubmitting isSubmitting effects] in *.
  rewrite Hprops. cbn [find List.length]. rewrite String.eqb_refl.
  repeat split; try reflexivity.
  - apply Hspec. assumption.
  - apply Hspec. assumption.
Qed.

(** X19.  A successful update replaces in place: the list keeps its
    length, every position that held a record with the given id holds
    the returned record, every other position is untouched.  When no
    record has the id the list is unchanged; when one has and the
    returned record carries that id, [getPropertyById] finds the
    returned record. *)
Theorem updateProperty_replaces (id : string) (updated : Property) (st : State) :
  List.length (properties (fst (updateProperty_settle options id (Returns updated) st)))
  = List.length (properties st)
  /\ (forall i,
      nth_error (properties (fst (updateProperty_settle options id (Returns updated) st))) i
      = option_map (fun p => if String.eqb (Types.id p) id then updated else p)
          (nth_error (properties st) i))
  /\ (getPropertyById id st = None ->
      properties (fst (updateProperty_settle options id (Returns updated) st))
      = properties st)
  /\ (Types.id updated = id ->
      getPropertyById id st <> None ->
      getPropertyById id (fst (updateProperty_settle options id (Returns updated) st))
      = Some updated).
Proof.
  unfold updateProperty_settle, getPropertyById.
  pose proof (succeed_properties
                (map (fun p => if String.eqb (Types.id p) id then updated else p))
                "Property updated successfully" (Some updated) st) as Hprops.
  destruct (succeed options _ "Property updated successfully" (Some updated) st)
    as [st' r].
  cbn [fst properties setIsSubmitting] in *. rewrite Hprops.
  split; [apply length_map|]. split; [intros i; apply nth_error_map|]. split.
  - apply map_absent.
  - apply find_map_present.
Qed.

(** X20.  A successful delete removes every record with the given id
    and nothing else: [getPropertyById] finds nothing for that id and
    what it found before for every other id; the list does not grow,
    and it is unchanged when no record had the id. *)
Theorem deleteProperty_removes (id : string) (st : State) :
  getPropertyById id (fst (deleteProperty_settle options id (Returns tt) st)) = None
  /\ (forall other,
      other <> id ->
      getPropertyById other (fst (deleteProperty_settle options id (Returns tt) st))
      = getPropertyById other st)
  /\ (getPropertyById id st = None ->
      properties (fst (deleteProperty_settle options id (Returns tt) st)) = properties st)
  /\ (List.length (properties (fst (deleteProperty_settle options id (Returns tt) st)))
      <= List.length (properties st))%nat.
Proof.
  unfold deleteProperty_settle, getPropertyById.
  rewrite (succeed_properties
             (List.filter (fun p => negb (String.eqb (Types.id p) id)))
             "Property deleted successfully" None st).
  split; [apply find_filter_same|]. split; [|split].
  - intros other Hother. apply find_filter_other. exact Hother.
  - apply filter_absent.
  - apply filter_length_le.
Qed.

(** X21.  A success callback that throws turns a successful create into
    a failure for the caller: the record is in the list all the same,
    [onError] is told what the callback threw, and the promise rejects
    with it. *)
Theorem createProperty_onSuccess_throws (created : Property) (st : State)
    (cb : callback string) (thrown : jsval) :
  onSuccess options = Some cb ->
  cb "Property created successfully" = Throws thrown ->
  (forall cb', onError options = Some cb' -> cb' thrown = Returns tt) ->
  properties (fst (createProperty_settle options (Returns created) st))
  = created :: properties st
  /\ snd (createProperty_settle options (Returns created) st) = Throws thrown
  /\ effects (fst (createProperty_settle options (Returns created) st))
     = (effects st
        ++ CallOnSuccess "Property created successfully"
        :: match onError options with
           | Some _ => [CallOnError thrown]
           | None => []
           end)%list
  /\ isSubmitting (fst (createProperty_settle options (Returns created) st)) = false.
Proof.
  intros Hcb Hthrows Hreported.
  unfold createProperty_settle, succeed, call_onSuccess, report_and_rethrow, call_onError.
  rewrite Hcb, Hthrows.
  destruct (onError options) as [cb'|].
  - rewrite (Hreported cb' eq_refl). cbn. rewrite <- app_assoc. repeat split.
  - cbn. repeat split.
Qed.

(** X22.  A successful load replaces the list of properties by what the
    server returned, whatever the list held, and clears [isLoading]
    without calling back.  The categories are the business of loads
    whose render had none: such a load requests them and stores them; a
    load whose render had categories neither requests them nor changes
    them. *)
Theorem load_success (seen : list Category) (propertiesData : list Property)
    (fetched : list Category) (st : State) :
  properties (fst (loadData_settle options seen (LoadFulfilled propertiesData fetched) st))
  = propertiesData
  /\ isLoading (fst (loadData_settle options seen (LoadFulfilled propertiesData fetched) st))
     = false
  /\ effects (fst (loadData_settle options seen (LoadFulfilled propertiesData fetched) st))
     = effects st
  /\ snd (loadData_settle options seen (LoadFulfilled propertiesData fetched) st)
     = Returns tt
  /\ (seen = [] ->
      categories (fst (loadData_settle options seen
                         (LoadFulfilled propertiesData fetched) st)) = fetched
      /\ forall f st0,
          effects (loadData_start f seen st0)
          = (effects st0 ++ [ApiGetProperties (load_filters f); ApiGetCategories])%list)
  /\ (seen <> [] ->
      categories (fst (loadData_settle options seen
                         (LoadFulfilled propertiesData fetched) st)) = categories st
      /\ forall f st0,
          effects (loadData_start f seen st0)
          = (effects st0 ++ [ApiGetProperties (load_filters f)])%list).
Proof.
  unfold loadData_settle, loadData_start.
  destruct seen as [|c seen']; cbn;
    (split; [reflexivity|]; split; [reflexivity|]; split; [reflexivity|];
     split; [reflexivity|]; split).
  - intros _. split; [reflexivity|]. intros f st0.
    rewrite <- app_assoc. reflexivity.
  - intros Hseen. contradiction.
  - discriminate.
  - intros _. split; reflexivity.
Qed.

(** X23.  Mounting loads twice.  The first run of the effect on [filter]
    schedules a reload like any later run, so a hook that is left alone
    for the quiet period calls [getProperties] a second time with the
    initial filter.  The scheduled load is the one of the first render,
    which had no categories: it requests the categories again, also when
    the first load has delivered them in the meantime. *)
Theorem mount_loads_twice (initialFilter : PropertyFilter) (dt : nat)
    (propertiesData : list Property) (fetched : list Category) :
  (debounce options <= dt)%nat ->
  effects (steps options (mount options initialFilter) [Advance dt])
  = [ApiGetProperties (load_filters initialFilter); ApiGetCategories;
     ApiGetProperties (load_filters initialFilter); ApiGetCategories]
  /\ effects (steps options (mount options initialFilter)
                [LoadSettles [] (LoadFulfilled propertiesData fetched); Advance dt])
     = [ApiGetProperties (load_filters initialFilter); ApiGetCategories;
        ApiGetProperties (load_filters initialFilter); ApiGetCategories].
Proof.
  intros Hquiet.
  assert (Hdue : (debounce options <=? dt)%nat = true) by (apply Nat.leb_le; exact Hquiet).
  split.
  - cbn [steps fold_left step]. unfold mount, filter_effect, advance.
    cbn. unfold is_due. cbn. rewrite Hdue. reflexivity.
  - cbn [steps fold_left step]. unfold mount, filter_effect, advance, loadData_settle.
    cbn. unfold is_due. cbn. rewrite Hdue. reflexivity.
Qed.

Lemma setFilter_filter next st : filter (setFilter options next st) = next.
Proof.
  unfold setFilter, filter_effect, setTimeout_ref. cbn [filter].
  destruct (UsePropertiesFacts.clear_pending_frame (clear_pending (set_filter next st)))
    as (_ & _ & Hf & _).
  destruct (UsePropertiesFacts.clear_pending_frame (set_filter next st))
    as (_ & _ & Hf' & _).
  rewrite Hf, Hf'. reflexivity.
Qed.

(** X24.  A manual refresh loads at once with the current filter and
    leaves the debounce timer alone: a refresh right after a change of
    filter does not replace the scheduled reload, and the same filter is
    loaded twice. *)
Theorem refresh_keeps_timer (st : State) :
  timeouts (refresh st) = timeouts st
  /\ debounceTimerRef (refresh st) = debounceTimerRef st
  /\ reloads (effects (refresh st))
     = (reloads (effects st) ++ [load_filters (filter st)])%list
  /\ (one_timer st ->
      forall next dt,
        (debounce options <= dt)%nat ->
        reloads (effects (steps options st [SetFilter next; Refresh; Advance dt]))
        = (reloads (effects st) ++ [load_filters next; load_filters next])%list).
Proof.
  unfold refresh.
  destruct (UsePropertiesFacts.loadData_start_frame (filter st) (categories st) st)
    as (_ & _ & _ & _ & Hr & Ht & _).
  split; [exact Ht|]. split; [exact Hr|].
  split; [apply UsePropertiesFacts.loadData_start_reloads|].
  intros Hone next dt Hquiet. cbn [steps fold_left step]. unfold refresh.
  destruct (UsePropertiesFacts.setFilter_arms options next st Hone)
    as (Htimeouts & Href & Heffects).
  set (changed := setFilter options next st) in *.
  destruct (UsePropertiesFacts.loadData_start_frame (filter changed) (categories changed)
              changed) as (_ & _ & _ & _ & _ & Ht' & _).
  assert (Hdue : (debounce options <=? dt)%nat = true) by (apply Nat.leb_le; exact Hquiet).
  unfold advance. rewrite Ht', Htimeouts. cbn [List.filter]. unfold is_due.
  cbn [remaining]. rewrite Hdue. cbn [negb map fold_left]. unfold fire.
  cbn [seen_filter seen_categories].
  rewrite UsePropertiesFacts.loadData_start_reloads. cbn [effects set_timeouts].
  rewrite UsePropertiesFacts.loadData_start_reloads.
  unfold changed at 2. rewrite setFilter_filter. rewrite Heffects.
  rewrite <- app_assoc. reflexivity.
Qed.

Lemma call_onError_filter err st :
  filter (fst (call_onError options err st)) = filter st.
Proof. unfold call_onError. destruct (onError options); reflexivity. Qed.

Lemma report_and_rethrow_filter {A : Type} err st :
  filter (fst (report_and_rethrow options (A := A) err st)) = filter st.
Proof.
  unfold report_and_rethrow, call_onError.
  destruct (onError options) as [cb|]; [destruct (cb err)|]; reflexivity.
Qed.

Lemma succeed_filter update message value st :
  filter (fst (succeed options update message value st)) = filter st.
Proof.
  unfold succeed, call_onSuccess, report_and_rethrow, call_onError.
  destruct (onSuccess options) as [cb|]; [destruct (cb message)|];
    try (destruct (onError options) as [cb'|]; [destruct (cb' e)|]);
    reflexivity.
Qed.

(** The parts of the state that only a change of filter or the passing
    of time can touch. *)
Lemma other_actions_frame (st : State) (a : Action) :
  (forall next, a <> SetFilter next) ->
  (forall dt, a <> Advance dt) ->
  timeouts (step options st a) = timeouts st
  /\ debounceTimerRef (step options st a) = debounceTimerRef st
  /\ filter (step options st a) = filter st.
Proof.
  intros Hset Hadvance.
  destruct a as [next|dt| |seen outcome|input|api|id input|id api|id|id api];
    [exfalso; exact (Hset next eq_refl) | exfalso; exact (Hadvance dt eq_refl) | ..];
    cbn [step].
  - unfold refresh.
    destruct (UsePropertiesFacts.loadData_start_frame (filter st) (categories st) st)
      as (_ & _ & Hf & _ & Hr & Ht & _).
    repeat split; assumption.
  - unfold loadData_settle. destruct outcome as [ps cs|err].
    + destruct (List.length seen =? 0)%nat; repeat split.
    + rewrite UsePropertiesFacts.fst_then. cbn [timeouts debounceTimerRef filter setIsLoading].
      destruct (UsePropertiesFacts.call_onError_frame options err st) as (Ht & Hr & _).
      repeat split; [exact Ht|exact Hr|apply call_onError_filter].
  - repeat split.
  - unfold createProperty_settle. rewrite UsePropertiesFacts.fst_then.
    cbn [timeouts debounceTimerRef filter setIsSubmitting].
    destruct api as [p|err].
    + destruct (UsePropertiesFacts.succeed_frame options (fun prev => p :: prev)
                  "Property created successfully" (Some p) st) as (Ht & Hr).
      repeat split; [exact Ht|exact Hr|apply succeed_filter].
    + destruct (UsePropertiesFacts.report_and_rethrow_frame options
                  (A := option Property) err st) as (Ht & Hr & _).
      repeat split; [exact Ht|exact Hr|apply report_and_rethrow_filter].
  - repeat split.
  - unfold updateProperty_settle. rewrite UsePropertiesFacts.fst_then.
    cbn [timeouts debounceTimerRef filter setIsSubmitting].
    destruct api as [p|err].
    + destruct (UsePropertiesFacts.succeed_frame options
                  (map (fun q => if String.eqb (Types.id q) id then p else q))
                  "Property updated successfully" (Some p) st) as (Ht & Hr).
      repeat split; [exact Ht|exact Hr|apply succeed_filter].
    + destruct (UsePropertiesFacts.report_and_rethrow_frame options
                  (A := option Property) err st) as (Ht & Hr & _).
      repeat split; [exact Ht|exact Hr|apply report_and_rethrow_filter].
  - repeat split.
  - unfold deleteProperty_settle. destruct api as [u|err].
    + destruct (UsePropertiesFacts.succeed_frame options
                  (List.filter (fun p => negb (String.eqb (Types.id p) id)))
                  "Property deleted successfully" None st) as (Ht & Hr).
      repeat split; [exact Ht|exact Hr|apply succeed_filter].
    + destruct (UsePropertiesFacts.report_and_rethrow_frame options
                  (A := option Property) err st) as (Ht & Hr & _).
      repeat split; [exact Ht|exact Hr|apply report_and_rethrow_filter].
Qed.

Lemma fold_fire_filter (due : list Timeout) :
  forall st, filter (fold_left fire due st) = filter st.
Proof.
  induction due as [|t due IH]; intros st; [reflexivity|].
  cbn [fold_left]. rewrite IH. unfold fire.
  apply UsePropertiesFacts.loadData_start_frame.
Qed.

Lemma step_pending_reload st (a : Action) :
  pending_reload_is_current (debounce options) st ->
  pending_reload_is_current (debounce options) (step options st a).
Proof.
  intros (Hlen & Hall).
  assert (Hone : one_timer st) by (intros t Hin; apply Hall; exact Hin).
  destruct a as [next|dt| |seen outcome|input|api|id input|id api|id|id api].
  1: { cbn [step].
       destruct (UsePropertiesFacts.setFilter_arms options next st Hone)
         as (Htimeouts & Href & _).
       split; [rewrite Htimeouts; cbn; lia|].
       intros t Hin. rewrite Htimeouts in Hin. destruct Hin as [<-|[]].
       cbn [handle seen_filter remaining]. rewrite setFilter_filter.
       repeat split; [exact Href|apply Nat.le_refl]. }
  1: { cbn [step]. unfold advance.
       destruct (UsePropertiesFacts.fold_fire_frame
                   (List.filter (is_due dt) (timeouts st))
                   (set_timeouts
                      (map (age dt)
                         (List.filter (fun t => negb (is_due dt t)) (timeouts st)))
                      st)) as (Ht & Hr).
       unfold pending_reload_is_current. rewrite fold_fire_filter, Ht, Hr.
       cbn [timeouts set_timeouts debounceTimerRef filter].
       split.
       - rewrite length_map.
         pose proof (filter_length_le (fun t => negb (is_due dt t)) (timeouts st)). lia.
       - intros t Hin. apply in_map_iff in Hin. destruct Hin as (t0 & <- & Hin0).
         apply filter_In in Hin0. destruct Hin0 as (Hin0 & _).
         destruct (Hall t0 Hin0) as (Href & Hseen & Hremaining).
         cbn [age handle seen_filter remaining]. repeat split; [exact Href|exact Hseen|lia]. }
  all: match goal with
       | |- pending_reload_is_current _ (step _ ?s ?a) =>
           destruct (other_actions_frame s a) as (Ht & Hr & Hf);
           [intros next; discriminate | intros dt; discriminate |];
           unfold pending_reload_is_current; rewrite Ht, Hr, Hf;
           split; [exact Hlen | exact Hall]
       end.
Qed.

(** X25.  In every state that a mounted hook reaches, at most one
    timeout is pending; it is the one that the ref points to, it fires
    within the quiet period, and the reload it stands for will use the
    current filter. *)
Theorem pending_reload_invariant (initialFilter : PropertyFilter)
    (actions : list Action) :
  pending_reload_is_current (debounce options)
    (steps options (mount options initialFilter) actions).
Proof.
  unfold steps.
  assert (Hgen : forall st,
             pending_reload_is_current (debounce options) st ->
             pending_reload_is_current (debounce options)
               (fold_left (step options) actions st)).
  { induction actions as [|a actions IH]; intros st Hinv; [exact Hinv|].
    cbn [fold_left]. apply IH. apply step_pending_reload. exact Hinv. }
  apply Hgen. unfold mount, filter_effect, pending_reload_is_current. cbn.
  split; [lia|]. intros t [<-|[]]. cbn. repeat split. apply Nat.le_refl.
Qed.

End WithOptions.

Lemma createProperty_prepends_witness :
  snd (createProperty_settle Samples.reporting_options
         (Returns (Samples.sample_property "3" "X")) Samples.loaded_state)
  = Returns (Some (Samples.sample_property "3" "X"))
  /\ effects (fst (createProperty_settle Samples.reporting_options
                     (Returns (Samples.sample_property "3" "X")) Samples.loaded_state))
     = (effects Samples.loaded_state
        ++ [CallOnSuccess "Property created successfully"])%list.
Proof.
  destruct (createProperty_prepends Samples.reporting_options
              (Samples.sample_property "3" "X") Samples.loaded_state)
    as (_ & _ & _ & _ & Hreported).
  apply Hreported. intros cb Hcb. injection Hcb as <-. reflexivity.
Defined.

Lemma updateProperty_replaces_witness :
  getPropertyById "1"
    (fst (updateProperty_settle Samples.reporting_options "1"
            (Returns (Samples.sample_property "1" "Updated Property"))
            Samples.loaded_state))
  = Some (Samples.sample_property "1" "Updated Property").
Proof.
  destruct (updateProperty_replaces Samples.reporting_options "1"
              (Samples.sample_property "1" "Updated Property") Samples.loaded_state)
    as (_ & _ & _ & Hfound).
  apply Hfound; [reflexivity|]. vm_compute. discriminate.
Defined.

Lemma deleteProperty_removes_witness :
  getPropertyById "2"
    (fst (deleteProperty_settle Samples.reporting_options "1" (Returns tt)
            Samples.loaded_state))
  = getPropertyById "2" Samples.loaded_state.
Proof.
  destruct (deleteProperty_removes Samples.reporting_options "1" Samples.loaded_state)
    as (_ & Hothers & _).
  apply Hothers. discriminate.
Defined.

Lemma createProperty_onSuccess_throws_witness :
  properties (fst (createProperty_settle (Samples.throwing_success (JStr "toast failed"))
                     (Returns (Samples.sample_property "3" "X")) Samples.loaded_state))
  = Samples.sample_property "3" "X" :: properties Samples.loaded_state
  /\ snd (createProperty_settle (Samples.throwing_success (JStr "toast failed"))
            (Returns (Samples.sample_property "3" "X")) Samples.loaded_state)
     = Throws (JStr "toast failed")
  /\ effects (fst (createProperty_settle (Samples.throwing_success (JStr "toast failed"))
                     (Returns (Samples.sample_property "3" "X")) Samples.loaded_state))
     = (effects Samples.loaded_state
        ++ [CallOnSuccess "Property created successfully";
            CallOnError (JStr "toast failed")])%list
  /\ isSubmitting (fst (createProperty_settle
                          (Samples.throwing_success (JStr "toast failed"))
                          (Returns (Samples.sample_property "3" "X"))
                          Samples.loaded_state))
     = false.
Proof.
  apply (createProperty_onSuccess_throws (Samples.throwing_success (JStr "toast failed"))
           (Samples.sample_property "3" "X") Samples.loaded_state
           (fun _ => Throws (JStr "toast failed")) (JStr "toast failed"));
    [reflexivity | reflexivity |].
  intros cb Hcb. injection Hcb as <-. reflexivity.
Defined.

Lemma load_success_witness :
  categories (fst (loadData_settle Samples.reporting_options []
                     (LoadFulfilled [Samples.sample_property "1" "Test Property 1"]
                        [{| cat_id := "1"; cat_name := "House"; color := "#3B82F6" |}])
                     (mount Samples.reporting_options empty_filter)))
  = [{| cat_id := "1"; cat_name := "House"; color := "#3B82F6" |}].
Proof.
  destruct (load_success Samples.reporting_options []
              [Samples.sample_property "1" "Test Property 1"]
              [{| cat_id := "1"; cat_name := "House"; color := "#3B82F6" |}]
              (mount Samples.reporting_options empty_filter))
    as (_ & _ & _ & _ & Hnone & _).
  apply Hnone. reflexivity.
Defined.

Lemma mount_loads_twice_witness :
  effects (steps Samples.reporting_options
             (mount Samples.reporting_options empty_filter) [Advance 500])
  = [ApiGetProperties (load_filters empty_filter); ApiGetCategories;
     ApiGetProperties (load_filters empty_filter); ApiGetCategories].
Proof.
  apply (proj1 (mount_loads_twice Samples.reporting_options empty_filter 500%nat [] []
                  (Nat.le_refl 500))).
Defined.

Lemma refresh_keeps_timer_witness :
  reloads (effects (steps Samples.reporting_options Samples.loaded_state
                      [SetFilter (Samples.name_filter "Beach"); Refresh; Advance 500]))
  = (reloads (effects Samples.loaded_state)
     ++ [load_filters (Samples.name_filter "Beach");
         load_filters (Samples.name_filter "Beach")])%list.
Proof.
  destruct (refresh_keeps_timer Samples.reporting_options Samples.loaded_state)
    as (_ & _ & _ & Hboth).
  apply Hboth.
  - intros t [<-|[]]. reflexivity.
  - apply Nat.le_refl.
Defined.

End UsePropertiesMore.

(** ** Toasts *)

Module UseToastFacts.
Import JS UseToast.

Lemma Number_toString_injective (a b : Z) :
  Url.Number_toString a = Url.Number_toString b -> a = b.
Proof.
  intros Hsame.
  pose proof (UrlFacts.Number_toString_decimal a) as Ha.
  pose proof (UrlFacts.Number_toString_decimal b) as Hb.
  rewrite Hsame in Ha. rewrite Ha in Hb. injection Hb as Hb. exact Hb.
Qed.

(** Different counters give different ids. *)
Lemma toast_id_injective (a b : Z) : toast_id a = toast_id b -> a = b.
Proof.
  unfold toast_id. intros Hsame. cbn in Hsame. injection Hsame as Hsame.
  apply Number_toString_injective. exact Hsame.
Qed.

Lemma NoDup_map_filter {A B : Type} (f : A -> B) (keep : A -> bool) (l : list A) :
  NoDup (map f l) -> NoDup (map f (filter keep l)).
Proof.
  induction l as [|x l IH]; cbn; [intros; constructor|].
  intros Hnodup. inversion Hnodup as [|y ys Hnotin Hrest]; subst.
  destruct (keep x); cbn; [|exact (IH Hrest)].
  constructor; [|exact (IH Hrest)].
  intros Hin. apply Hnotin. apply in_map_iff in Hin. destruct Hin as (z & Hz & Hin).
  apply filter_In in Hin. apply in_map_iff. exists z. split; [exact Hz|apply Hin].
Qed.

(** Firing timeouts only removes toasts. *)
Lemma fire_all (due : list (nat * string)) :
  forall st,
    toastCounter (fold_left (fun st timer => removeToast (snd timer) st) due st)
    = toastCounter st
    /\ timers (fold_left (fun st timer => removeToast (snd timer) st) due st) = timers st
    /\ (forall toast,
        In toast (toasts (fold_left (fun st timer => removeToast (snd timer) st) due st))
        <-> In toast (toasts st) /\ ~ In (id toast) (map snd due))
    /\ (NoDup (map id (toasts st)) ->
        NoDup (map id (toasts (fold_left (fun st timer => removeToast (snd timer) st)
                                 due st)))).
Proof.
  induction due as [|timer due IH]; intros st.
  - cbn. split; [reflexivity|]. split; [reflexivity|]. split; [|tauto].
    intros toast. tauto.
  - cbn [fold_left]. destruct (IH (removeToast (snd timer) st)) as (Hc & Ht & Hin & Hnodup).
    rewrite Hc, Ht. cbn [removeToast toastCounter timers toasts] in *.
    split; [reflexivity|]. split; [reflexivity|]. split.
    + intros toast. rewrite Hin, filter_In. cbn [map In].
      destruct (String.eqb_spec (id toast) (snd timer)) as [Heq|Hne]; cbn [negb].
      * split; [intros ((_ & Hfalse) & _); discriminate|].
        intros (_ & Hnot). exfalso. apply Hnot. left. symmetry. exact Heq.
      * split.
        -- intros ((Htoast & _) & Hrest). split; [exact Htoast|].
           intros [Hhead|Htail]; [apply Hne; symmetry; exact Hhead|exact (Hrest Htail)].
        -- intros (Htoast & Hnot). split; [split; [exact Htoast|reflexivity]|].
           intros Htail. apply Hnot. right. exact Htail.
    + intros Hunique. apply Hnodup. apply NoDup_map_filter. exact Hunique.
Qed.

Lemma addToast_state type title message duration st :
  toasts (snd (addToast type title message duration st))
  = (toasts st
     ++ [{| id := toast_id (toastCounter st + 1); type := type; title := title;
            message := message;
            duration := match duration with Some d => d | None => 5000 end |}])%list
  /\ toastCounter (snd (addToast type title message duration st)) = (toastCounter st + 1)%Z
  /\ fst (addToast type title message duration st) = toast_id (toastCounter st + 1)
  /\ timers (snd (addToast type title message duration st))
     = if (0 <? match duration with Some d => d | None => 5000 end)%Z
       then (timers st
             ++ [(Z.to_nat match duration with Some d => d | None => 5000 end,
                  toast_id (toastCounter st + 1))])%list
       else timers st.
Proof. repeat split. Qed.

Lemma addToast_ids_issued type title message duration st :
  ids_issued st -> ids_issued (snd (addToast type title message duration st)).
Proof.
  intros (Htoasts & Htimers).
  destruct (addToast_state type title message duration st) as (Ht & Hc & _ & Hm).
  unfold ids_issued. rewrite Ht, Hc, Hm. split.
  - intros toast Hin. apply in_app_iff in Hin. destruct Hin as [Hin|[<-|[]]].
    + destruct (Htoasts toast Hin) as (k & Hk & Hle). exists k. split; [exact Hk|lia].
    + exists (toastCounter st + 1)%Z. split; [reflexivity|lia].
  - intros timer Hin.
    destruct (0 <? _)%Z.
    + apply in_app_iff in Hin. destruct Hin as [Hin|[<-|[]]].
      * destruct (Htimers timer Hin) as (k & Hk & Hle). exists k. split; [exact Hk|lia].
      * exists (toastCounter st + 1)%Z. split; [reflexivity|lia].
    + destruct (Htimers timer Hin) as (k & Hk & Hle). exists k. split; [exact Hk|lia].
Qed.

(** The id that [addToast] hands out is borne by no toast and by no
    pending timeout. *)
Lemma addToast_fresh type title message duration st :
  ids_issued st ->
  ~ In (fst (addToast type title message duration st)) (map id (toasts st))
  /\ ~ In (fst (addToast type title message duration st)) (map snd (timers st)).
Proof.
  intros (Htoasts & Htimers). cbn [addToast fst]. split.
  - intros Hin. apply in_map_iff in Hin. destruct Hin as (toast & Hid & Hin).
    destruct (Htoasts toast Hin) as (k & Hk & Hle).
    rewrite Hk in Hid. apply toast_id_injective in Hid. lia.
  - intros Hin. apply in_map_iff in Hin. destruct Hin as (timer & Hid & Hin).
    destruct (Htimers timer Hin) as (k & Hk & Hle).
    rewrite Hk in Hid. apply toast_id_injective in Hid. lia.
Qed.

Lemma advance_state dt st :
  toastCounter (advance dt st) = toastCounter st
  /\ timers (advance dt st)
     = map (fun timer => ((fst timer - dt)%nat, snd timer))
         (filter (fun timer => negb (fst timer <=? dt)%nat) (timers st))
  /\ (forall toast,
      In toast (toasts (advance dt st))
      <-> In toast (toasts st)
          /\ ~ In (id toast)
                 (map snd (filter (fun timer => (fst timer <=? dt)%nat) (timers st))))
  /\ (NoDup (map id (toasts st)) -> NoDup (map id (toasts (advance dt st)))).
Proof.
  unfold advance.
  destruct (fire_all (filter (fun timer => (fst timer <=? dt)%nat) (timers st))
              {| toasts := toasts st; toastCounter := toastCounter st;
                 timers := map (fun timer => ((fst timer - dt)%nat, snd timer))
                             (filter (fun timer => negb (fst timer <=? dt)%nat)
                                (timers st)) |})
    as (Hc & Ht & Hin & Hnodup).
  rewrite Hc, Ht. split; [reflexivity|]. split; [reflexivity|].
  split; [exact Hin|exact Hnodup].
Qed.

Lemma step_ids_issued st (a : Action) : ids_issued st -> ids_issued (step st a).
Proof.
  intros Hissued. destruct a as [type title message duration|removed|apiError custom|dt];
    cbn [step].
  - apply addToast_ids_issued. exact Hissued.
  - destruct Hissued as (Htoasts & Htimers). split; [|exact Htimers].
    intros toast Hin. cbn in Hin. apply filter_In in Hin. apply Htoasts. apply Hin.
  - unfold errorFromApi. apply addToast_ids_issued. exact Hissued.
  - destruct Hissued as (Htoasts & Htimers).
    destruct (advance_state dt st) as (Hc & Ht & Hin & _).
    unfold ids_issued. rewrite Hc, Ht. split.
    + intros toast Htoast. apply Hin in Htoast. apply Htoasts. apply Htoast.
    + intros timer Htimer. apply in_map_iff in Htimer.
      destruct Htimer as (timer0 & <- & Hin0). apply filter_In in Hin0.
      cbn [snd]. apply Htimers. apply Hin0.
Qed.

Lemma step_unique st (a : Action) :
  ids_issued st ->
  NoDup (map id (toasts st)) -> NoDup (map id (toasts (step st a))).
Proof.
  intros Hissued Hunique.
  assert (Hadd : forall type title message duration,
             NoDup (map id (toasts (snd (addToast type title message duration st))))).
  { intros type title message duration.
    destruct (addToast_fresh type title message duration st Hissued) as (Hfresh & _).
    cbn [addToast snd toasts fst] in *. rewrite map_app. cbn [map id].
    apply NoDup_app; [exact Hunique | repeat constructor; intros [] |].
    intros x Hx [<-|[]]. exact (Hfresh Hx). }
  destruct a as [type title message duration|removed|apiError custom|dt]; cbn [step].
  - apply Hadd.
  - cbn. apply NoDup_map_filter. exact Hunique.
  - unfold errorFromApi. apply Hadd.
  - apply advance_state. exact Hunique.
Qed.

Lemma reachable_ids_issued (counter : Z) (actions : list Action) :
  ids_issued (run (mounted counter) actions)
  /\ NoDup (map id (toasts (run (mounted counter) actions))).
Proof.
  unfold run.
  assert (Hgen : forall st,
             ids_issued st /\ NoDup (map id (toasts st)) ->
             ids_issued (fold_left step actions st)
             /\ NoDup (map id (toasts (fold_left step actions st)))).
  { induction actions as [|a actions IH]; intros st (Hissued & Hunique);
      [split; assumption|].
    cbn [fold_left]. apply IH. split.
    - apply step_ids_issued. exact Hissued.
    - apply step_unique; assumption. }
  apply Hgen. split.
  - split; intros x [].
  - constructor.
Qed.

(** A toast whose timeout is pending is gone once the time that the
    timeout has left has passed, whatever else happens. *)
Lemma timer_dismisses (c : Z) (actions : list Action) :
  forall st (budget : nat),
    (c <= toastCounter st)%Z ->
    (In (toast_id c) (map id (toasts st)) ->
     exists r, In (r, toast_id c) (timers st) /\ (1 <= r <= budget)%nat) ->
    (budget <= elapsed actions)%nat ->
    ~ In (toast_id c) (map id (toasts (run st actions))).
Proof.
  induction actions as [|a actions IH]; intros st budget Hcounter Htimer Hbudget.
  - cbn in *. intros Hin. destruct (Htimer Hin) as (r & _ & Hr). lia.
  - assert (Hadd : forall type title message duration,
               (budget <= elapsed actions)%nat ->
               ~ In (toast_id c)
                   (map id (toasts (run (snd (addToast type title message duration st))
                                      actions)))).
    { intros type title message duration Hrest.
      destruct (addToast_state type title message duration st) as (Ht & Hc & _ & Hm).
      apply (IH _ budget); [rewrite Hc; lia | | exact Hrest].
      rewrite Ht, Hm, map_app, in_app_iff. cbn [map id In].
      intros [Hold|[Hnew|[]]].
      - destruct (Htimer Hold) as (r & Hin & Hr). exists r. split; [|exact Hr].
        destruct (0 <? _)%Z; [apply in_app_iff; left|]; exact Hin.
      - apply toast_id_injective in Hnew. lia. }
    destruct a as [type title message duration|removed|apiError custom|dt];
      cbn [run fold_left step elapsed] in *.
    + apply Hadd. exact Hbudget.
    + apply (IH _ budget); [exact Hcounter| |exact Hbudget].
      cbn [removeToast toasts timers]. intros Hin. apply Htimer.
      apply in_map_iff in Hin. destruct Hin as (toast & Hid & Hin).
      apply filter_In in Hin. apply in_map_iff. exists toast. split; [exact Hid|apply Hin].
    + unfold errorFromApi. apply Hadd. exact Hbudget.
    + destruct (advance_state dt st) as (Hc & Ht & Hin & _).
      apply (IH _ (budget - dt)%nat); [rewrite Hc; exact Hcounter| |lia].
      intros Hstill. apply in_map_iff in Hstill. destruct Hstill as (toast & Hid & Htoast).
      apply Hin in Htoast. destruct Htoast as (Htoast & Hnotdue).
      destruct (Htimer ltac:(apply in_map_iff; exists toast; split; assumption))
        as (r & Hr & Hrange).
      assert (Hlate : (fst (r, toast_id c) <=? dt)%nat = false).
      { apply not_true_iff_false. intros Hdue. apply Hnotdue. rewrite Hid.
        apply in_map_iff. exists (r, toast_id c). split; [reflexivity|].
        apply filter_In. split; assumption. }
      cbn [fst] in Hlate. apply Nat.leb_gt in Hlate.
      exists (r - dt)%nat. split; [|lia].
      rewrite Ht. apply in_map_iff. exists (r, toast_id c). split; [reflexivity|].
      apply filter_In. split; [exact Hr|]. cbn [fst].
      apply negb_true_iff. apply Nat.leb_gt. exact Hlate.
Qed.

(** X26.  Toast ids are unique: in every state that the hook reaches,
    from whatever value of the module counter, no two toasts share an
    id, and the id that the next [addToast] returns is the id of no
    toast on display and of no pending timeout. *)
Theorem toast_ids_unique (counter : Z) (actions : list Action) :
  NoDup (map id (toasts (run (mounted counter) actions)))
  /\ forall type title message duration,
      ~ In (fst (addToast type title message duration (run (mounted counter) actions)))
          (map id (toasts (run (mounted counter) actions)))
      /\ ~ In (fst (addToast type title message duration (run (mounted counter) actions)))
             (map snd (timers (run (mounted counter) actions))).
Proof.
  destruct (reachable_ids_issued counter actions) as (Hissued & Hunique).
  split; [exact Hunique|].
  intros type title message duration. apply addToast_fresh. exact Hissued.
Qed.

(** X27.  A toast with a positive duration dismisses itself: once that
    many milliseconds have passed since it was added, it is no longer
    among the toasts, whatever was added or removed in the meantime.
    Without a duration argument the duration is 5000. *)
Theorem toast_is_dismissed (st : State) (type : ToastType) (title message : string)
    (duration : option Z) (actions : list Action) :
  (0 < match duration with Some d => d | None => 5000 end)%Z ->
  (Z.to_nat match duration with Some d => d | None => 5000 end <= elapsed actions)%nat ->
  In (fst (addToast type title message duration st))
    (map id (toasts (snd (addToast type title message duration st))))
  /\ ~ In (fst (addToast type title message duration st))
         (map id (toasts (run (snd (addToast type title message duration st)) actions))).
Proof.
  intros Hpositive Helapsed.
  destruct (addToast_state type title message duration st) as (Ht & Hc & Hid & Hm).
  rewrite Hid. split.
  - rewrite Ht, map_app, in_app_iff. right. left. reflexivity.
  - apply (timer_dismisses _ actions _
             (Z.to_nat match duration with Some d => d | None => 5000 end));
      [rewrite Hc; lia| |exact Helapsed].
    intros _. rewrite Hm.
    assert (Htest : (0 <? match duration with Some d => d | None => 5000 end)%Z = true)
      by (apply Z.ltb_lt; exact Hpositive).
    rewrite Htest. eexists. split; [apply in_app_iff; right; left; reflexivity|]. lia.
Qed.

(** A toast for which no timeout is pending stays until it is removed
    by hand. *)
Lemma untimed_stays (c : Z) (actions : list Action) :
  forall st,
    (c <= toastCounter st)%Z ->
    In (toast_id c) (map id (toasts st)) ->
    ~ In (toast_id c) (map snd (timers st)) ->
    (forall a, In a actions -> a <> Remove (toast_id c)) ->
    In (toast_id c) (map id (toasts (run st actions))).
Proof.
  induction actions as [|a actions IH]; intros st Hcounter Hshown Huntimed Hkept;
    [exact Hshown|].
  assert (Hrest : forall a', In a' actions -> a' <> Remove (toast_id c))
    by (intros a' Hin; apply Hkept; right; exact Hin).
  assert (Hadd : forall type title message duration,
             In (toast_id c)
               (map id (toasts (run (snd (addToast type title message duration st))
                                  actions)))).
  { intros type title message duration.
    destruct (addToast_state type title message duration st) as (Ht & Hc & _ & Hm).
    apply IH; [rewrite Hc; lia| | |exact Hrest].
    - rewrite Ht, map_app, in_app_iff. left. exact Hshown.
    - rewrite Hm. destruct (0 <? _)%Z; [|exact Huntimed].
      rewrite map_app, in_app_iff. cbn [map snd In].
      intros [Hold|[Hnew|[]]]; [exact (Huntimed Hold)|].
      apply toast_id_injective in Hnew. lia. }
  destruct a as [type title message duration|removed|apiError custom|dt];
    cbn [run fold_left step] in *.
  - apply Hadd.
  - apply IH; [exact Hcounter| |exact Huntimed|exact Hrest].
    cbn [removeToast toasts]. apply in_map_iff in Hshown.
    destruct Hshown as (toast & Hid & Hin). apply in_map_iff. exists toast.
    split; [exact Hid|]. apply filter_In. split; [exact Hin|].
    apply negb_true_iff. apply String.eqb_neq. rewrite Hid. intros Heq.
    apply (Hkept (Remove removed) (or_introl eq_refl)). rewrite Heq. reflexivity.
  - unfold errorFromApi. apply Hadd.
  - destruct (advance_state dt st) as (Hc & Ht & Hin & _).
    apply IH; [rewrite Hc; exact Hcounter| | |exact Hrest].
    + apply in_map_iff in Hshown. destruct Hshown as (toast & Hid & Htoast).
      apply in_map_iff. exists toast. split; [exact Hid|]. apply Hin.
      split; [exact Htoast|]. rewrite Hid. intros Hdue. apply Huntimed.
      apply in_map_iff in Hdue. destruct Hdue as (timer & Hsnd & Hdue).
      apply filter_In in Hdue. apply in_map_iff. exists timer. split; [exact Hsnd|apply Hdue].
    + rewrite Ht. intros Htimed. apply Huntimed.
      apply in_map_iff in Htimed. destruct Htimed as (aged & Hsnd & Haged).
      apply in_map_iff in Haged. destruct Haged as (timer & <- & Hlater).
      apply filter_In in Hlater. cbn [snd] in Hsnd.
      apply in_map_iff. exists timer. split; [exact Hsnd|apply Hlater].
Qed.

(** X28.  A toast added with a duration that is not positive never
    dismisses itself: in a hook that has been running, it stays among
    the toasts through whatever passes and whatever else is added or
    removed, until [removeToast] is called with its id. *)
Theorem toast_without_duration_stays (counter : Z) (before : list Action)
    (type : ToastType) (title message : string) (d : Z) (actions : list Action) :
  (d <= 0)%Z ->
  (forall a, In a actions ->
             a <> Remove (fst (addToast type title message (Some d)
                                 (run (mounted counter) before)))) ->
  In (fst (addToast type title message (Some d) (run (mounted counter) before)))
    (map id (toasts (run (snd (addToast type title message (Some d)
                                 (run (mounted counter) before)))
                       actions))).
Proof.
  intros Hnone Hkept.
  destruct (reachable_ids_issued counter before) as (Hissued & _).
  destruct (addToast_fresh type title message (Some d) _ Hissued) as (_ & Huntimed).
  destruct (addToast_state type title message (Some d) (run (mounted counter) before))
    as (Ht & Hc & Hid & Hm).
  rewrite Hid in *.
  apply untimed_stays; [rewrite Hc; lia| | |exact Hkept].
  - rewrite Ht, map_app, in_app_iff. right. left. reflexivity.
  - rewrite Hm.
    assert (Htest : (0 <? d)%Z = false) by (apply Z.ltb_ge; exact Hnone).
    rewrite Htest. exact Huntimed.
Qed.

(** X29.  A toast made from an API error is an error toast titled
    "Server Error" when the status code is at least 500 and a warning
    titled "Error" otherwise; it shows the custom message when one is
    given and not empty, else the user-friendly message of the error;
    and it dismisses itself after 5000 ms. *)
Theorem errorFromApi_toast (st : State) (apiError : ErrorHandler.ApiError)
    (customMessage : option string) :
  toasts (snd (errorFromApi apiError customMessage st))
  = (toasts st
     ++ [{| id := fst (errorFromApi apiError customMessage st);
            type := if num_le (num_of_Z 500) (ErrorHandler.statusCode apiError)
                    then Error else Warning;
            title := if num_le (num_of_Z 500) (ErrorHandler.statusCode apiError)
                     then "Server Error" else "Error";
            message := match customMessage with
                       | Some custom =>
                           if String.eqb custom ""
                           then ErrorHandler.getUserFriendlyMessage apiError
                           else custom
                       | None => ErrorHandler.getUserFriendlyMessage apiError
                       end;
            duration := 5000 |}])%list
  /\ forall actions,
      (5000 <= elapsed actions)%nat ->
      ~ In (fst (errorFromApi apiError customMessage st))
          (map id (toasts (run (snd (errorFromApi apiError customMessage st)) actions))).
Proof.
  unfold errorFromApi, ErrorHandler.createErrorNotification.
  cbn [ErrorHandler.type ErrorHandler.title ErrorHandler.text ErrorHandler.duration
       option_map].
  change (milliseconds (num_of_Z 5000)) with 5000%Z.
  split.
  - cbn [addToast snd fst toasts].
    destruct (num_le (num_of_Z 500) (ErrorHandler.statusCode apiError)); reflexivity.
  - intros actions Helapsed.
    match goal with
    | |- ~ In (fst (addToast ?ty ?ti ?me ?du ?s)) _ =>
        destruct (addToast_state ty ti me du s) as (Ht & Hc & Hid & Hm);
        rewrite Hid;
        apply (timer_dismisses _ actions _ (Z.to_nat 5000));
        [rewrite Hc; lia | | exact Helapsed]
    end.
    intros _. rewrite Hm. cbn [Z.ltb Z.compare].
    eexists. split; [apply in_app_iff; right; left; reflexivity|]. lia.
Qed.

Lemma toast_is_dismissed_witness :
  In (fst (addToast Success "Saved" "Property created successfully" (Some 3000)
             (mounted 0)))
    (map id (toasts (snd (addToast Success "Saved" "Property created successfully"
                            (Some 3000) (mounted 0)))))
  /\ ~ In (fst (addToast Success "Saved" "Property created successfully" (Some 3000)
                  (mounted 0)))
         (map id (toasts (run (snd (addToast Success "Saved"
                                      "Property created successfully" (Some 3000)
                                      (mounted 0)))
                            [Advance 1000; Add Info "Note" "Still here" (Some 0);
                             Advance 2000]))).
Proof.
  apply (toast_is_dismissed (mounted 0) Success "Saved" "Property created successfully"
           (Some 3000)
           [Advance 1000; Add Info "Note" "Still here" (Some 0); Advance 2000]).
  - reflexivity.
  - vm_compute. apply Nat.leb_le. vm_compute. reflexivity.
Defined.

Lemma toast_without_duration_stays_witness :
  In (fst (addToast Info "Note" "Still here" (Some 0) (run (mounted 0) [])))
    (map id (toasts (run (snd (addToast Info "Note" "Still here" (Some 0)
                                 (run (mounted 0) [])))
                       [Advance 4000; Remove "toast-7"]))).
Proof.
  apply (toast_without_duration_stays 0 [] Info "Note" "Still here" 0
           [Advance 4000; Remove "toast-7"]).
  - apply Z.le_refl.
  - intros a [<-|[<-|[]]]; discriminate.
Defined.

Lemma errorFromApi_toast_witness :
  ~ In (fst (errorFromApi
               {| ErrorHandler.message := "Property not found";
                  ErrorHandler.statusCode := num_of_Z 404;
                  ErrorHandler.errors := None |}
               None (mounted 0)))
      (map id (toasts (run (snd (errorFromApi
                                   {| ErrorHandler.message := "Property not found";
                                      ErrorHandler.statusCode := num_of_Z 404;
                                      ErrorHandler.errors := None |}
                                   None (mounted 0)))
                         [Advance 5000]))).
Proof.
  apply (proj2 (errorFromApi_toast (mounted 0)
                  {| ErrorHandler.message := "Property not found";
                     ErrorHandler.statusCode := num_of_Z 404;
                     ErrorHandler.errors := None |}
                  None)
           [Advance 5000]).
  apply Nat.leb_le. vm_compute. reflexivity.
Defined.

(** A 404 is shown as a warning with the fixed text for that status. *)
Example errorFromApi_not_found :
  toasts (snd (errorFromApi
                 {| ErrorHandler.message := "Property not found";
                    ErrorHandler.statusCode := num_of_Z 404;
                    ErrorHandler.errors := None |}
                 None (mounted 0)))
  = [{| id := "toast-1"; type := Warning; title := "Error";
        message := "The requested resource was not found."; duration := 5000 |}].
Proof. reflexivity. Qed.

End UseToastFacts.
